(* ===== verification/_CoqProject ===== *)
-Q . S2P
Prelude.v
PyStr.v
PyValue.v
Runtime.v
Session.v
Retrieval.v
SalesTools.v
Agent.v
IndexBuilder.v
Json.v
JsonDecode.v
Base64.v
Relay.v
Server.v
App.v
