(* ===== verification/Prelude.v ===== *)
(** * Sales Catalyst: a verification development

    The repository is a voice/text/vision sales assistant.  Its parts:

    - [src/tools/sales_tools.py]: six tools the conversational engine calls
      (briefing, competitor comparison and product questions answered from a
      FAISS retriever; meeting recap, calendar invite and follow-up email
      built from a per-session state dict), all wrapped by the timing
      decorator [time_tool], and the helper [_get_and_init_state] that finds
      the current session through the context variable [session_context].
    - [src/agents/catalyst_agent.py]: the agent: its name, live model, the
      six tools it may call and the instruction prompt that tells the model
      when to call which tool and which result fields to read.
    - [src/main.py]: the server.  [start_agent_session] creates an ADK session
      and a run configuration per modality; [agent_to_client_messaging]
      translates the engine's events into JSON wire messages;
      [client_to_agent_messaging] decodes client frames and forwards them to
      the engine's request queue; [websocket_endpoint] binds the session in
      the context variable and runs the two pumps until the first finishes;
      the FastAPI app routes [/], [/static] and [/ws/{session_id}].
    - [src/create_index.py]: an offline script that splits the PDFs of
      [docs/] into chunks, embeds them and saves the FAISS index that
      sales_tools.py loads at import time.

    Files of this development, in dependency order:

    - [Prelude] (this file): the [sc_scope] notations, the [sc] hint and
      rewrite databases, Ltac helpers, and generic lemmas on strings, lists
      and options shared by every component.
    - [PyStr]: the Python [str] operations the sources use: [str.join],
      [str.split("\n")] (lines), [str.startswith], [repr] of a string, and
      the fixed-point formatting [f"{x:.2f}"] used by the timing decorator.
    - [PyValue]: Python values as stored in the session dict, returned by
      tools and carried by wire messages ([None], [bool], [str], [list],
      [dict] in insertion order), the exceptions the code raises or lets
      through, truthiness, [str()]/[repr()], iteration and [dict.get].
    - [Runtime]: the state and error monad the tools run in: a world with
      the heap of ADK session objects (by reference, so aliasing is
      explicit), the current task's [session_context], stdout and the tape
      of [time.perf_counter] readings; Python exceptions as values.
    - [Session]: ADK [Session] objects, [session_context] and
      [_get_and_init_state]; state reads and writes through the context;
      the frame predicate [frames_at] (a computation touches only the
      session its context holds) with its compositional lemmas.
    - [Retrieval]: the FAISS retriever as an interface ([Retriever] record
      carrying its top-k law), and the module-level load with fallback to
      [None].  [Runtime] also carries [returns], the postcondition on the
      values a computation returns, with its lemmas and the [returns_step]
      tactic.
    - [SalesTools]: [time_tool] and the six tools of sales_tools.py, the
      agent's tool list as a dispatch ([tool_call]), and the theorems C1-C12:
      state flow between the recap, invite and email tools, fallbacks,
      session isolation, the knowledge-base-unavailable paths, the
      transparency of the timing decorator, and a well-formedness invariant
      of the session dict preserved by every tool.
    - [Agent]: the [LlmAgent] record of catalyst_agent.py with the
      instruction verbatim, the [FunctionTool] declaration of each tool
      (the name [functools.wraps] keeps, and the parameters of the
      function's signature with their annotations, transcribed as ADK reads
      them by introspection) and the result schema of each tool.  Theorem
      C39: every tool returns a dict of its schema on every path (the
      recap carries [recap_data] and no [message]).
    - [IndexBuilder]: create_index.py as a script on a small file system
      with stdout, LangChain and FAISS as a collaborator record with its
      law, and [FAISS.load_local] as sales_tools.py calls it.  Lemmas: what
      each run leaves behind (first run, success, failure of
      [from_documents]); theorem C24: after a successful run sales_tools.py
      loads a retriever over the chunks, embedded with the model its
      queries use, so the briefing tool answers from the knowledge base.
    - [Json]: [json.dumps] with CPython's default settings, as the relay
      calls it.  Theorem C37: with [ensure_ascii] every frame is printable
      ASCII, control characters escaped.
    - [JsonDecode]: [json.loads] as CPython's C scanner runs it
      ([scan_once_unicode], [scanstring_unicode], [_match_number_unicode]),
      one mutual recursion over the input suffix with its error positions
      and the [JSONDecodeError] message.  Library lemmas: the fuel
      [loads_fuel] never runs out, and [json.loads] reads back the
      [json.dumps] of a well-formed value, which [Relay] uses for the text
      frames a client sends.
    - [Base64]: [base64.b64encode] and CPython's non-strict
      [base64.b64decode] ([binascii.a2b_base64] as its state machine), with
      the round trip [b64decode (b64encode bs) = bs] proved for every byte
      string.
    - [Relay]: the two pumps of main.py.  The outbound pump is a writer of
      the messages sent with an abort ([Sends]); the inbound pump maps the
      received frames, decoded by [JsonDecode.json_loads], to the requests
      queued and the exception that ends it.  Theorems C13-C22: the
      messages sent for text events (one per part, in order, with the mime
      type chosen by author and partial) and the requests queued for the
      client's text frames, no tool notices without dev_mode, the audio
      base64 round trip across the wire, routing of text, audio and image
      frames, and the error paths that end a pump (inline data without a
      mime type, a frame that is not a JSON object).
    - [Server]: [start_agent_session] and [websocket_endpoint] over all
      connections at once.  A server state holds the heap of session
      objects, [session_service]'s store, the connections (the endpoint's
      phase, the [session_context] of each of its three tasks, both pumps'
      progress, whether the client still has its socket open) and the
      printed log; [server_step] runs one task to its next await (connect,
      start the session, set the context, create the tasks, one
      [send_text] or the next engine event in the outbound pump, one
      [receive_text] in the inbound pump, one tool call, the return from
      [asyncio.wait] with cancellation of the pump still pending) or lets
      a client close its socket, after which [send_text] raises.  Any
      interleaving is a run; [reachable] is the step relation's closure.
      Theorems C23 and C26-C35, by induction on [reachable] with the
      invariant [Inv] or on the run: the pumps hold their own session,
      tools of one connection leave every other session alone, what a pump
      delivered is a prefix of the [Relay] function's output (all of it
      unless a send failed), the inbound pump refines its [Relay]
      function, a closed connection is frozen, a closed client receives
      nothing more, every connection can close within a bound, the clean
      disconnect line is never printed, sessions are never deleted nor
      filled in the service, a duplicate id is refused when the service
      raises on it and gets a fresh session object when it replaces it
      (C36), and a local step of one connection commutes with every action
      of another (C38).
    - [App]: the FastAPI app: the route table in registration order,
      Starlette's first-match dispatch, the [{session_id}] path segment and
      FastAPI's validation of the boolean query parameters.  Theorems C25
      and C40: the endpoint runs exactly for [/ws/] followed by one segment
      with valid parameters, and a parameter that does not validate closes
      the socket before the endpoint runs; the request becomes [Server]'s
      [Connect] action.

    Bounds and fuel: the engine's event stream and the client's frames are
    finite lists, the prefix produced before the pump ends, so the pumps
    and runs terminate by structural recursion; [perf_counter] reads a
    finite tape of clock values, answering 0 once exhausted; times are
    integers in units of 10 microseconds, so the two-decimal millisecond
    figure printed by [time_tool] is exact.  The JSON scanner is the one
    definition on fuel: [loads_fuel s = 2 * length s + 1], enough because
    each nested call consumes at least one character.  The liveness bound
    of C31 is [out_work] (one await per message still to send, per event
    left to take and per message of it) plus five steps of the
    connection's own tasks: start, set the context, create the tasks, the
    outbound pump's end, and the endpoint's return.

    Not modelled: the conversational engine (ADK runner and Gemini Live) is
    not in the repository; its events and the way its stream ends are
    inputs per connection, a tool exception ends that stream, and the
    requests queued are its outputs; how the model follows the instruction is its
    concern; the voice and response-modality settings of the run
    configuration are data only; whether [create_session] replaces or
    refuses a stored id depends on the ADK release, so it is a parameter
    ([DupPolicy]); the PDF loader, the text splitter, the embedding model
    and FAISS are collaborators given by their interfaces; the CORS
    settings are data, and the bytes of the static files are I/O.

    What the theorems show is listed in each file's header; the manifest
    PROJECT.json lists the properties in order of importance. *)

From stdpp Require Export base gmap strings list.
From Stdlib Require Export String Ascii ZArith Lia.

(** ** Notation scope of the development *)

Declare Scope sc_scope.
Delimit Scope sc_scope with sc.

(** The newline character and the one-character string ["\n"]. *)
Definition nl_char : ascii := "010"%char.
Definition nl : string := String nl_char EmptyString.

(** String concatenation under its own infix, so that list [++] and string
    [++] never compete for the same scope in a file. *)
Infix "+s+" := String.append (at level 60, right associativity) : sc_scope.

Open Scope sc_scope.

(** ** Hint databases *)

Create HintDb sc discriminated.
Create Rewrite HintDb sc_rw.

(** ** Generic lemmas on strings *)

(** [string_has c s]: the character [c] occurs in [s]. *)
Fixpoint string_has (c : ascii) (s : string) : bool :=
  match s with
  | EmptyString => false
  | String x s' => if ascii_dec x c then true else string_has c s'
  end.

(** stdpp declares [String.append] [simpl never]; its two defining
    equations are therefore stated once here and used by rewriting. *)
Lemma string_app_nil_l (b : string) : EmptyString +s+ b = b.
Proof. reflexivity. Qed.

Lemma string_app_cons (x : ascii) (a b : string) :
  String x a +s+ b = String x (a +s+ b).
Proof. reflexivity. Qed.

Lemma string_app_assoc (a b c : string) :
  (a +s+ b) +s+ c = a +s+ (b +s+ c).
Proof. induction a as [|x a IH]; [done|]. by rewrite !string_app_cons, IH. Qed.

Lemma string_app_nil_r (a : string) : a +s+ EmptyString = a.
Proof. induction a as [|x a IH]; [done|]. by rewrite string_app_cons, IH. Qed.

#[export] Hint Rewrite string_app_nil_l string_app_cons string_app_assoc
  string_app_nil_r : sc_rw.

Lemma string_has_app c a b :
  string_has c (a +s+ b) = string_has c a || string_has c b.
Proof.
  induction a as [|x a IH]; [done|]. rewrite string_app_cons. simpl.
  destruct (ascii_dec x c); [done | exact IH].
Qed.

#[export] Hint Rewrite string_has_app : sc_rw.

(** ** Generic lemmas on lists and options *)

Lemma in_app_middle {A} (x : A) (l1 l2 l3 : list A) :
  In x l2 -> In x (l1 ++ l2 ++ l3)%list.
Proof. intros H. apply in_or_app. right. apply in_or_app. by left. Qed.

(** Updates of a list at two different indices commute. *)
Lemma list_insert_insert_ne {A} (l : list A) i j x y :
  i <> j -> <[i := x]> (<[j := y]> l) = <[j := y]> (<[i := x]> l).
Proof.
  revert i j. induction l as [|z l IH]; intros [|i] [|j] Hij; cbn; try done.
  by rewrite IH by lia.
Qed.

#[export] Hint Resolve in_app_middle : sc.

(** [sc_norm]: normalise string concatenations with the rewrite base. *)
Ltac sc_norm := autorewrite with sc_rw in *.
