(* ===== verification/PyStr.v ===== *)
(** * PyStr: the Python [str] operations the sources use

    A Python [str] is modelled as a Rocq [string]: a sequence of code points
    below 256 (one [ascii] each).  This file defines [sep.join(xs)]
    ([py_join]), [s.split(c)] for a one-character separator ([split_on],
    and [lines] for ["\n"]), [repr] of a string ([py_repr_str]), decimal
    printing of naturals, and the fixed-point format [f"{x:.2f}"]
    ([fmt_fixed2]) used by the timing decorator of sales_tools.py.  The
    lemmas relate splitting and joining: [split_on] distributes over a
    separator, and splitting a join gives the parts back. *)

From S2P Require Import Prelude.
From Stdlib Require Import DecimalString.

Open Scope sc_scope.

(** ** [sep.join(xs)] *)

Fixpoint py_join (sep : string) (xs : list string) : string :=
  match xs with
  | [] => EmptyString
  | [x] => x
  | x :: xs' => x +s+ sep +s+ py_join sep xs'
  end.

(** ** [s.split(c)] for a one-character separator, and [s.split("\n")] *)

Fixpoint split_on (c : ascii) (s : string) : list string :=
  match s with
  | EmptyString => [EmptyString]
  | String x s' =>
      let r := split_on c s' in
      if ascii_dec x c then EmptyString :: r
      else match r with
           | h :: t => String x h :: t
           | [] => [String x EmptyString]
           end
  end.

Definition lines (s : string) : list string := split_on nl_char s.

(** ** [str.startswith] *)

Fixpoint py_startswith (s prefix : string) : bool :=
  match prefix, s with
  | EmptyString, _ => true
  | String p prefix', String x s' =>
      if ascii_dec p x then py_startswith s' prefix' else false
  | String _ _, EmptyString => false
  end.

(** ** Decimal printing and [f"{x:.2f}"] *)

Definition dec_of_N (n : N) : string := NilZero.string_of_uint (N.to_uint n).

(** [repr] of an [int]: its decimal digits, with a minus sign if it is
    negative. *)
Definition dec_of_Z (z : Z) : string :=
  if (z <? 0)%Z then "-" +s+ dec_of_N (Z.to_N (- z)) else dec_of_N (Z.to_N z).

(** Two decimal digits, zero padded ([0 <= n < 100]). *)
Definition pad2 (n : N) : string :=
  if (n <? 10)%N then "0" +s+ dec_of_N n else dec_of_N n.

(** [fmt_fixed2 d] is Python's [f"{x:.2f}"] for the number [x = d / 100]:
    the model takes durations in hundredths of a millisecond, so that the
    two printed decimals are exact. *)
Definition fmt_fixed2 (d : Z) : string :=
  let a := Z.to_N (Z.abs d) in
  (if (d <? 0)%Z then "-" else EmptyString) +s+
  dec_of_N (a / 100) +s+ "." +s+ pad2 (a mod 100).

(** ** [repr] of a string

    CPython's [unicode_repr]: single quotes unless the string contains a
    single quote and no double quote; backslash and the quote escaped;
    tab, newline and carriage return as [\t], [\n], [\r]; other control
    characters, DEL and the non-printable Latin-1 code points (0x80 to 0xa0
    and the soft hyphen 0xad) as [\xhh]; everything else as is. *)

Definition hex_digit (n : nat) : ascii :=
  if n <? 10 then ascii_of_nat (48 + n) else ascii_of_nat (87 + n).

Definition hex_escape (n : nat) : string :=
  String "\" (String "x" (String (hex_digit (n / 16))
                               (String (hex_digit (n mod 16)) EmptyString))).

Definition latin1_printable (n : nat) : bool :=
  (161 <=? n) && negb (n =? 173).

Definition repr_char (q c : ascii) : string :=
  let n := nat_of_ascii c in
  if ascii_dec c q then String "\" (String c EmptyString)
  else if ascii_dec c "\" then String "\" (String "\" EmptyString)
  else if n =? 9 then String "\" (String "t" EmptyString)
  else if n =? 10 then String "\" (String "n" EmptyString)
  else if n =? 13 then String "\" (String "r" EmptyString)
  else if (n <? 32) || (n =? 127) then hex_escape n
  else if n <? 127 then String c EmptyString
  else if latin1_printable n then String c EmptyString
  else hex_escape n.

Fixpoint repr_body (q : ascii) (s : string) : string :=
  match s with
  | EmptyString => EmptyString
  | String c s' => repr_char q c +s+ repr_body q s'
  end.

Definition squote : ascii := "039"%char.
Definition dquote : ascii := "034"%char.

Definition py_repr_str (s : string) : string :=
  let q := if string_has squote s && negb (string_has dquote s)
           then dquote else squote in
  String q (repr_body q s +s+ String q EmptyString).

(** ** Lemmas: splitting and joining *)

Lemma split_on_nonempty c s : split_on c s <> [].
Proof.
  destruct s as [|x s]; simpl; [done|].
  destruct (ascii_dec x c); [done|]. by destruct (split_on c s).
Qed.

(** Splitting at an occurrence of the separator splits both sides. *)
Lemma split_on_sep c a b :
  split_on c (a +s+ String c b) = (split_on c a ++ split_on c b)%list.
Proof.
  induction a as [|x a IH].
  - rewrite string_app_nil_l. simpl. by destruct (ascii_dec c c).
  - rewrite string_app_cons. simpl. rewrite IH.
    destruct (ascii_dec x c); [done|].
    destruct (split_on c a) eqn:E; [by apply split_on_nonempty in E | done].
Qed.

(** A string without the separator is a single piece. *)
Lemma split_on_single c s :
  string_has c s = false -> split_on c s = [s].
Proof.
  induction s as [|x s IH]; simpl; [done|].
  destruct (ascii_dec x c); [done|]. intros H. by rewrite IH.
Qed.

Lemma py_join_cons_cons sep x y ys :
  py_join sep (x :: y :: ys) = x +s+ sep +s+ py_join sep (y :: ys).
Proof. reflexivity. Qed.

(** Joining with a one-character separator, then splitting, is the
    identity on non-empty lists of separator-free pieces. *)
Lemma split_on_join c xs :
  xs <> [] -> Forall (fun x => string_has c x = false) xs ->
  split_on c (py_join (String c EmptyString) xs) = xs.
Proof.
  intros Hne Hall. induction Hall as [|x xs Hx Hall IH]; [done|].
  destruct xs as [|y ys].
  - by apply split_on_single.
  - rewrite py_join_cons_cons, string_app_cons, string_app_nil_l.
    rewrite split_on_sep, (split_on_single c x), IH by done. done.
Qed.

#[export] Hint Rewrite split_on_sep : sc_rw.

Lemma nl_app (x : string) : nl +s+ x = String nl_char x.
Proof. reflexivity. Qed.

(** A line of [m] is a line of [a ++ "\n" ++ m ++ "\n" ++ b]. *)
Lemma lines_mid a m b x :
  In x (lines m) -> In x (lines (a +s+ nl +s+ m +s+ nl +s+ b)).
Proof.
  intros H. unfold lines in *. rewrite !nl_app, !split_on_sep.
  by apply in_app_middle.
Qed.

(** The lines of a newline-joined list of newline-free, non-empty-list
    parts are the parts. *)
Lemma lines_join xs :
  xs <> [] -> Forall (fun x => string_has nl_char x = false) xs ->
  lines (py_join nl xs) = xs.
Proof. apply split_on_join. Qed.
