(* ===== verification/PyValue.v ===== *)
(** * PyValue: Python values, exceptions and dicts

    The values the sources store in the session state dict, return from
    tools and serialise to the client: [None], [bool], [str], [list] and
    [dict] with string keys kept in insertion order (Python 3.7+ dicts).
    Python's truthiness ([if x:]), [str()] and [repr()], iteration
    ([for x in v]) and [dict.get(k, default)] are defined as the CPython
    builtins behave on these types.  Exceptions are values of [exn]; a
    computation that may raise returns an [outcome].

    The session state dict is a [gmap string value] (its order is never
    observed by the sources); a dict literal that is returned or printed
    keeps its order as an association list [pydict]. *)

From S2P Require Import Prelude PyStr.

Open Scope sc_scope.

(** ** Values *)

#[warnings="-register-all"]
Inductive value :=
| VNone
| VBool (b : bool)
| VInt (z : Z)
| VStr (s : string)
| VList (l : list value)
| VDict (d : list (string * value)).

(** An insertion-ordered dict literal, such as a tool's result. *)
Abbreviation pydict := (list (string * value)).

(** The session state: a dict from string keys to values. *)
Abbreviation state_dict := (gmap string value).

(** ** Exceptions *)

Inductive exn :=
| Exception (msg : string)       (** [raise Exception(msg)] *)
| TypeError (msg : string)
| AttributeError (msg : string)
| ValueError (msg : string)      (** e.g. [json.JSONDecodeError] *)
| BinasciiError (msg : string)   (** [base64.b64decode] on bad input *)
| WebSocketDisconnect            (** the client closed the socket *)
| CancelledError                 (** [task.cancel()] delivered *)
| ExternalError (msg : string).  (** raised inside a library collaborator *)

Inductive outcome (A : Type) :=
| Ok (a : A)
| Raise (e : exn).
Arguments Ok {A} a.
Arguments Raise {A} e.

(** ** Truthiness, [repr], [str] *)

Definition py_truthy (v : value) : bool :=
  match v with
  | VNone => false
  | VBool b => b
  | VInt z => negb (Z.eqb z 0)
  | VStr s => negb (String.eqb s EmptyString)
  | VList l => negb (Nat.eqb (List.length l) 0)
  | VDict d => negb (Nat.eqb (List.length d) 0)
  end.

Fixpoint py_repr (v : value) : string :=
  match v with
  | VNone => "None"
  | VBool true => "True"
  | VBool false => "False"
  | VInt z => dec_of_Z z
  | VStr s => py_repr_str s
  | VList l => "[" +s+ py_join ", " (map py_repr l) +s+ "]"
  | VDict d =>
      "{" +s+ py_join ", "
        (map (fun kv => py_repr_str (fst kv) +s+ ": " +s+ py_repr (snd kv)) d)
      +s+ "}"
  end.

(** [str(v)], which is also what an f-string substitutes for [{v}]. *)
Definition py_str (v : value) : string :=
  match v with
  | VStr s => s
  | _ => py_repr v
  end.

(** ** Iteration: [for x in v] *)

Fixpoint str_chars (s : string) : list value :=
  match s with
  | EmptyString => []
  | String c s' => VStr (String c EmptyString) :: str_chars s'
  end.

Definition py_iter (v : value) : outcome (list value) :=
  match v with
  | VNone => Raise (TypeError "'NoneType' object is not iterable")
  | VBool _ => Raise (TypeError "'bool' object is not iterable")
  | VInt _ => Raise (TypeError "'int' object is not iterable")
  | VStr s => Ok (str_chars s)
  | VList l => Ok l
  | VDict d => Ok (map (fun kv => VStr (fst kv)) d)
  end.

(** ** Dicts *)

(** [d.get(k, default)] on the state dict. *)
Definition dict_get (d : state_dict) (k : string) (default : value) : value :=
  match d !! k with
  | Some v => v
  | None => default
  end.

(** [d[k]] on a dict literal: the first (and only) entry with key [k]. *)
Fixpoint pydict_lookup (k : string) (d : pydict) : option value :=
  match d with
  | [] => None
  | (k', v) :: d' => if String.eqb k k' then Some v else pydict_lookup k d'
  end.

(** [d[k] = v]: an existing key keeps its position. *)
Fixpoint pydict_set (k : string) (v : value) (d : pydict) : pydict :=
  match d with
  | [] => [(k, v)]
  | (k', v') :: d' => if String.eqb k k' then (k, v) :: d' else (k', v') :: pydict_set k v d'
  end.

(** [{k: v for k, v in d.items()}], and the loop [for k, v in d.items():
    r[k] = v] on an empty [r]: a dict copy. *)
Definition dict_of_items (d : pydict) : pydict :=
  fold_left (fun acc kv => pydict_set (fst kv) (snd kv) acc) d [].

(** A list of strings as a Python list value. *)
Definition vstrs (xs : list string) : value := VList (map VStr xs).

(** ** Lemmas *)

Lemma dict_get_insert_eq d k v default :
  dict_get (<[k := v]> d) k default = v.
Proof. unfold dict_get. by rewrite lookup_insert_eq. Qed.

Lemma dict_get_insert_ne d k k' v default :
  k <> k' -> dict_get (<[k := v]> d) k' default = dict_get d k' default.
Proof. intros H. unfold dict_get. by rewrite lookup_insert_ne. Qed.

Lemma dict_get_absent d k default :
  d !! k = None -> dict_get d k default = default.
Proof. intros H. unfold dict_get. by rewrite H. Qed.

Lemma py_iter_vstrs xs : py_iter (vstrs xs) = Ok (map VStr xs).
Proof. reflexivity. Qed.

Lemma py_truthy_vstrs xs : py_truthy (vstrs xs) = negb (Nat.eqb (List.length xs) 0).
Proof. unfold vstrs. simpl. by rewrite length_map. Qed.

#[export] Hint Rewrite dict_get_insert_eq py_iter_vstrs py_truthy_vstrs : sc_rw.
#[export] Hint Rewrite dict_get_insert_ne using congruence : sc_rw.
