(* ===== verification/Runtime.v ===== *)
(** * Runtime: the Python world the tools run in, as a state+error monad

    A tool of sales_tools.py reads the current task's context variable
    [session_context], reads and mutates the ADK [Session] object it finds
    there, prints to stdout and reads [time.perf_counter()].  The [world]
    holds exactly these: the heap of session objects (by reference, so that
    two handles on one object see each other's writes), the context
    variable of the running task, the stdout lines, and the clock readings
    the environment will return next.  [M A] threads the world and returns
    an [outcome]: a Python exception is a value, and the world at the point
    of the [raise] is kept, as Python keeps mutations done before a raise.

    Notation: [x <- c ;; k] and [c ;; k] in [sc_scope]. *)

From S2P Require Import Prelude PyStr PyValue.

Open Scope sc_scope.

(** ** ADK session objects

    [google.adk.sessions.Session]: its identifiers and the mutable [state]
    dict.  Its event history is kept by the library and never read by the
    sources; it is not modelled. *)
Record Session := mkSession {
  sess_id : string;
  sess_app_name : string;
  sess_user_id : string;
  sess_state : state_dict
}.

(** A reference to a heap object. *)
Abbreviation ref := nat.

Record world := mkWorld {
  w_heap : gmap ref Session;   (** live session objects *)
  w_ctx : option ref;          (** [session_context.get()] in this task *)
  w_stdout : list string;      (** printed lines, oldest first *)
  w_clock : list Z             (** next [perf_counter()] readings *)
}.

Definition set_heap (h : gmap ref Session) (w : world) : world :=
  mkWorld h (w_ctx w) (w_stdout w) (w_clock w).
Definition set_ctx (c : option ref) (w : world) : world :=
  mkWorld (w_heap w) c (w_stdout w) (w_clock w).
Definition set_stdout (o : list string) (w : world) : world :=
  mkWorld (w_heap w) (w_ctx w) o (w_clock w).
Definition set_clock (t : list Z) (w : world) : world :=
  mkWorld (w_heap w) (w_ctx w) (w_stdout w) t.

(** ** The monad *)

Definition M (A : Type) : Type := world -> outcome A * world.

Definition ret {A} (a : A) : M A := fun w => (Ok a, w).

Definition bind {A B} (c : M A) (k : A -> M B) : M B :=
  fun w => match c w with
           | (Ok a, w') => k a w'
           | (Raise e, w') => (Raise e, w')
           end.

Definition raise {A} (e : exn) : M A := fun w => (Raise e, w).

(** Lift a collaborator's result into the monad. *)
Definition lift {A} (o : outcome A) : M A := fun w => (o, w).

Notation "x <- c1 ;; c2" := (bind c1 (fun x => c2))
  (at level 100, c1 at next level, right associativity) : sc_scope.
Notation "c1 ;; c2" := (bind c1 (fun _ => c2))
  (at level 100, right associativity) : sc_scope.

(** ** Effects *)

(** [print(s)]: one line on stdout. *)
Definition print (s : string) : M unit :=
  fun w => (Ok tt, set_stdout (w_stdout w ++ [s])%list w).

(** [time.perf_counter()]: the next reading the environment supplies, in
    units of 10 microseconds (so that a difference times 1000 is a whole
    number of hundredths of a millisecond).  When the environment supplies
    no more readings the clock reads 0. *)
Definition perf_counter : M Z :=
  fun w => match w_clock w with
           | t :: ts => (Ok t, set_clock ts w)
           | [] => (Ok 0%Z, w)
           end.

(** [returns P c]: every value [c] returns satisfies [P], from every
    world (a property of the results only, errors and the world aside). *)
Definition returns {A} (P : A -> Prop) (c : M A) : Prop :=
  forall w a w', c w = (Ok a, w') -> P a.

(** ** Monad laws, pointwise *)

Lemma bind_ret_l {A B} (a : A) (k : A -> M B) w : bind (ret a) k w = k a w.
Proof. reflexivity. Qed.

Lemma bind_ret_r {A} (c : M A) w : bind c ret w = c w.
Proof. unfold bind, ret. by destruct (c w) as [[a|e] w']. Qed.

Lemma bind_assoc {A B C} (c : M A) (f : A -> M B) (g : B -> M C) w :
  bind (bind c f) g w = bind c (fun a => bind (f a) g) w.
Proof. unfold bind. by destruct (c w) as [[a|e] w']. Qed.

Lemma bind_ok {A B} (c : M A) (k : A -> M B) w a w' :
  c w = (Ok a, w') -> bind c k w = k a w'.
Proof. intros H. unfold bind. by rewrite H. Qed.

Lemma bind_raise {A B} (c : M A) (k : A -> M B) w e w' :
  c w = (Raise e, w') -> bind c k w = (Raise e, w').
Proof. intros H. unfold bind. by rewrite H. Qed.

Lemma raise_bind {A B} e (k : A -> M B) w : bind (raise e) k w = (Raise e, w).
Proof. reflexivity. Qed.

#[export] Hint Rewrite @bind_ret_l @bind_assoc @raise_bind : sc_rw.

(** ** The world components each effect leaves alone *)

Lemma print_heap s w : w_heap (snd (print s w)) = w_heap w.
Proof. reflexivity. Qed.

Lemma perf_counter_heap w : w_heap (snd (perf_counter w)) = w_heap w.
Proof. unfold perf_counter. by destruct (w_clock w). Qed.

Lemma perf_counter_ctx w : w_ctx (snd (perf_counter w)) = w_ctx w.
Proof. unfold perf_counter. by destruct (w_clock w). Qed.

Lemma perf_counter_stdout w : w_stdout (snd (perf_counter w)) = w_stdout w.
Proof. unfold perf_counter. by destruct (w_clock w). Qed.

(** ** Results of computations *)

Lemma returns_ret {A} (P : A -> Prop) a : P a -> returns P (ret a).
Proof. intros H w b w' [= <- _]. exact H. Qed.

Lemma returns_raise {A} (P : A -> Prop) e : returns P (raise e).
Proof. by intros w a w' [=]. Qed.

Lemma returns_lift {A} (P : A -> Prop) (o : outcome A) :
  (forall a, o = Ok a -> P a) -> returns P (lift o).
Proof. intros H w a w' [= -> _]. by apply H. Qed.

Lemma returns_bind_post {A B} (Q : A -> Prop) (P : B -> Prop) (c : M A) (k : A -> M B) :
  returns Q c -> (forall a, Q a -> returns P (k a)) -> returns P (bind c k).
Proof.
  intros Hc Hk w b w'. unfold bind.
  destruct (c w) as [[a|e] w1] eqn:E; [|done]. apply (Hk a). exact (Hc _ _ _ E).
Qed.

Lemma returns_bind {A B} (P : B -> Prop) (c : M A) (k : A -> M B) :
  (forall a, returns P (k a)) -> returns P (bind c k).
Proof. intros Hk. apply (returns_bind_post (fun _ => True)); [by intros ???|auto]. Qed.

#[export] Hint Resolve returns_ret returns_raise returns_bind : sc.

(** One step of a [returns] goal, chosen by the head of the computation. *)
Ltac returns_step :=
  match goal with
  | |- returns _ (ret _) => apply returns_ret
  | |- returns _ (raise _) => apply returns_raise
  | |- returns _ (bind _ _) => apply returns_bind; intros ?
  | |- returns _ (lift _) => apply returns_lift; intros ? _
  | |- returns _ (let _ := _ in _) => cbv zeta
  | |- returns _ _ => case_match
  end.
