(* ===== verification/Session.v ===== *)
(** * Session: the context variable and the per-session state dict

    sales_tools.py declares [session_context = ContextVar('session_object',
    default=None)]; main.py sets it to the ADK session object of the
    connection, and every state-using tool reaches the session through
    [_get_and_init_state()].  Here:

    - [session_context_get] reads the context variable of the running task;
    - [_get_and_init_state] is the helper, raising [Exception("Fatal Error:
      Could not find session in context.")] when no session is bound, and
      replacing a falsy (empty) state by a fresh empty dict;
    - [state_get] and [state_set] are [state.get(k, default)] and
      [state[k] = v] on the dict of the session object at a reference.

    The helper returns the reference of the session whose [state] dict the
    tool then reads and writes: the dict is owned by that object and no
    other alias to it is created by the sources.

    [frames_at ro c] says that [c], run in a task whose context holds [ro],
    keeps the context and changes no session object other than the one
    [ro] refers to.  Its lemmas compose along [bind]; the hint database
    [frame] and the tactic [frame_solve] prove it for whole tools. *)

From S2P Require Import Prelude PyStr PyValue Runtime.

Open Scope sc_scope.

(** ** Reading and writing session objects *)

Definition session_context_get : M (option ref) := fun w => (Ok (w_ctx w), w).

(** Dereference a session reference.  The references the sources hold are
    always live (Python objects are collected only when unreachable); a
    dangling reference cannot arise and is reported as an error of the
    model. *)
Definition heap_get (r : ref) : M Session :=
  fun w => match w_heap w !! r with
           | Some s => (Ok s, w)
           | None => (Raise (ExternalError "dangling session reference"), w)
           end.

(** The session object [s] with its [state] attribute replaced. *)
Definition with_state (s : Session) (d : state_dict) : Session :=
  mkSession (sess_id s) (sess_app_name s) (sess_user_id s) d.

(** [session.state = d] *)
Definition set_session_state (r : ref) (d : state_dict) : M unit :=
  s <- heap_get r ;;
  fun w => (Ok tt, set_heap (<[r := with_state s d]> (w_heap w)) w).

(** Truthiness of a dict: non-empty. *)
Definition dict_truthy (d : state_dict) : bool := negb (Nat.eqb (size d) 0).

Definition _get_and_init_state : M ref :=
  session <- session_context_get ;;
  match session with
  | None => raise (Exception "Fatal Error: Could not find session in context.")
  | Some r =>
      s <- heap_get r ;;
      (if negb (dict_truthy (sess_state s)) then set_session_state r ∅ else ret tt) ;;
      ret r
  end.

(** [state.get(k, default)] *)
Definition state_get (r : ref) (k : string) (default : value) : M value :=
  s <- heap_get r ;;
  ret (dict_get (sess_state s) k default).

(** [state[k] = v] *)
Definition state_set (r : ref) (k : string) (v : value) : M unit :=
  s <- heap_get r ;;
  set_session_state r (<[k := v]> (sess_state s)).

(** ** The session bound in a world, and the state it holds *)

Definition bound_state (w : world) : option state_dict :=
  match w_ctx w with
  | Some r => sess_state <$> w_heap w !! r
  | None => None
  end.

(** ** Frames *)

Definition frames_at {A} (ro : option ref) (c : M A) : Prop :=
  forall w o w', c w = (o, w') -> w_ctx w = ro ->
    w_ctx w' = ro /\ forall r', ro <> Some r' -> w_heap w' !! r' = w_heap w !! r'.

Create HintDb frame discriminated.

Lemma frames_ret {A} ro (a : A) : frames_at ro (ret a).
Proof. intros w o w' [= <- <-] ?. done. Qed.

Lemma frames_raise {A} ro e : frames_at ro (@raise A e).
Proof. intros w o w' [= <- <-] ?. done. Qed.

Lemma frames_lift {A} ro (x : outcome A) : frames_at ro (lift x).
Proof. intros w o w' [= <- <-] ?. done. Qed.

Lemma frames_print ro s : frames_at ro (print s).
Proof. intros w o w' [= <- <-] ?. done. Qed.

Lemma frames_perf_counter ro : frames_at ro perf_counter.
Proof.
  intros w o w' H ?. unfold perf_counter in H.
  destruct (w_clock w); by inversion H; subst.
Qed.

Lemma frames_heap_get ro r : frames_at ro (heap_get r).
Proof.
  intros w o w' H ?. unfold heap_get in H.
  destruct (w_heap w !! r); by inversion H; subst.
Qed.

Lemma frames_bind {A B} ro (c : M A) (k : A -> M B) :
  frames_at ro c -> (forall a, frames_at ro (k a)) -> frames_at ro (bind c k).
Proof.
  intros Hc Hk w o w' H Hro. unfold bind in H.
  destruct (c w) as [[a|e] w1] eqn:E.
  - destruct (Hc _ _ _ E Hro) as [Hro1 Hh1].
    destruct (Hk a _ _ _ H Hro1) as [Hro2 Hh2].
    split; [done|]. intros r' Hr'. by rewrite Hh2, Hh1.
  - inversion H; subst. by apply (Hc _ _ _ E).
Qed.

Lemma frames_if {A} ro (b : bool) (c1 c2 : M A) :
  frames_at ro c1 -> frames_at ro c2 -> frames_at ro (if b then c1 else c2).
Proof. by destruct b. Qed.

Lemma frames_set_session_state r d : frames_at (Some r) (set_session_state r d).
Proof.
  apply frames_bind; [apply frames_heap_get|].
  intros s w o w' [= <- <-] Hro. split; [done|].
  intros r' Hr'. simpl. rewrite lookup_insert_ne; [done|]. congruence.
Qed.

Lemma frames_state_set r k v : frames_at (Some r) (state_set r k v).
Proof.
  apply frames_bind; [apply frames_heap_get | intros; apply frames_set_session_state].
Qed.

Lemma frames_state_get ro r k d : frames_at ro (state_get r k d).
Proof. apply frames_bind; [apply frames_heap_get | intros; apply frames_ret]. Qed.

#[export] Hint Resolve frames_ret frames_raise frames_lift frames_print
  frames_perf_counter frames_heap_get frames_state_set frames_state_get
  frames_set_session_state : frame.

(** The helper answers the reference held in the context, so a
    continuation that only touches that reference frames the whole. *)
Lemma _get_and_init_state_ctx w r w' :
  _get_and_init_state w = (Ok r, w') -> w_ctx w = Some r.
Proof.
  unfold _get_and_init_state, bind, session_context_get, heap_get.
  destruct (w_ctx w) as [r0|]; [|done].
  destruct (w_heap w !! r0) as [s|]; [|done]. simpl.
  destruct (negb (dict_truthy (sess_state s))).
  - unfold set_session_state, bind, heap_get.
    destruct (w_heap w !! r0); [|done]. by intros [= -> _].
  - by intros [= -> _].
Qed.

Lemma frames_get_and_init_state ro : frames_at ro _get_and_init_state.
Proof.
  intros w o w' H Hro.
  unfold _get_and_init_state, bind, session_context_get, heap_get in H.
  destruct (w_ctx w) as [r0|] eqn:Hc; [|by inversion H; subst].
  destruct (w_heap w !! r0) as [s|] eqn:Hs; [|by inversion H; subst].
  simpl in H. destruct (negb (dict_truthy (sess_state s))).
  - unfold set_session_state, bind, heap_get in H. rewrite Hs in H.
    inversion H; subst. split; [done|]. intros r' Hr'. simpl.
    rewrite lookup_insert_ne; [done|]. congruence.
  - by inversion H; subst.
Qed.

Lemma frames_get_state_bind {B} ro (k : ref -> M B) :
  (forall r, frames_at (Some r) (k r)) ->
  frames_at ro (bind _get_and_init_state k).
Proof.
  intros Hk w o w' H Hro. unfold bind in H.
  destruct (_get_and_init_state w) as [[r|e] w1] eqn:E.
  - pose proof (_get_and_init_state_ctx _ _ _ E) as Hctx.
    destruct (frames_get_and_init_state ro _ _ _ E Hro) as [Hro1 Hh1].
    subst ro. rewrite Hctx in Hro1 |- *.
    destruct (Hk r _ _ _ H Hro1) as [Hro2 Hh2].
    split; [done|]. intros r' Hr'. rewrite Hh2 by done. apply Hh1. by rewrite Hctx.
  - injection H as <- <-. exact (frames_get_and_init_state ro _ _ _ E Hro).
Qed.

(** [frame_solve]: prove [frames_at] of a tool body by following its
    binds, branches and matches. *)
Ltac frame_solve :=
  repeat first
    [ apply frames_get_state_bind; intros ?
    | apply frames_bind; [solve [auto with frame] | intros ?]
    | apply frames_if
    | match goal with |- frames_at _ (match ?x with _ => _ end) => destruct x end
    | solve [auto with frame] ].

(** ** Behaviour of the helpers *)

Lemma set_heap_id w : set_heap (w_heap w) w = w.
Proof. by destruct w. Qed.

Lemma with_state_id s : with_state s (sess_state s) = s.
Proof. by destruct s. Qed.

Lemma with_state_with_state s d1 d2 : with_state (with_state s d1) d2 = with_state s d2.
Proof. reflexivity. Qed.

Lemma sess_state_with_state s d : sess_state (with_state s d) = d.
Proof. reflexivity. Qed.

#[export] Hint Rewrite set_heap_id with_state_id with_state_with_state
  sess_state_with_state : sc_rw.

(** With a session bound, the helper answers its reference and leaves the
    world as it was: replacing an empty state by [{}] changes nothing. *)
Lemma get_and_init_state_bound w r s :
  w_ctx w = Some r -> w_heap w !! r = Some s -> _get_and_init_state w = (Ok r, w).
Proof.
  intros Hc Hs. unfold _get_and_init_state, bind, session_context_get, heap_get.
  rewrite Hc. simpl. rewrite Hs. simpl.
  destruct (dict_truthy (sess_state s)) eqn:Ht; [done|].
  unfold set_session_state, bind, heap_get. cbn [negb]. cbv beta. rewrite Hs. simpl.
  unfold dict_truthy in Ht. apply negb_false_iff, Nat.eqb_eq, map_size_empty_iff in Ht.
  rewrite <- Ht, with_state_id, insert_id by done. by rewrite set_heap_id.
Qed.

(** With no session bound, the helper raises the fatal exception and
    changes nothing. *)
Lemma get_and_init_state_unbound w :
  w_ctx w = None ->
  _get_and_init_state w =
    (Raise (Exception "Fatal Error: Could not find session in context."), w).
Proof. intros Hc. unfold _get_and_init_state, bind, session_context_get. by rewrite Hc. Qed.

Lemma state_get_bound w r s k d :
  w_heap w !! r = Some s -> state_get r k d w = (Ok (dict_get (sess_state s) k d), w).
Proof. intros Hs. unfold state_get, bind, heap_get. by rewrite Hs. Qed.

Lemma state_set_bound w r s k v :
  w_heap w !! r = Some s ->
  state_set r k v w =
    (Ok tt, set_heap (<[r := with_state s (<[k := v]> (sess_state s))]> (w_heap w)) w).
Proof.
  intros Hs. unfold state_set, set_session_state, bind, heap_get. cbv beta.
  rewrite Hs. cbv beta. by rewrite Hs.
Qed.

(** [mstep]: run one [bind] of a computation whose first step is one of
    the helpers above, given the context and heap facts in the goal. *)
Ltac mstep :=
  first
    [ rewrite bind_ret_l
    | erewrite bind_ok;
      [| first [ eapply get_and_init_state_bound
               | eapply state_get_bound
               | eapply state_set_bound
               | reflexivity ];
         simpl; first [ eassumption | by rewrite lookup_insert_eq | done ] ] ].
