(* ===== verification/Retrieval.v ===== *)
(** * Retrieval: the FAISS retriever the RAG tools query

    sales_tools.py loads a FAISS index at import time
    ([FAISS.load_local("faiss_index", ...)]) and builds
    [retriever = db.as_retriever(search_kwargs={'k': 3})]; if loading
    raises, it prints the error and sets [retriever = None].  The vector
    store and the embedding model are library collaborators: they are an
    interface here, a [VectorStore] whose similarity search answers at most
    [k] documents or raises.  A [Retriever] carries its [k] and the law
    that an answer has at most [k] documents; [as_retriever] builds one
    from a store and [load_rag] is the module-level setup. *)

From S2P Require Import Prelude PyStr PyValue.

Open Scope sc_scope.

(** A LangChain [Document]: its text and its metadata. *)
Record Document := mkDocument {
  page_content : string;
  doc_metadata : pydict
}.

(** The vector store collaborator: top-[k] similarity search. *)
Record VectorStore := mkVectorStore {
  similarity_search : string -> nat -> outcome (list Document);
  similarity_search_at_most_k : forall q k ds,
    similarity_search q k = Ok ds -> List.length ds <= k
}.

(** A retriever: [retriever.invoke(query)]. *)
Record Retriever := mkRetriever {
  retriever_k : nat;
  invoke : string -> outcome (list Document);
  invoke_at_most_k : forall q ds, invoke q = Ok ds -> List.length ds <= retriever_k
}.

(** [db.as_retriever(search_kwargs={'k': k})] *)
Definition as_retriever (db : VectorStore) (k : nat) : Retriever :=
  mkRetriever k (fun q => similarity_search db q k)
    (fun q ds H => similarity_search_at_most_k db q k ds H).

(** The message of an exception, [f"{e}"]. *)
Definition exn_message (e : exn) : string :=
  match e with
  | Exception m | TypeError m | AttributeError m | ValueError m
  | BinasciiError m | ExternalError m => m
  | WebSocketDisconnect | CancelledError => EmptyString
  end.

(** Lines 15-20: the retriever, or [None] with the error printed. *)
Definition load_rag (load_local : outcome VectorStore) : option Retriever * list string :=
  match load_local with
  | Ok db => (Some (as_retriever db 3), [])
  | Raise e =>
      (None, ["Could not load FAISS index. Please run create_index.py first. Error: "
              +s+ exn_message e])
  end.

(** A store that answers the first [k] of a fixed list of passages to
    every query: a concrete collaborator to run the tools on. *)
Definition static_store (docs : list Document) : VectorStore.
Proof.
  refine (mkVectorStore (fun _ k => Ok (firstn k docs)) _).
  intros q k ds [= <-]. rewrite length_firstn. lia.
Defined.
