(* ===== verification/SalesTools.v ===== *)
(** * SalesTools: the timing decorator and the six tools of sales_tools.py

    [time_tool] is the decorator of lines 25-48: it wraps a synchronous or
    a coroutine function, reads [perf_counter()] before and after the call,
    prints a [PERFORMANCE] line and returns the wrapped function's result.
    A function is a [pyfunc]: its [__name__] (kept by [functools.wraps]),
    whether it is a coroutine function, and its body in the monad [M].

    Each tool is modelled twice, as the source has it: [<tool>_body] is the
    [def] and [<tool>] is the module attribute, [time_tool] applied to it.
    The RAG tools read the module-level [retriever] (a [Section] variable
    here: [None] when the index could not be loaded); the recap, invite and
    email tools share the session state dict through [_get_and_init_state].

    Theorems, after the definitions:
    - the functional behaviour of each tool on each branch ([*_spec]);
    - the decorator is transparent: same result, same state, one extra
      stdout line on success and none on an exception;
    - the recap/invite/email sequence: the invite's [start_time] carries the
      recap's follow-up date, the email body has one line per discussion
      point, and the invite without a recap uses the fallback values;
    - retrieval unavailable: a structured error from the briefing and the
      comparison tools, an [AttributeError] from [get_product_information];
    - no bound session: every state tool raises the fatal [Exception];
    - every tool changes no session object but the bound one ([frames_at]),
      and keeps the recap keys of the state well typed. *)

From S2P Require Import Prelude PyStr PyValue Runtime Session Retrieval.

Open Scope sc_scope.

(** ** Python functions and the timing decorator *)

Inductive pyfunc (A R : Type) :=
| SyncFunc (name : string) (body : A -> M R)
| AsyncFunc (name : string) (body : A -> M R).
Arguments SyncFunc {A R} name body.
Arguments AsyncFunc {A R} name body.

Definition func_name {A R} (f : pyfunc A R) : string :=
  match f with SyncFunc n _ | AsyncFunc n _ => n end.

(** [asyncio.iscoroutinefunction(f)] *)
Definition iscoroutinefunction {A R} (f : pyfunc A R) : bool :=
  match f with SyncFunc _ _ => false | AsyncFunc _ _ => true end.

(** Calling [f(a)], and awaiting it if it is a coroutine function. *)
Definition call {A R} (f : pyfunc A R) (a : A) : M R :=
  match f with SyncFunc _ b | AsyncFunc _ b => b a end.

Definition perf_line (name : string) (duration : Z) : string :=
  "[PERFORMANCE] Tool '" +s+ name +s+ "' executed in " +s+ fmt_fixed2 duration +s+ " ms".

(** The body shared by [async_wrapper] and [sync_wrapper].  The clock reads
    in units of 10 microseconds, so [(end_time - start_time) * 1000]
    milliseconds is [end_time - start_time] hundredths of a millisecond. *)
Definition timed {A R} (name : string) (func : A -> M R) (a : A) : M R :=
  start_time <- perf_counter ;;
  result <- func a ;;
  end_time <- perf_counter ;;
  let duration := (end_time - start_time)%Z in
  print (perf_line name duration) ;;
  ret result.

Definition time_tool {A R} (func : pyfunc A R) : pyfunc A R :=
  match func with
  | AsyncFunc n b => AsyncFunc n (timed n b)
  | SyncFunc n b => SyncFunc n (timed n b)
  end.

(** ** Tool results *)

Abbreviation tool_result := pydict.

Definition status_error (msg : string) : tool_result :=
  [("status", VStr "error"); ("message", VStr msg)].

Definition status_success_message (msg : string) : tool_result :=
  [("status", VStr "success"); ("message", VStr msg)].

Definition kb_unavailable : string := "Knowledge base is not available.".

(** ["\n---\n".join([doc.page_content for doc in docs])] *)
Definition join_docs (docs : list Document) : string :=
  py_join (nl +s+ "---" +s+ nl) (map page_content docs).

(** ** The recap, invite and email templates *)

Definition recap_client_name : string := "Volta Motors".

Definition recap_data (client_name : string) (discussion_points action_items : list string)
  (follow_up_date : string) : value :=
  VDict [("title", VStr ("Meeting Recap with " +s+ client_name));
         ("key_discussion_points", vstrs discussion_points);
         ("action_items", vstrs action_items);
         ("follow_up_date", VStr follow_up_date)].

Definition invite_attendees : list string :=
  ["alex.richter@henkel.com"; "david.chen@voltamotors.com";
   "maria.rodriguez@voltamotors.com"].

Definition invite_data (client_name product follow_up_date : string) : value :=
  VDict [("subject", VStr ("Follow-Up: " +s+ product +s+ " Trial Results"));
         ("start_time", VStr (follow_up_date +s+ " 10:00 AM"));
         ("location", VStr client_name);
         ("attendees", vstrs invite_attendees);
         ("body", VStr ("This is a follow-up to discuss the trial results of the "
                        +s+ product +s+ " sample for the Gasketing application. "
                        +s+ "We will also cover product availability and PO details."))].

Definition invite_message (follow_up_date : string) : string :=
  "Okay, the calendar invite for the follow-up on " +s+ follow_up_date
  +s+ " has been sent to all participants.".

(** The triple-quoted f-string of lines 204-223. *)
Definition email_body (client_name recap_points_formatted product follow_up_date : string)
  : string :=
  "Dear David and Maria," +s+ nl +s+ nl +s+
  "Thank you again for your time today. It was a pleasure discussing your needs for the "
  +s+ client_name +s+ " EV battery enclosures." +s+ nl +s+ nl +s+
  "To recap our conversation, we covered the following key points:" +s+ nl +s+
  recap_points_formatted +s+ nl +s+ nl +s+
  "As discussed, I have attached the Technical Data Sheet (TDS) for " +s+ product
  +s+ " and a relevant case study." +s+ nl +s+ nl +s+
  "Additionally, based on your concerns about battery performance under harsh "
  +s+ "environmental conditions, I've attached a 2-pager on our battery simulation "
  +s+ "and full-scale testing solutions. I believe it will be highly relevant for "
  +s+ "your upcoming EV launch." +s+ nl +s+ nl +s+
  "I have our follow-up call scheduled for " +s+ follow_up_date
  +s+ " to discuss your testing results and next steps." +s+ nl +s+ nl +s+
  "Please don't hesitate to reach out if anything comes up before then." +s+ nl +s+ nl +s+
  "Best regards," +s+ nl +s+ "Alex Richter," +s+ nl +s+ "Sales Representative,"
  +s+ nl +s+ "Henkel" +s+ nl.

Definition email_recipients : list string :=
  ["david.chen@voltamotors.com"; "maria.rodriguez@voltamotors.com"].

Definition email_attachments : list string :=
  ["Loctite_ESB_5100_TDS.pdf"; "Success-story-loctite-esb-5100-serviceable-batteries.pdf";
   "Battery-Engineering-Center.pdf"].

Definition email_data (client_name product body : string) : value :=
  VDict [("recipients", vstrs email_recipients);
         ("subject", VStr ("Follow-up: " +s+ product +s+ " for " +s+ client_name
                           +s+ " EV Battery Enclosures"));
         ("attachments", vstrs email_attachments);
         ("body", VStr body)].

Definition email_message (client_name : string) : string :=
  "The draft email to " +s+ client_name +s+ " is ready. I've also added our battery "
  +s+ "solutions 2-pager to address their performance concerns. You're all set for "
  +s+ "the follow-up Alex.".

(** [f"- {point}"] for each point, joined by newlines; the fallback line
    when the stored points are falsy.  Iterating a non-iterable value
    raises [TypeError]. *)
Definition format_points (discussion_points : value) : outcome string :=
  if py_truthy discussion_points then
    match py_iter discussion_points with
    | Ok points => Ok (py_join nl (map (fun point => "- " +s+ py_str point) points))
    | Raise e => Raise e
    end
  else Ok "- Our key discussion points.".

(** ** The tools *)

Section Tools.

(** The module-level [retriever]: [None] when the index did not load. *)
Variable retriever : option Retriever.

Definition get_meeting_briefing_body (client_name : string) : M tool_result :=
  print ("Tool (RAG): Fetching meeting brief for " +s+ client_name) ;;
  match retriever with
  | None => ret (status_error kb_unavailable)
  | Some rt =>
      let query := "Provide a detailed meeting briefing for the client: " +s+ client_name in
      docs <- lift (invoke rt query) ;;
      let retrieved_context := join_docs docs in
      ret (status_success_message retrieved_context)
  end.

Definition get_competitor_comparison_body (product_name : string) : M tool_result :=
  print ("Tool (RAG): Getting strategic comparison for " +s+ product_name) ;;
  match retriever with
  | None => ret (status_error kb_unavailable)
  | Some rt =>
      let query := "Provide a competitor comparison for the product: " +s+ product_name in
      docs <- lift (invoke rt query) ;;
      let retrieved_context := join_docs docs in
      if String.eqb retrieved_context EmptyString then
        ret (status_error ("I couldn't find comparison data for '" +s+ product_name +s+ "'."))
      else
        ret (status_success_message
               ("Alright, here is the comparison for " +s+ product_name
                +s+ " based on our knowledge base:" +s+ nl +s+ retrieved_context))
  end.

Definition get_product_information_body (question : string) : M tool_result :=
  print ("Tool: Received question for RAG: '" +s+ question +s+ "'") ;;
  match retriever with
  | None => raise (AttributeError "'NoneType' object has no attribute 'invoke'")
  | Some rt =>
      docs <- lift (invoke rt question) ;;
      let retrieved_context := join_docs docs in
      ret (status_success_message retrieved_context)
  end.

Definition get_meeting_briefing : pyfunc string tool_result :=
  time_tool (SyncFunc "get_meeting_briefing" get_meeting_briefing_body).
Definition get_competitor_comparison : pyfunc string tool_result :=
  time_tool (SyncFunc "get_competitor_comparison" get_competitor_comparison_body).
Definition get_product_information : pyfunc string tool_result :=
  time_tool (SyncFunc "get_product_information" get_product_information_body).

End Tools.

(** The recap tool takes [discussion_points], [action_items] and
    [follow_up_date], typed [list[str]], [list[str]] and [str]. *)
Definition get_meeting_recap_body
  (args : list string * list string * string) : M tool_result :=
  let '(discussion_points, action_items, follow_up_date) := args in
  state <- _get_and_init_state ;;
  let client_name := recap_client_name in
  print ("Tool: >>>>> EXECUTING get_meeting_recap for " +s+ client_name +s+ " <<<<<") ;;
  state_set state "last_discussion_points" (vstrs discussion_points) ;;
  state_set state "last_action_items" (vstrs action_items) ;;
  state_set state "last_follow_up_date" (VStr follow_up_date) ;;
  (* [points_str] and [actions_str] are computed and never used. *)
  let points_str := py_join "; " discussion_points in
  let actions_str := py_join "; " action_items in
  ret [("status", VStr "success");
       ("recap_data", recap_data client_name discussion_points action_items follow_up_date)].

Definition create_invite_from_recap_body (_ : unit) : M tool_result :=
  state <- _get_and_init_state ;;
  let client_name := recap_client_name in
  follow_up_date <- state_get state "last_follow_up_date" (VStr "a future date") ;;
  product <- state_get state "product_in_focus" (VStr "Loctite ESB 5100") ;;
  print ("Tool: >>>>> EXECUTING create_invite_from_recap for " +s+ py_str follow_up_date
         +s+ " <<<<<") ;;
  let invite := invite_data client_name (py_str product) (py_str follow_up_date) in
  let message := invite_message (py_str follow_up_date) in
  ret [("status", VStr "success"); ("message", VStr message); ("invite_details", invite)].

Definition create_email_from_recap_body (_ : unit) : M tool_result :=
  state <- _get_and_init_state ;;
  let client_name := recap_client_name in
  product <- state_get state "product_in_focus" (VStr "Loctite ESB 5100") ;;
  discussion_points <- state_get state "last_discussion_points" (VList []) ;;
  follow_up_date <- state_get state "last_follow_up_date" (VStr "our upcoming call") ;;
  print ("Tool: >>>>> EXECUTING create_email_from_recap for " +s+ client_name +s+ " <<<<<") ;;
  recap_points_formatted <- lift (format_points discussion_points) ;;
  let full_email_body :=
    email_body client_name recap_points_formatted (py_str product) (py_str follow_up_date) in
  let email := email_data client_name (py_str product) full_email_body in
  let message := email_message client_name in
  ret [("status", VStr "success"); ("message", VStr message); ("email_draft", email)].

Definition get_meeting_recap : pyfunc (list string * list string * string) tool_result :=
  time_tool (SyncFunc "get_meeting_recap" get_meeting_recap_body).
Definition create_invite_from_recap : pyfunc unit tool_result :=
  time_tool (SyncFunc "create_invite_from_recap" create_invite_from_recap_body).
Definition create_email_from_recap : pyfunc unit tool_result :=
  time_tool (SyncFunc "create_email_from_recap" create_email_from_recap_body).

(** ** The timing decorator *)

Definition clock_read (w : world) : Z :=
  match w_clock w with t :: _ => t | [] => 0%Z end.

Definition tick (w : world) : world := snd (perf_counter w).

(** ** Functional behaviour of the state tools *)

Definition recap_state (dp ai : list string) (fud : string) (st : state_dict) : state_dict :=
  <["last_follow_up_date" := VStr fud]>
    (<["last_action_items" := vstrs ai]>
       (<["last_discussion_points" := vstrs dp]> st)).

Definition recap_result (dp ai : list string) (fud : string) : tool_result :=
  [("status", VStr "success"); ("recap_data", recap_data recap_client_name dp ai fud)].

Definition recap_log : string :=
  "Tool: >>>>> EXECUTING get_meeting_recap for " +s+ recap_client_name +s+ " <<<<<".

Definition invite_result (follow_up_date product : value) : tool_result :=
  [("status", VStr "success");
   ("message", VStr (invite_message (py_str follow_up_date)));
   ("invite_details", invite_data recap_client_name (py_str product) (py_str follow_up_date))].

Definition invite_log (follow_up_date : value) : string :=
  "Tool: >>>>> EXECUTING create_invite_from_recap for " +s+ py_str follow_up_date +s+ " <<<<<".

(** The values the invite and the email read, with their fallbacks. *)
Definition invite_date (st : state_dict) : value :=
  dict_get st "last_follow_up_date" (VStr "a future date").

Definition email_date (st : state_dict) : value :=
  dict_get st "last_follow_up_date" (VStr "our upcoming call").

Definition state_product (st : state_dict) : value :=
  dict_get st "product_in_focus" (VStr "Loctite ESB 5100").

Definition state_points (st : state_dict) : value :=
  dict_get st "last_discussion_points" (VList []).

Definition email_result (product follow_up_date : value) (points : string) : tool_result :=
  [("status", VStr "success");
   ("message", VStr (email_message recap_client_name));
   ("email_draft",
     email_data recap_client_name (py_str product)
       (email_body recap_client_name points (py_str product) (py_str follow_up_date)))].

Definition email_log : string :=
  "Tool: >>>>> EXECUTING create_email_from_recap for " +s+ recap_client_name +s+ " <<<<<".

(** The email body, cut around the recap points. *)
Definition email_head (client_name : string) : string :=
  "Dear David and Maria," +s+ nl +s+ nl +s+
  "Thank you again for your time today. It was a pleasure discussing your needs for the "
  +s+ client_name +s+ " EV battery enclosures." +s+ nl +s+ nl +s+
  "To recap our conversation, we covered the following key points:".

(** ** The retrieval tools *)

Definition briefing_log (client_name : string) : string :=
  "Tool (RAG): Fetching meeting brief for " +s+ client_name.

Definition comparison_log (product_name : string) : string :=
  "Tool (RAG): Getting strategic comparison for " +s+ product_name.

Definition comparison_query (product_name : string) : string :=
  "Provide a competitor comparison for the product: " +s+ product_name.

Definition comparison_result (product_name : string) (docs : list Document) : tool_result :=
  if String.eqb (join_docs docs) EmptyString then
    status_error ("I couldn't find comparison data for '" +s+ product_name +s+ "'.")
  else
    status_success_message
      ("Alright, here is the comparison for " +s+ product_name
       +s+ " based on our knowledge base:" +s+ nl +s+ join_docs docs).

(** A call of one of the six tools with arguments of its declared types. *)
Inductive tool_call :=
| CallBriefing (client_name : string)
| CallComparison (product_name : string)
| CallRecap (discussion_points action_items : list string) (follow_up_date : string)
| CallInvite
| CallEmail
| CallProductInformation (question : string).

Definition run_tool (retriever : option Retriever) (tc : tool_call) : M tool_result :=
  match tc with
  | CallBriefing c => call (get_meeting_briefing retriever) c
  | CallComparison p => call (get_competitor_comparison retriever) p
  | CallRecap dp ai fud => call get_meeting_recap (dp, ai, fud)
  | CallInvite => call create_invite_from_recap tt
  | CallEmail => call create_email_from_recap tt
  | CallProductInformation q => call (get_product_information retriever) q
  end.

Definition fatal_no_session : exn :=
  Exception "Fatal Error: Could not find session in context.".

(** ** The recap keys of the state stay well typed *)

Definition is_str_value (v : value) : bool :=
  match v with VStr _ => true | _ => false end.

Definition is_str_list (v : value) : bool :=
  match v with VList l => forallb is_str_value l | _ => false end.

Definition key_ok (f : value -> bool) (st : state_dict) (k : string) : bool :=
  match st !! k with None => true | Some v => f v end.

(** The keys written by [get_meeting_recap] and read by the invite and the
    email hold a list of strings, a list of strings and a string. *)
Definition wf_recap_state (st : state_dict) : bool :=
  key_ok is_str_list st "last_discussion_points" &&
  key_ok is_str_list st "last_action_items" &&
  key_ok is_str_value st "last_follow_up_date".

Definition is_rag_call (tc : tool_call) : bool :=
  match tc with
  | CallBriefing _ | CallComparison _ | CallProductInformation _ => true
  | _ => false
  end.

(** ** Witnesses: the theorems at concrete sessions *)

Definition demo_session (sid : string) : Session :=
  mkSession sid "Sales Catalyst" sid ∅.

(** Two live sessions; the running task is bound to the first. *)
Definition demo_world : world :=
  mkWorld (<[1 := demo_session "s2"]> {[0 := demo_session "s1"]}) (Some 0) []
          [100%Z; 350%Z; 400%Z; 1000%Z].

Definition demo_retriever (docs : list Document) : Retriever :=
  as_retriever (static_store docs) 3.

Definition unbound_world : world := set_ctx None demo_world.

Lemma perf_counter_run w : perf_counter w = (Ok (clock_read w), tick w).
Proof. unfold tick, clock_read, perf_counter. by destruct (w_clock w). Qed.

Lemma tick_heap w : w_heap (tick w) = w_heap w.
Proof. apply perf_counter_heap. Qed.

Lemma tick_ctx w : w_ctx (tick w) = w_ctx w.
Proof. apply perf_counter_ctx. Qed.

Lemma timed_ok {A R} n (b : A -> M R) a w x w1 :
  b a (tick w) = (Ok x, w1) ->
  timed n b a w =
    (Ok x, set_stdout (w_stdout (tick w1) ++ [perf_line n (clock_read w1 - clock_read w)])%list
                      (tick w1)).
Proof.
  intros H. unfold timed.
  rewrite (bind_ok _ _ _ _ _ (perf_counter_run w)), (bind_ok _ _ _ _ _ H).
  by rewrite (bind_ok _ _ _ _ _ (perf_counter_run w1)).
Qed.

Lemma timed_raise {A R} n (b : A -> M R) a w e w1 :
  b a (tick w) = (Raise e, w1) -> timed n b a w = (Raise e, w1).
Proof.
  intros H. unfold timed.
  rewrite (bind_ok _ _ _ _ _ (perf_counter_run w)). by rewrite (bind_raise _ _ _ _ _ H).
Qed.

Lemma call_time_tool {A R} (f : pyfunc A R) a :
  call (time_tool f) a = timed (func_name f) (call f) a.
Proof. by destruct f. Qed.

Lemma set_heap_set_heap h1 h2 w : set_heap h2 (set_heap h1 w) = set_heap h2 w.
Proof. reflexivity. Qed.

Lemma get_meeting_recap_body_spec w r s dp ai fud :
  w_ctx w = Some r -> w_heap w !! r = Some s ->
  get_meeting_recap_body (dp, ai, fud) w =
    (Ok (recap_result dp ai fud),
     set_heap (<[r := with_state s (recap_state dp ai fud (sess_state s))]> (w_heap w))
              (set_stdout (w_stdout w ++ [recap_log])%list w)).
Proof.
  intros Hc Hs. unfold get_meeting_recap_body.
  do 5 mstep.
  unfold ret. cbn [w_heap set_heap set_stdout w_stdout w_ctx w_clock].
  by rewrite ?sess_state_with_state, ?with_state_with_state, ?insert_insert_eq.
Qed.

Lemma create_invite_from_recap_body_spec w r s :
  w_ctx w = Some r -> w_heap w !! r = Some s ->
  create_invite_from_recap_body tt w =
    (Ok (invite_result (invite_date (sess_state s)) (state_product (sess_state s))),
     set_stdout (w_stdout w ++ [invite_log (invite_date (sess_state s))])%list w).
Proof. intros Hc Hs. unfold create_invite_from_recap_body. by do 4 mstep. Qed.

Lemma create_email_from_recap_body_spec w r s :
  w_ctx w = Some r -> w_heap w !! r = Some s ->
  create_email_from_recap_body tt w =
    (match format_points (state_points (sess_state s)) with
     | Ok points =>
         Ok (email_result (state_product (sess_state s)) (email_date (sess_state s)) points)
     | Raise e => Raise e
     end,
     set_stdout (w_stdout w ++ [email_log])%list w).
Proof.
  intros Hc Hs. unfold create_email_from_recap_body. do 5 mstep.
  unfold bind, lift. by destruct (format_points _).
Qed.

Lemma create_email_from_recap_body_ok w r s points :
  w_ctx w = Some r -> w_heap w !! r = Some s ->
  format_points (state_points (sess_state s)) = Ok points ->
  create_email_from_recap_body tt w =
    (Ok (email_result (state_product (sess_state s)) (email_date (sess_state s)) points),
     set_stdout (w_stdout w ++ [email_log])%list w).
Proof. intros Hc Hs Hf. by rewrite (create_email_from_recap_body_spec w r s), Hf. Qed.

(** ** Running decorated tools in sequence *)

Ltac world_simpl :=
  repeat progress (rewrite ?tick_ctx, ?tick_heap;
                   cbn [w_ctx w_heap w_stdout set_stdout set_heap]).

(** [tool_step spec]: run the first decorated tool of the goal with the
    functional lemma [spec] of its body. *)
Ltac tool_step spec :=
  first [ erewrite bind_ok; [| apply timed_ok; eapply spec ]
        | erewrite timed_ok; [| eapply spec ] ];
  world_simpl;
  try (by rewrite lookup_insert_eq); try eassumption; cbv beta;
  rewrite ?sess_state_with_state.

Lemma dict_get_recap_date dp ai fud st d :
  dict_get (recap_state dp ai fud st) "last_follow_up_date" d = VStr fud.
Proof. unfold recap_state. apply dict_get_insert_eq. Qed.

Lemma dict_get_recap_points dp ai fud st d :
  dict_get (recap_state dp ai fud st) "last_discussion_points" d = vstrs dp.
Proof.
  unfold recap_state. rewrite 2!dict_get_insert_ne by discriminate.
  apply dict_get_insert_eq.
Qed.

Lemma dict_get_recap_other dp ai fud st k d :
  k <> "last_follow_up_date" -> k <> "last_action_items" -> k <> "last_discussion_points" ->
  dict_get (recap_state dp ai fud st) k d = dict_get st k d.
Proof. intros. unfold recap_state. by rewrite 3!dict_get_insert_ne by congruence. Qed.

(** C1: after [get_meeting_recap] in a session, [create_invite_from_recap]
    in the same session returns an invite whose [start_time] is the
    recap's [follow_up_date] followed by [" 10:00 AM"]. *)
Theorem recap_then_invite_start_time w r s dp ai fud :
  w_ctx w = Some r -> w_heap w !! r = Some s ->
  exists res w' d,
    (call get_meeting_recap (dp, ai, fud) ;; call create_invite_from_recap tt) w = (Ok res, w')
    /\ pydict_lookup "invite_details" res = Some (VDict d)
    /\ pydict_lookup "start_time" d = Some (VStr (fud +s+ " 10:00 AM")).
Proof.
  intros Hc Hs. unfold get_meeting_recap, create_invite_from_recap. cbn [call time_tool].
  tool_step get_meeting_recap_body_spec.
  tool_step create_invite_from_recap_body_spec.
  do 3 eexists. split; [reflexivity|].
  unfold invite_date. rewrite dict_get_recap_date.
  by split.
Qed.

Lemma email_body_split client points product fud :
  exists tail, email_body client points product fud =
               email_head client +s+ nl +s+ points +s+ nl +s+ tail.
Proof. eexists. unfold email_body, email_head. by rewrite !string_app_assoc. Qed.

Lemma email_body_lines client points product fud x :
  In x (lines points) -> In x (lines (email_body client points product fud)).
Proof.
  destruct (email_body_split client points product fud) as [tail ->]. apply lines_mid.
Qed.

Lemma format_points_vstrs dp :
  dp <> [] -> format_points (vstrs dp) = Ok (py_join nl (map (fun p => "- " +s+ p) dp)).
Proof.
  intros Hne. unfold format_points. rewrite py_truthy_vstrs, py_iter_vstrs.
  destruct dp as [|p dp]; [done|]. simpl. by rewrite map_map.
Qed.

Lemma lines_format_points dp :
  dp <> [] -> Forall (fun p => string_has nl_char p = false) dp ->
  lines (py_join nl (map (fun p => "- " +s+ p) dp)) = map (fun p => "- " +s+ p) dp.
Proof.
  intros Hne Hall. apply lines_join; [by destruct dp|].
  apply Forall_map. eapply Forall_impl; [exact Hall|]. intros p Hp.
  by rewrite string_has_app, Hp.
Qed.

(** The lines the recap contributes to the email. *)
Lemma recap_points_lines dp ai fud st :
  Forall (fun p => string_has nl_char p = false) dp ->
  exists points,
    format_points (state_points (recap_state dp ai fud st)) = Ok points
    /\ Forall (fun p => In ("- " +s+ p) (lines points)) dp.
Proof.
  intros Hnl. unfold state_points. rewrite dict_get_recap_points.
  destruct dp as [|p0 dp0]; [by eexists|].
  eexists. split; [by apply format_points_vstrs|].
  apply Forall_forall. intros p Hp.
  rewrite lines_format_points; [| discriminate | exact Hnl].
  apply list_elem_of_In in Hp. exact (in_map (fun q => "- " +s+ q) _ _ Hp).
Qed.

(** C2: after [get_meeting_recap] with discussion points free of newlines,
    [create_email_from_recap] in the same session drafts an email whose
    body has the line ["- " ++ p] for every discussion point [p]. *)
Theorem recap_then_email_lines w r s dp ai fud :
  w_ctx w = Some r -> w_heap w !! r = Some s ->
  Forall (fun p => string_has nl_char p = false) dp ->
  exists res w' d body,
    (call get_meeting_recap (dp, ai, fud) ;; call create_email_from_recap tt) w = (Ok res, w')
    /\ pydict_lookup "email_draft" res = Some (VDict d)
    /\ pydict_lookup "body" d = Some (VStr body)
    /\ Forall (fun p => In ("- " +s+ p) (lines body)) dp.
Proof.
  intros Hc Hs Hnl. unfold get_meeting_recap, create_email_from_recap. cbn [call time_tool].
  tool_step get_meeting_recap_body_spec.
  destruct (recap_points_lines dp ai fud (sess_state s) Hnl) as [points [Hf Hin]].
  tool_step create_email_from_recap_body_ok.
  do 4 eexists. do 3 (split; [reflexivity|]).
  eapply Forall_impl; [exact Hin|]. intros p. apply email_body_lines.
Qed.

(** C3: with no recap in the session (neither the follow-up date nor a
    product in the state), [create_invite_from_recap] still succeeds, with
    the documented fallbacks: location "Volta Motors", product
    "Loctite ESB 5100" and date "a future date". *)
Theorem invite_without_recap_defaults w r s :
  w_ctx w = Some r -> w_heap w !! r = Some s ->
  sess_state s !! "last_follow_up_date" = None ->
  sess_state s !! "product_in_focus" = None ->
  exists w',
    call create_invite_from_recap tt w =
      (Ok [("status", VStr "success");
           ("message", VStr "Okay, the calendar invite for the follow-up on a future date has been sent to all participants.");
           ("invite_details", invite_data "Volta Motors" "Loctite ESB 5100" "a future date")],
       w').
Proof.
  intros Hc Hs Hd Hp. unfold create_invite_from_recap. cbn [call time_tool].
  tool_step create_invite_from_recap_body_spec.
  unfold invite_date, state_product. rewrite !dict_get_absent by done. by eexists.
Qed.

(** C12: the state is last-write-wins: after two recaps in one session the
    invite carries the second recap's follow-up date. *)
Theorem recap_twice_invite_last_date w r s dp1 ai1 fud1 dp2 ai2 fud2 :
  w_ctx w = Some r -> w_heap w !! r = Some s ->
  exists w',
    (call get_meeting_recap (dp1, ai1, fud1) ;; call get_meeting_recap (dp2, ai2, fud2) ;;
     call create_invite_from_recap tt) w =
      (Ok (invite_result (VStr fud2) (state_product (sess_state s))), w').
Proof.
  intros Hc Hs. unfold get_meeting_recap, create_invite_from_recap. cbn [call time_tool].
  tool_step get_meeting_recap_body_spec.
  tool_step get_meeting_recap_body_spec.
  rewrite !insert_insert_eq. cbn [with_state sess_state].
  tool_step create_invite_from_recap_body_spec.
  unfold invite_date, state_product. rewrite dict_get_recap_date.
  rewrite !dict_get_recap_other by discriminate. by eexists.
Qed.

(** ** The decorator is transparent *)

(** C8: [time_tool f] keeps [f]'s name and kind; it runs [f] after one
    clock reading and returns exactly [f]'s outcome with [f]'s session
    heap and context.  On success it reads the clock again and prints one
    [PERFORMANCE] line with the elapsed time; when [f] raises, the
    exception propagates and nothing is printed. *)
Theorem time_tool_transparent {A R} (f : pyfunc A R) a w :
  func_name (time_tool f) = func_name f /\
  iscoroutinefunction (time_tool f) = iscoroutinefunction f /\
  match call f a (tick w) with
  | (Ok x, w1) =>
      call (time_tool f) a w =
        (Ok x, set_stdout (w_stdout (tick w1) ++
                           [perf_line (func_name f) (clock_read w1 - clock_read w)])%list
                          (tick w1))
  | (Raise e, w1) => call (time_tool f) a w = (Raise e, w1)
  end.
Proof.
  split; [by destruct f|]. split; [by destruct f|].
  rewrite call_time_tool.
  destruct (call f a (tick w)) as [[x|e] w1] eqn:E; [by apply timed_ok | by apply timed_raise].
Qed.

Lemma get_competitor_comparison_body_spec rt p w docs :
  invoke rt (comparison_query p) = Ok docs ->
  get_competitor_comparison_body (Some rt) p w =
    (Ok (comparison_result p docs), set_stdout (w_stdout w ++ [comparison_log p])%list w).
Proof.
  intros H. unfold get_competitor_comparison_body, comparison_result.
  unfold bind at 1. cbn -[String.eqb join_docs]. unfold comparison_query in H.
  unfold bind, lift. rewrite H. by destruct (String.eqb _ _).
Qed.

(** The joined passages are empty exactly when there are no passages, or
    a single passage with empty content: the separator is not empty. *)
Lemma join_docs_empty docs :
  join_docs docs = EmptyString <->
  docs = [] \/ exists d, docs = [d] /\ page_content d = EmptyString.
Proof.
  unfold join_docs. split.
  - destruct docs as [|d [|d' docs]]; [by left | right; by exists d |].
    simpl. intros H. exfalso. destruct (page_content d);
      rewrite ?string_app_nil_l, ?nl_app, ?string_app_cons in H; discriminate.
  - intros [->|[d [-> Hd]]]; [done|]. exact Hd.
Qed.

(** C5: when the knowledge base did not load, the briefing and the
    comparison tools answer the structured error "Knowledge base is not
    available." and change no session. *)
Theorem rag_tools_kb_unavailable c w :
  (exists w', call (get_meeting_briefing None) c w =
                (Ok [("status", VStr "error");
                     ("message", VStr "Knowledge base is not available.")], w')
              /\ w_heap w' = w_heap w) /\
  (exists w', call (get_competitor_comparison None) c w =
                (Ok [("status", VStr "error");
                     ("message", VStr "Knowledge base is not available.")], w')
              /\ w_heap w' = w_heap w).
Proof.
  unfold get_meeting_briefing, get_competitor_comparison. cbn [call time_tool].
  split; (erewrite timed_ok; [| reflexivity]); eexists; (split; [reflexivity|]);
    by world_simpl.
Qed.

(** C6: [get_product_information] does not check the retriever: when the
    knowledge base did not load it raises [AttributeError] on
    [None.invoke] instead of answering a structured error. *)
Theorem product_information_kb_unavailable_raises q w :
  exists w',
    call (get_product_information None) q w =
      (Raise (AttributeError "'NoneType' object has no attribute 'invoke'"), w')
    /\ w_heap w' = w_heap w.
Proof.
  unfold get_product_information. cbn [call time_tool].
  erewrite timed_raise; [| reflexivity]. eexists. split; [reflexivity|]. by world_simpl.
Qed.

(** C11: with the knowledge base loaded, the comparison tool answers
    [status: error] exactly when the retriever returned no passage, or a
    single passage with empty content; two empty passages give
    [status: success]. *)
Theorem competitor_comparison_error_iff rt p w docs :
  invoke rt (comparison_query p) = Ok docs ->
  exists res w',
    call (get_competitor_comparison (Some rt)) p w = (Ok res, w') /\
    (pydict_lookup "status" res = Some (VStr "error") <->
     docs = [] \/ exists d, docs = [d] /\ page_content d = EmptyString).
Proof.
  intros H. unfold get_competitor_comparison. cbn [call time_tool].
  erewrite timed_ok; [| by apply get_competitor_comparison_body_spec].
  do 2 eexists. split; [reflexivity|]. rewrite <- join_docs_empty.
  unfold comparison_result. destruct (String.eqb_spec (join_docs docs) EmptyString); done.
Qed.

(** ** Every tool call *)

Lemma frames_timed {A R} ro n (b : A -> M R) a :
  frames_at ro (b a) -> frames_at ro (timed n b a).
Proof.
  intros Hb. unfold timed.
  apply frames_bind; [auto with frame | intros ?].
  apply frames_bind; [exact Hb | intros ?]. frame_solve.
Qed.

Lemma frames_run_tool ro rt tc : frames_at ro (run_tool rt tc).
Proof.
  destruct tc; unfold run_tool;
    cbn [call time_tool get_meeting_briefing get_competitor_comparison get_meeting_recap
         create_invite_from_recap create_email_from_recap get_product_information];
    apply frames_timed;
    unfold get_meeting_briefing_body, get_competitor_comparison_body,
      get_meeting_recap_body, create_invite_from_recap_body,
      create_email_from_recap_body, get_product_information_body;
    frame_solve.
Qed.

(** C4: a tool call changes no session object other than the one bound
    in the calling task's context, and leaves the context as it was: one
    session's state is never written through another session's call. *)
Theorem tool_call_isolation rt tc w o w' r' :
  run_tool rt tc w = (o, w') -> w_ctx w <> Some r' ->
  w_ctx w' = w_ctx w /\ w_heap w' !! r' = w_heap w !! r'.
Proof.
  intros H Hr. destruct (frames_run_tool (w_ctx w) rt tc w o w' H eq_refl) as [Hc Hh].
  split; [done | by apply Hh].
Qed.

(** C7: with no session bound in the task's context, the recap, invite and
    email tools raise the fatal [Exception], change no session and print
    no [PERFORMANCE] line. *)
Theorem state_tools_unbound_raise tc w :
  w_ctx w = None ->
  match tc with CallRecap _ _ _ | CallInvite | CallEmail => True | _ => False end ->
  exists w', run_tool None tc w = (Raise fatal_no_session, w') /\
             w_heap w' = w_heap w /\ w_stdout w' = w_stdout w.
Proof.
  intros Hc Htc. destruct tc; try contradiction; unfold run_tool;
    cbn [call time_tool get_meeting_recap create_invite_from_recap create_email_from_recap];
    (erewrite timed_raise;
     [| unfold get_meeting_recap_body, create_invite_from_recap_body,
          create_email_from_recap_body;
        apply bind_raise, get_and_init_state_unbound; by rewrite tick_ctx]);
    eexists; (split; [reflexivity|]);
    (split; [apply tick_heap | unfold tick; apply perf_counter_stdout]).
Qed.

Lemma forallb_is_str_map xs : forallb is_str_value (map VStr xs) = true.
Proof. induction xs as [|x xs IH]; [done|]. exact IH. Qed.

Lemma is_str_list_vstrs xs : is_str_list (vstrs xs) = true.
Proof. apply forallb_is_str_map. Qed.

Lemma wf_recap_state_recap dp ai fud st : wf_recap_state (recap_state dp ai fud st) = true.
Proof.
  unfold wf_recap_state, key_ok, recap_state. rewrite !lookup_insert.
  repeat (case_decide; simplify_eq/=). by rewrite !forallb_is_str_map.
Qed.

Lemma timed_world {A R} n (b : A -> M R) a w o w' :
  timed n b a w = (o, w') ->
  exists o1 w1, b a (tick w) = (o1, w1) /\ w_heap w' = w_heap w1 /\ w_ctx w' = w_ctx w1.
Proof.
  destruct (b a (tick w)) as [[x|e] w1] eqn:E.
  - rewrite (timed_ok _ _ _ _ _ _ E). intros [= <- <-]. eexists _, _. split; [done|].
    by world_simpl.
  - rewrite (timed_raise _ _ _ _ _ _ E). intros [= <- <-]. by eexists _, _.
Qed.

Lemma rag_bodies_keep_world rt tc w o w' :
  (match tc with
   | CallBriefing c => get_meeting_briefing_body rt c
   | CallComparison p => get_competitor_comparison_body rt p
   | CallProductInformation q => get_product_information_body rt q
   | _ => ret []
   end) w = (o, w') -> w_heap w' = w_heap w /\ w_ctx w' = w_ctx w.
Proof.
  destruct tc; unfold get_meeting_briefing_body, get_competitor_comparison_body,
    get_product_information_body, bind, print, lift, ret, raise;
    intros H; repeat (case_match; simplify_eq/=); try injection H as <- <-; by split.
Qed.

Lemma rag_tool_keeps_world rt tc w o w' :
  is_rag_call tc = true -> run_tool rt tc w = (o, w') ->
  w_heap w' = w_heap w /\ w_ctx w' = w_ctx w.
Proof.
  intros Hrag H. unfold run_tool in H.
  destruct tc; try done;
    cbn [call time_tool get_meeting_briefing get_competitor_comparison
         get_product_information] in H;
    apply timed_world in H as (o1 & w1 & Hbody & -> & ->);
    [ apply (rag_bodies_keep_world rt (CallBriefing _)) in Hbody
    | apply (rag_bodies_keep_world rt (CallComparison _)) in Hbody
    | apply (rag_bodies_keep_world rt (CallProductInformation _)) in Hbody ];
    destruct Hbody as [-> ->]; by rewrite tick_heap, tick_ctx.
Qed.

(** C9: a tool call in a session whose recap keys are well typed leaves
    them well typed: the bound session is still there and its state
    satisfies [wf_recap_state]. *)
Theorem tool_call_preserves_wf rt tc w o w' st :
  bound_state w = Some st -> wf_recap_state st = true -> run_tool rt tc w = (o, w') ->
  exists st', bound_state w' = Some st' /\ wf_recap_state st' = true.
Proof.
  unfold bound_state. intros Hb Hwf Hrun.
  destruct (w_ctx w) as [r|] eqn:Hc; [|done].
  destruct (w_heap w !! r) as [s|] eqn:Hs; [|done]. injection Hb as <-.
  destruct (is_rag_call tc) eqn:Hrag.
  { destruct (rag_tool_keeps_world _ _ _ _ _ Hrag Hrun) as [-> ->].
    rewrite Hc, Hs. by eexists. }
  unfold run_tool in Hrun.
  destruct tc; try done;
    cbn [call time_tool get_meeting_recap create_invite_from_recap
         create_email_from_recap] in Hrun;
    apply timed_world in Hrun as (o1 & w1 & Hbody & -> & ->).
  - rewrite (get_meeting_recap_body_spec _ r s) in Hbody; [| by rewrite tick_ctx | by rewrite tick_heap].
    injection Hbody as <- <-. cbn. rewrite tick_ctx, Hc, lookup_insert_eq.
    eexists. split; [reflexivity|]. apply wf_recap_state_recap.
  - rewrite (create_invite_from_recap_body_spec _ r s) in Hbody; [| by rewrite tick_ctx | by rewrite tick_heap].
    injection Hbody as <- <-. cbn. rewrite tick_ctx, Hc, tick_heap, Hs. by eexists.
  - rewrite (create_email_from_recap_body_spec _ r s) in Hbody; [| by rewrite tick_ctx | by rewrite tick_heap].
    injection Hbody as _ <-. cbn. rewrite tick_ctx, Hc, tick_heap, Hs. by eexists.
Qed.

Lemma format_points_list l : exists points, format_points (VList l) = Ok points.
Proof. unfold format_points. by destruct (py_truthy (VList l)); eexists. Qed.

Lemma wf_state_points st :
  wf_recap_state st = true -> exists l, state_points st = VList l.
Proof.
  unfold wf_recap_state, key_ok, state_points, dict_get.
  destruct (st !! "last_discussion_points") as [v|]; [|by eexists].
  intros H. apply andb_true_iff in H as [H _]. apply andb_true_iff in H as [H _].
  destruct v; try done. by eexists.
Qed.

(** C10: in a session whose recap keys are well typed, drafting the email
    never raises: the stored points are a list (or absent), so formatting
    them cannot fail. *)
Theorem email_succeeds_under_wf w r s :
  w_ctx w = Some r -> w_heap w !! r = Some s -> wf_recap_state (sess_state s) = true ->
  exists res w', call create_email_from_recap tt w = (Ok res, w').
Proof.
  intros Hc Hs Hwf.
  destruct (wf_state_points _ Hwf) as [l Hl].
  destruct (format_points_list l) as [points Hp]. rewrite <- Hl in Hp.
  unfold create_email_from_recap. cbn [call time_tool].
  tool_step create_email_from_recap_body_ok. by eexists _, _.
Qed.

Lemma recap_then_invite_start_time_witness :
  w_ctx demo_world = Some 0 /\ w_heap demo_world !! 0 = Some (demo_session "s1") /\
  exists res w' d,
    (call get_meeting_recap (["Pricing"; "Trial timeline"], ["Send TDS"], "September 18th") ;;
     call create_invite_from_recap tt) demo_world = (Ok res, w')
    /\ pydict_lookup "invite_details" res = Some (VDict d)
    /\ pydict_lookup "start_time" d = Some (VStr ("September 18th" +s+ " 10:00 AM")).
Proof.
  split; [reflexivity|]. split; [reflexivity|].
  apply (recap_then_invite_start_time demo_world 0 (demo_session "s1")); reflexivity.
Defined.

Lemma recap_then_email_lines_witness :
  Forall (fun p => string_has nl_char p = false) ["Pricing"; "Trial timeline"] /\
  exists res w' d body,
    (call get_meeting_recap (["Pricing"; "Trial timeline"], ["Send TDS"], "September 18th") ;;
     call create_email_from_recap tt) demo_world = (Ok res, w')
    /\ pydict_lookup "email_draft" res = Some (VDict d)
    /\ pydict_lookup "body" d = Some (VStr body)
    /\ Forall (fun p => In ("- " +s+ p) (lines body)) ["Pricing"; "Trial timeline"].
Proof.
  split; [repeat constructor|].
  apply (recap_then_email_lines demo_world 0 (demo_session "s1")); try reflexivity.
  repeat constructor.
Defined.

Lemma invite_without_recap_defaults_witness :
  exists w',
    call create_invite_from_recap tt demo_world =
      (Ok [("status", VStr "success");
           ("message", VStr "Okay, the calendar invite for the follow-up on a future date has been sent to all participants.");
           ("invite_details", invite_data "Volta Motors" "Loctite ESB 5100" "a future date")],
       w').
Proof. apply (invite_without_recap_defaults demo_world 0 (demo_session "s1")); reflexivity. Defined.

Lemma recap_twice_invite_last_date_witness :
  exists w',
    (call get_meeting_recap (["Pricing"], [], "Monday") ;;
     call get_meeting_recap (["Pricing"], [], "Friday") ;;
     call create_invite_from_recap tt) demo_world =
      (Ok (invite_result (VStr "Friday") (state_product (sess_state (demo_session "s1")))), w').
Proof. apply (recap_twice_invite_last_date demo_world 0 (demo_session "s1")); reflexivity. Defined.

Lemma competitor_comparison_error_iff_witness :
  let docs := [mkDocument EmptyString []; mkDocument EmptyString []] in
  invoke (demo_retriever docs) (comparison_query "Loctite ESB 5100") = Ok docs /\
  exists res w',
    call (get_competitor_comparison (Some (demo_retriever docs))) "Loctite ESB 5100" demo_world
      = (Ok res, w') /\
    (pydict_lookup "status" res = Some (VStr "error") <->
     docs = [] \/ exists d, docs = [d] /\ page_content d = EmptyString).
Proof.
  cbv zeta. split; [reflexivity|].
  apply competitor_comparison_error_iff. reflexivity.
Defined.

Lemma tool_call_isolation_witness :
  exists o w',
    run_tool None (CallRecap ["Pricing"] ["Send TDS"] "Friday") demo_world = (o, w') /\
    w_ctx demo_world <> Some 1 /\
    w_ctx w' = w_ctx demo_world /\
    w_heap w' !! 1 = w_heap demo_world !! 1.
Proof.
  destruct (run_tool None (CallRecap ["Pricing"] ["Send TDS"] "Friday") demo_world)
    as [o w'] eqn:E.
  exists o, w'. split; [reflexivity|]. split; [discriminate|].
  eapply tool_call_isolation; [exact E | discriminate].
Defined.

Lemma state_tools_unbound_raise_witness :
  w_ctx unbound_world = None /\
  exists w', run_tool None CallEmail unbound_world = (Raise fatal_no_session, w') /\
             w_heap w' = w_heap unbound_world /\ w_stdout w' = w_stdout unbound_world.
Proof.
  split; [reflexivity|]. apply state_tools_unbound_raise; [reflexivity | exact I].
Defined.

Lemma tool_call_preserves_wf_witness :
  bound_state demo_world = Some ∅ /\ wf_recap_state ∅ = true /\
  exists o w' st',
    run_tool None (CallRecap ["Pricing"] ["Send TDS"] "Friday") demo_world = (o, w') /\
    bound_state w' = Some st' /\ wf_recap_state st' = true.
Proof.
  split; [reflexivity|]. split; [reflexivity|].
  destruct (run_tool None (CallRecap ["Pricing"] ["Send TDS"] "Friday") demo_world)
    as [o w'] eqn:E.
  destruct (tool_call_preserves_wf None (CallRecap ["Pricing"] ["Send TDS"] "Friday")
              demo_world o w' ∅ eq_refl eq_refl E) as [st' [H1 H2]].
  exists o, w', st'. by split.
Defined.

Lemma email_succeeds_under_wf_witness :
  wf_recap_state (sess_state (demo_session "s1")) = true /\
  exists res w', call create_email_from_recap tt demo_world = (Ok res, w').
Proof.
  split; [reflexivity|]. apply (email_succeeds_under_wf demo_world 0 (demo_session "s1"));
    reflexivity.
Defined.
