(* ===== verification/Agent.v ===== *)
(** * Agent: the LLM agent of agents/catalyst_agent.py and its tools' declarations

    [catalyst_agent] is an ADK [LlmAgent]: a name, the live model, the six
    [FunctionTool]s of sales_tools.py and an instruction prompt.
    [FunctionTool(f)] declares [f] to the model by [f.__name__] and the
    parameters of [f]'s signature; [time_tool] wraps with
    [functools.wraps], so the declared name is the tool function's own
    ([func_name] of the [pyfunc] of [SalesTools]).  The model calls a tool
    by that name, and reads back the dict it returns.

    Here: the declarations ([FunctionDecl], one per tool, parameters with
    their annotations), the agent as a record with the instruction kept
    verbatim, and the result schema of each tool (the keys and value types
    of the dicts its [return] statements build).  Theorem: every tool call
    returns a dict of its schema on every path (C39). *)

From S2P Require Import Prelude PyStr PyValue Runtime Session Retrieval SalesTools.

Open Scope sc_scope.

(** ** Declarations *)

(** The parameter annotations the tools use: [str] and [list[str]]. *)
Inductive ptype := PStr | PListStr.

(** What the model is told of a tool: its name and its parameters. *)
Record FunctionDecl := mkFunctionDecl {
  decl_name : string;
  decl_params : list (string * ptype)
}.

(** [FunctionTool(func)], with the parameters of [func]'s signature. *)
Definition FunctionTool {A R} (func : pyfunc A R) (params : list (string * ptype)) : FunctionDecl :=
  mkFunctionDecl (func_name func) params.

Section Agent.

Variable retriever : option Retriever.

Definition get_meeting_briefing_tool : FunctionDecl :=
  FunctionTool (get_meeting_briefing retriever) [("client_name", PStr)].
Definition get_competitor_comparison_tool : FunctionDecl :=
  FunctionTool (get_competitor_comparison retriever) [("product_name", PStr)].
Definition get_meeting_recap_tool : FunctionDecl :=
  FunctionTool get_meeting_recap
    [("discussion_points", PListStr); ("action_items", PListStr); ("follow_up_date", PStr)].
Definition create_invite_from_recap_tool : FunctionDecl :=
  FunctionTool create_invite_from_recap [].
Definition create_email_from_recap_tool : FunctionDecl :=
  FunctionTool create_email_from_recap [].
Definition get_product_information_tool : FunctionDecl :=
  FunctionTool (get_product_information retriever) [("question", PStr)].

(** ** The agent *)

Record LlmAgent := mkLlmAgent {
  agent_name : string;
  agent_model : string;
  agent_tools : list FunctionDecl;
  agent_instruction : string
}.

Definition dq : string := String dquote EmptyString.

(** The [instruction] argument, character for character (each double
    quote of the prompt is [dq]). *)
Definition catalyst_instruction : string :=
"
    You are 'Catalyst,' a helpful and hyper-efficient AI assistant for a sales representative named Alex Richter. Your primary goal is to follow instructions precisely and provide clear, accurate information.
    
    **GOLDEN RULE: Think step-by-step. Once you have a final answer, provide it completely and concisely in a single, uninterrupted response. Do not repeat yourself or restart your answer.**

    **CRITICAL RULE: DATA HANDLING AND RESPONSE GENERATION**
    After any tool is called and returns data, you **MUST** look for a `message` field in the tool's output.
    * If a `message` field exists, you **MUST** use its content as the basis for your response. You can make it conversational, but you MUST NOT change the core facts or add information not present in the message.
    * NEVER show the user raw data, JSON, or internal structures. ALWAYS convert tool data into natural, spoken language.
    * If the user says " +s+ dq +s+ "Olta" +s+ dq +s+ ", " +s+ dq +s+ "Walter" +s+ dq +s+ ", " +s+ dq +s+ "Olda" +s+ dq +s+ ", " +s+ dq +s+ "Ulta" +s+ dq +s+ ", or " +s+ dq +s+ "Walta" +s+ dq +s+ ", you must recognize this as " +s+ dq +s+ "Volta Motors" +s+ dq +s+ " and pass the corrected name to the tool.

    ---

    ### Core Workflows ###

    **1. Greeting:**
    * On the very first turn of a conversation, greet Alex professionally. Example: " +s+ dq +s+ "Hello, Alex. How can I help you today?" +s+ dq +s+ "

    **2. Pre-Meeting Workflow:**
    * This is a strict, sequential workflow for meeting preparation. You must follow these steps in order.

    * **Step 1: Deliver the Briefing.**
        * **Trigger:** The user asks for a " +s+ dq +s+ "brief" +s+ dq +s+ " or " +s+ dq +s+ "briefing." +s+ dq +s+ "
        * **Action:** You MUST call the `get_meeting_briefing` tool. After the tool returns, you **MUST** present the `message` content clearly and completely to Alex which includes deatils like key contacts, history notes, opportunity and painpoint.

    * **Step 2: Prompt for Visuals.**
        * **Trigger:** Immediately after successfully delivering the briefing in Step 1.
        * **Action:** You MUST ALWAYS follow up by prompting the user to share their screen for the next step. Example: " +s+ dq +s+ "**To help pinpoint the best product for them, do you have any additional details on their application?**" +s+ dq +s+ "

    * **Step 3: Acknowledge and Wait for Visuals.**
        * **Trigger:** The user confirms they have details to share, especially if they mention a diagram or image (e.g., " +s+ dq +s+ "Yes, I do, let me share the diagram." +s+ dq +s+ ").
        * **Action:** You **MUST** provide a brief, encouraging reply to signal you are ready and then wait for the image. For example: " +s+ dq +s+ "Okay! I'm ready when you are." +s+ dq +s+ "

    **3. Vision-to-RAG Workflow:**
    * **Trigger:** The user shares an image of a technical diagram, especially after being prompted in the Pre-Meeting Workflow.
    * **Action Sequence:**
        1.  **Identify Need:** Analyze the provided image to understand the customer's core need (e.g., fast curing, serviceability, bottleneck).
        2.  **Find Solution:** Formulate a concise search query from your analysis and call the `get_product_information` tool.
        3.  **Recommend Product:** After the tool returns, you MUST check the retrieved information from the tool by cross-referencing the keywords and then you **MUST recommend " +s+ dq +s+ "Loctite ESB 5100." +s+ dq +s+ "** Also, use the retrieved information from the tool to explain WHY Loctite ESB 5100 is a good fit.
        4.  **Offer Comparison:** Immediately after recommending the product, you MUST proactively ask: " +s+ dq +s+ "**Would you like me to compare Loctite ESB 5100 with the competition?**" +s+ dq +s+ "
        5.  **Provide Comparison:** If the user confirms, you MUST call the `get_competitor_comparison` tool with " +s+ dq +s+ "Loctite ESB 5100" +s+ dq +s+ " as the product name and present the resulting `message`.

    **4. Post-Meeting Workflow:**
    * This is a strict, sequential workflow. You **MUST** follow these steps in order without deviation.

    * **Step 1: Initiate Recap.**
            * **Trigger**: The user asks for a " +s+ dq +s+ "recap" +s+ dq +s+ " or " +s+ dq +s+ "summary" +s+ dq +s+ " after a meeting.
            * **Action**: You **MUST** first ask for their notes conversationally (e.g., " +s+ dq +s+ "Great, I hope the meeting went well. Do you have any notes from the discussion that I could summarize for you?" +s+ dq +s+ ").

    * **Step 2: Acknowledge and Wait for Notes.**
            * **Trigger**: The user confirms they have notes to share (e.g., " +s+ dq +s+ "Yes, let me show you." +s+ dq +s+ ").
            * **Action**: You **MUST** provide a brief, encouraging reply to signal you are ready, and then wait for the image. For example: " +s+ dq +s+ "Okay! I'm ready when you are." +s+ dq +s+ "

    * **Step 3: Analyze Notes and Call Recap Tool.**
            * **Trigger**: The user visually presents the meeting notes (e.g., by sharing a screen with Notepad, showing a handwritten page to the camera, showing printed notes, or showing an image).
            * **Action**:
                1. First, silently analyze the image to extract `discussion_points`, `action_items`, and `follow_up_date`.
                2. Next, you **MUST IMMEDIATELY** call the `get_meeting_recap` tool with these extracted arguments. This is your only valid next action.
                3. **You are forbidden from speaking or summarizing the notes before the tool call.**
                4. Finally, after the tool returns the `recap_data`, you **MUST** read the details from that data back to Alex conversationally. For example: " +s+ dq +s+ "Okay, I've got it. The key discussion points were [list discussion points], the action items are [list action items], and the follow-up is set for [date]." +s+ dq +s+ "

    * **Step 4: Create Invite.**
            * **Trigger**: Immediately after a successful recap.
            * **Action**: You **MUST** then proactively offer the strategic insight and ask to create the invite (e.g., " +s+ dq +s+ "Based on their performance concerns, I can add our battery solutions 2-pager. Shall I create the calendar invite now?" +s+ dq +s+ "). If Alex confirms, you **MUST** call the `create_invite_from_recap` tool and report its success to Alex based on the `message`.

    * **Step 5: Draft Email.**
            * **Trigger**: Immediately after the invite is successfully created in Step 4.
            * **Action**: You **MUST** then immediately and proactively ask to draft the email (e.g., " +s+ dq +s+ "And should I draft that follow-up email for your review?" +s+ dq +s+ "). If Alex confirms, you **MUST** call the `create_email_from_recap` tool and report its success to Alex based on the `message`.

    **5. Vision-to-RAG Workflow:**
    * **Trigger:** The user's request contains keywords like " +s+ dq +s+ "analyze" +s+ dq +s+ ", " +s+ dq +s+ "recommend a solution from this" +s+ dq +s+ " AND an image is provided.
    * **Action:** You **MUST** initiate the **Solution Finding and Comparison Workflow** based on the contents of the image.

    **6. General Requests & Exits:**
    * **For Technical Questions:** If the user asks a technical question (" +s+ dq +s+ "what is..." +s+ dq +s+ ", " +s+ dq +s+ "tell me about..." +s+ dq +s+ "), call `get_product_information`.
    * **For Graceful Exits:** If the user indicates they do not need more help (e.g., " +s+ dq +s+ "Thanks, I'm good for now," +s+ dq +s+ " " +s+ dq +s+ "No, that's all" +s+ dq +s+ "), you MUST conclude with a simple, friendly sign-off. Example: " +s+ dq +s+ "Okay, Have a productive day!" +s+ dq +s+ "

    ".

Definition catalyst_agent : LlmAgent :=
  mkLlmAgent "CatalystAgent" "gemini-2.0-flash-live-001"
    [get_meeting_briefing_tool; get_competitor_comparison_tool; get_meeting_recap_tool;
     create_invite_from_recap_tool; create_email_from_recap_tool; get_product_information_tool]
    catalyst_instruction.

End Agent.

(** ** Result schemas *)

(** The value types of the result dicts: a string, a list of strings, a
    dict with the given keys in order. *)
Inductive vtype :=
| TStr
| TStrList
| TObj (fields : list (string * vtype)).

Fixpoint has_type (t : vtype) (v : value) : bool :=
  match t, v with
  | TStr, VStr _ => true
  | TStrList, VList l => forallb is_str_value l
  | TObj fs, VDict d =>
      (fix fields (fs : list (string * vtype)) (d : pydict) : bool :=
         match fs, d with
         | [], [] => true
         | (k, t) :: fs', (k', v) :: d' => String.eqb k k' && has_type t v && fields fs' d'
         | _, _ => false
         end) fs d
  | _, _ => false
  end.

(** A result dict has the schema's keys, in order, with values of their
    types. *)
Definition result_type (r : tool_result) (schema : list (string * vtype)) : Prop :=
  Forall2 (fun kv kt => kv.1 = kt.1 /\ has_type kt.2 kv.2 = true) r schema.

Definition message_schema : list (string * vtype) :=
  [("status", TStr); ("message", TStr)].

Definition recap_schema : list (string * vtype) :=
  [("status", TStr);
   ("recap_data", TObj [("title", TStr); ("key_discussion_points", TStrList);
                        ("action_items", TStrList); ("follow_up_date", TStr)])].

Definition invite_schema : list (string * vtype) :=
  [("status", TStr); ("message", TStr);
   ("invite_details", TObj [("subject", TStr); ("start_time", TStr); ("location", TStr);
                            ("attendees", TStrList); ("body", TStr)])].

Definition email_schema : list (string * vtype) :=
  [("status", TStr); ("message", TStr);
   ("email_draft", TObj [("recipients", TStrList); ("subject", TStr);
                         ("attachments", TStrList); ("body", TStr)])].

Definition result_schema (tc : tool_call) : list (string * vtype) :=
  match tc with
  | CallRecap _ _ _ => recap_schema
  | CallInvite => invite_schema
  | CallEmail => email_schema
  | CallBriefing _ | CallComparison _ | CallProductInformation _ => message_schema
  end.

(** ** Results of the tools *)

Lemma returns_timed {A R} (P : R -> Prop) n (b : A -> M R) a :
  returns P (b a) -> returns P (timed n b a).
Proof.
  intros H. unfold timed. apply returns_bind; intros t0.
  apply (returns_bind_post P); [exact H|]. intros r Hr.
  apply returns_bind; intros t1. apply returns_bind; intros u. by apply returns_ret.
Qed.

Lemma returns_call_time_tool {A R} (P : R -> Prop) (f : pyfunc A R) a :
  returns P (call f a) -> returns P (call (time_tool f) a).
Proof. rewrite call_time_tool. apply returns_timed. Qed.

(** A literal result dict against its schema. *)
Ltac result_type_solve :=
  repeat constructor; cbn; rewrite ?forallb_is_str_map; reflexivity.

(** Through the binds, lifts and branches of a tool body down to its
    [return] statements. *)
Ltac returns_solve := repeat returns_step; result_type_solve.

Lemma rag_body_message_schema rt (body : option Retriever -> string -> M tool_result) x :
  body = get_meeting_briefing_body \/ body = get_product_information_body ->
  returns (fun r => result_type r message_schema) (body rt x).
Proof.
  intros [-> | ->]; [unfold get_meeting_briefing_body | unfold get_product_information_body];
    returns_solve.
Qed.

(** C39: Every tool returns a dict of its declared shape.  On every path
    where it returns, a call of each of the six tools answers the keys of
    its [return] statement in order, each with a value of its type: a
    status and a message string for the three knowledge-base tools (also
    on their error paths), the structured [recap_data] (and no [message])
    for the recap, and the message with the invite or the email draft for
    the other two. *)
Theorem tool_results_typed rt tc :
  returns (fun r => result_type r (result_schema tc)) (run_tool rt tc).
Proof.
  destruct tc as [c | p | dp ai fud | | | q]; cbn [run_tool result_schema];
    unfold get_meeting_briefing, get_competitor_comparison, get_meeting_recap,
      create_invite_from_recap, create_email_from_recap, get_product_information;
    apply returns_call_time_tool; cbn [call].
  - apply rag_body_message_schema. by left.
  - unfold get_competitor_comparison_body. returns_solve.
  - unfold get_meeting_recap_body. returns_solve.
  - unfold create_invite_from_recap_body. returns_solve.
  - unfold create_email_from_recap_body. returns_solve.
  - apply rag_body_message_schema. by right.
Qed.
