(* ===== verification/IndexBuilder.v ===== *)
(** * IndexBuilder: create_index.py and the index the RAG tools load

    create_index.py is a script run once, offline: if the folder [docs/]
    is missing it creates it and asks for the PDFs; otherwise
    [create_vector_index] loads every page of the PDFs in it, splits them
    into chunks of 1000 characters with an overlap of 100, embeds the
    chunks with the Vertex AI model [text-embedding-005] and saves a FAISS
    index in the folder [faiss_index], printing its progress.
    sales_tools.py loads that folder at import time with the same
    embedding model; when the load raises, the RAG tools have no retriever.

    The state of the script is a small file system (the paths that exist,
    the pages the PDF loader reads from [docs/], the FAISS indexes saved,
    by folder) and stdout.  LangChain and FAISS are collaborators, the
    [LangChain] record: the text splitter, [FAISS.from_documents] (which
    may raise, e.g. when the embedding service fails) with the law that
    its index holds the chunks and the model given, and the store that
    [FAISS.load_local] rebuilds from a saved index.  The lemmas show what
    each run of the script leaves behind, and that after a successful run
    the module-level load of sales_tools.py gives a retriever over the
    chunks, built and queried with the same embedding model, so the
    briefing tool no longer answers that the knowledge base is missing
    (C24). *)

From S2P Require Import Prelude PyStr PyValue Runtime Session Retrieval SalesTools.

Open Scope sc_scope.

(** ** The script's constants and world *)

Definition PDFS_PATH : string := "docs/".
Definition INDEX_PATH : string := "faiss_index".

(** [VertexAIEmbeddings(model_name="text-embedding-005")] in create_index.py. *)
Definition index_embedding_model : string := "text-embedding-005".

(** The same constructor at the top of sales_tools.py. *)
Definition query_embedding_model : string := "text-embedding-005".

(** The folder sales_tools.py passes to [FAISS.load_local]. *)
Definition rag_index_path : string := "faiss_index".

(** A saved FAISS index: the chunks it holds and the model that embedded
    them. *)
Record IndexFile := mkIndexFile {
  index_docs : list Document;
  index_model : string
}.

Record fs := mkFs {
  fs_paths : list string;           (** the files and folders that exist *)
  fs_pages : list Document;         (** the pages the PDF loader reads in [docs/] *)
  fs_index : gmap string IndexFile  (** the indexes saved, by folder *)
}.

Record LangChain := mkLangChain {
  (** [RecursiveCharacterTextSplitter(chunk_size, chunk_overlap).split_documents] *)
  split_documents : nat -> nat -> list Document -> list Document;
  (** [FAISS.from_documents(docs, embeddings)] *)
  from_documents : list Document -> string -> outcome IndexFile;
  from_documents_ok : forall docs m idx,
    from_documents docs m = Ok idx -> idx = mkIndexFile docs m;
  (** The store [FAISS.load_local] rebuilds from an index, embedding the
      queries with the given model. *)
  open_index : IndexFile -> string -> VectorStore
}.

Record sstate := mkSState {
  ss_fs : fs;
  ss_stdout : list string
}.

Definition sprint (l : string) (st : sstate) : sstate :=
  mkSState (ss_fs st) (ss_stdout st ++ [l]).

Section Script.

Variable lib : LangChain.

(** [db.save_local(INDEX_PATH)]: the folder and the index in it. *)
Definition save_local (idx : IndexFile) (path : string) (f : fs) : fs :=
  mkFs (if bool_decide (path ∈ fs_paths f) then fs_paths f else fs_paths f ++ [path])
    (fs_pages f) (<[path := idx]> (fs_index f)).

Definition create_vector_index (st : sstate) : outcome unit * sstate :=
  let st := sprint "Starting PDF loading..." st in
  let documents := fs_pages (ss_fs st) in
  let st := sprint ("Loaded " +s+ dec_of_N (N.of_nat (List.length documents))
                    +s+ " document pages.") st in
  let st := sprint "Splitting documents into chunks..." st in
  let docs := split_documents lib 1000 100 documents in
  let st := sprint ("Split into " +s+ dec_of_N (N.of_nat (List.length docs)) +s+ " chunks.") st in
  let st := sprint "Initializing embeddings model..." st in
  let st := sprint "Creating and saving the FAISS vector store..." st in
  match from_documents lib docs index_embedding_model with
  | Raise e => (Raise e, st)
  | Ok db =>
      let st := mkSState (save_local db INDEX_PATH (ss_fs st)) (ss_stdout st) in
      (Ok tt, sprint ("--- Index created successfully at '" +s+ INDEX_PATH +s+ "' ---") st)
  end.

(** The [if __name__ == "__main__"] block. *)
Definition create_index_main (st : sstate) : outcome unit * sstate :=
  if bool_decide (PDFS_PATH ∈ fs_paths (ss_fs st)) then create_vector_index st
  else
    let f := ss_fs st in
    (Ok tt, sprint ("Created '" +s+ PDFS_PATH
                    +s+ "' directory. Please add your PDF files there and run again.")
              (mkSState (mkFs (fs_paths f ++ [PDFS_PATH]) (fs_pages f) (fs_index f))
                 (ss_stdout st))).

(** [FAISS.load_local(path, embeddings, ...)]: faiss cannot open the
    index file of a folder that holds none. *)
Definition load_local (f : fs) (path model : string) : outcome VectorStore :=
  match fs_index f !! path with
  | Some idx => Ok (open_index lib idx model)
  | None => Raise (ExternalError ("could not open " +s+ path
                                  +s+ "/index.faiss for reading: No such file or directory"))
  end.

(** The module-level setup of sales_tools.py on the file system [f]. *)
Definition rag_setup (f : fs) : option Retriever * list string :=
  load_rag (load_local f rag_index_path query_embedding_model).

End Script.

(** The lines [create_vector_index] prints up to the save. *)
Definition progress_lines (pages chunks : nat) : list string :=
  ["Starting PDF loading...";
   "Loaded " +s+ dec_of_N (N.of_nat pages) +s+ " document pages.";
   "Splitting documents into chunks...";
   "Split into " +s+ dec_of_N (N.of_nat chunks) +s+ " chunks.";
   "Initializing embeddings model...";
   "Creating and saving the FAISS vector store..."].

(** A LangChain whose splitter keeps the pages, whose embedding never
    fails and whose loaded store answers the first passages it holds. *)
Definition demo_lib : LangChain.
Proof.
  refine (mkLangChain (fun _ _ ds => ds) (fun ds m => Ok (mkIndexFile ds m)) _
            (fun idx _ => static_store (index_docs idx))).
  by intros docs m idx [= <-].
Defined.

Definition demo_docs_fs : sstate :=
  mkSState (mkFs [PDFS_PATH] [mkDocument "Pilot pricing: 5k per quarter." []] ∅) [].

(** ** Runs of the script *)

Section Runs.

Variable lib : LangChain.

Lemma sprint_fs l st : ss_fs (sprint l st) = ss_fs st.
Proof. reflexivity. Qed.

(** The first run, without [docs/]: the folder is created, nothing else. *)
Lemma create_index_without_docs st :
  PDFS_PATH ∉ fs_paths (ss_fs st) ->
  create_index_main lib st =
    (Ok tt, mkSState (mkFs (fs_paths (ss_fs st) ++ [PDFS_PATH]) (fs_pages (ss_fs st))
                        (fs_index (ss_fs st)))
              (ss_stdout st ++ ["Created 'docs/' directory. Please add your PDF files there and run again."])).
Proof. intros H. unfold create_index_main. by rewrite bool_decide_eq_false_2. Qed.

(** A run with [docs/]: the chunks of its pages, embedded with the
    script's model, are saved in [faiss_index], after the six progress
    lines and before the success line. *)
Lemma create_index_saves st :
  PDFS_PATH ∈ fs_paths (ss_fs st) ->
  forall db, from_documents lib (split_documents lib 1000 100 (fs_pages (ss_fs st)))
               index_embedding_model = Ok db ->
  exists st', create_index_main lib st = (Ok tt, st') /\
    fs_index (ss_fs st') = <[INDEX_PATH := mkIndexFile (split_documents lib 1000 100
                                (fs_pages (ss_fs st))) index_embedding_model]> (fs_index (ss_fs st)) /\
    fs_pages (ss_fs st') = fs_pages (ss_fs st) /\
    INDEX_PATH ∈ fs_paths (ss_fs st') /\
    ss_stdout st' = ss_stdout st ++
      progress_lines (List.length (fs_pages (ss_fs st)))
        (List.length (split_documents lib 1000 100 (fs_pages (ss_fs st)))) ++
      ["--- Index created successfully at 'faiss_index' ---"].
Proof.
  intros Hd db Hdb. unfold create_index_main. rewrite bool_decide_eq_true_2 by done.
  unfold create_vector_index. cbn [sprint ss_fs ss_stdout]. rewrite Hdb.
  pose proof (from_documents_ok lib _ _ _ Hdb) as ->.
  eexists. split; [reflexivity|]. cbn. split; [done|]. split; [done|]. split.
  - case_bool_decide; [done|]. apply elem_of_app. right. by left.
  - by rewrite <- !app_assoc.
Qed.

(** A run whose [FAISS.from_documents] raises: the traceback ends the
    script after the progress lines, and the files are as before, so an
    index saved by an earlier run stays. *)
Lemma create_index_failure_keeps_files st e :
  PDFS_PATH ∈ fs_paths (ss_fs st) ->
  from_documents lib (split_documents lib 1000 100 (fs_pages (ss_fs st)))
    index_embedding_model = Raise e ->
  create_index_main lib st =
    (Raise e, mkSState (ss_fs st)
                (ss_stdout st ++ progress_lines (List.length (fs_pages (ss_fs st)))
                   (List.length (split_documents lib 1000 100 (fs_pages (ss_fs st)))))).
Proof.
  intros Hd He. unfold create_index_main. rewrite bool_decide_eq_true_2 by done.
  unfold create_vector_index, sprint. cbn [ss_fs ss_stdout]. rewrite He.
  by rewrite <- !app_assoc.
Qed.

(** With an index in [faiss_index], sales_tools.py gets the retriever of
    its store, queried with sales_tools.py's model; without one, it prints
    the error and has no retriever. *)
Lemma rag_setup_index f idx :
  fs_index f !! INDEX_PATH = Some idx ->
  rag_setup lib f = (Some (as_retriever (open_index lib idx query_embedding_model) 3), []).
Proof. intros H. unfold rag_setup, load_local. change rag_index_path with INDEX_PATH. by rewrite H. Qed.

Lemma rag_setup_no_index f :
  fs_index f !! INDEX_PATH = None -> fst (rag_setup lib f) = None.
Proof. intros H. unfold rag_setup, load_local. change rag_index_path with INDEX_PATH. by rewrite H. Qed.

(** The first run leaves no index: the RAG tools of a fresh checkout
    report the knowledge base as unavailable until the script runs again
    with the PDFs. *)
Lemma first_run_no_retriever st st' :
  PDFS_PATH ∉ fs_paths (ss_fs st) -> fs_index (ss_fs st) = ∅ ->
  create_index_main lib st = (Ok tt, st') -> fst (rag_setup lib (ss_fs st')) = None.
Proof.
  intros Hd He Hr. rewrite create_index_without_docs in Hr by done.
  injection Hr as <-. apply rag_setup_no_index. cbn. by rewrite He.
Qed.

(** C24: The script and the tools fit together.  After a run of
    create_index.py with the PDFs in [docs/] that succeeds, the retriever
    sales_tools.py loads at import is the top-3 retriever of the index
    saved in [faiss_index], which holds the chunks of those pages embedded
    with the model the queries are embedded with, and the briefing tool no
    longer answers that the knowledge base is unavailable. *)
Theorem built_index_serves_briefing st st' client :
  PDFS_PATH ∈ fs_paths (ss_fs st) -> create_index_main lib st = (Ok tt, st') ->
  exists idx,
    rag_setup lib (ss_fs st') = (Some (as_retriever (open_index lib idx query_embedding_model) 3), []) /\
    index_docs idx = split_documents lib 1000 100 (fs_pages (ss_fs st)) /\
    index_model idx = query_embedding_model /\
    returns (fun r => r <> status_error kb_unavailable)
      (get_meeting_briefing_body (fst (rag_setup lib (ss_fs st'))) client).
Proof.
  intros Hd Hr.
  destruct (from_documents lib (split_documents lib 1000 100 (fs_pages (ss_fs st)))
              index_embedding_model) as [db|e] eqn:Hdb.
  - destruct (create_index_saves st Hd db Hdb) as (st1 & Hr1 & Hidx & _).
    rewrite Hr in Hr1. injection Hr1 as <-.
    exists (mkIndexFile (split_documents lib 1000 100 (fs_pages (ss_fs st))) index_embedding_model).
    erewrite rag_setup_index by (rewrite Hidx; apply lookup_insert_eq).
    split; [done|]. split; [done|]. split; [done|]. cbn [fst].
    unfold get_meeting_briefing_body. repeat returns_step. done.
  - by rewrite (create_index_failure_keeps_files st e) in Hr.
Qed.

End Runs.

(** ** Witnesses *)

Lemma built_index_serves_briefing_witness :
  exists idx,
    rag_setup demo_lib (ss_fs (snd (create_index_main demo_lib demo_docs_fs))) =
      (Some (as_retriever (open_index demo_lib idx query_embedding_model) 3), []) /\
    index_docs idx = split_documents demo_lib 1000 100 (fs_pages (ss_fs demo_docs_fs)) /\
    index_model idx = query_embedding_model /\
    returns (fun r => r <> status_error kb_unavailable)
      (get_meeting_briefing_body
         (fst (rag_setup demo_lib (ss_fs (snd (create_index_main demo_lib demo_docs_fs))))) "Acme").
Proof.
  apply (built_index_serves_briefing demo_lib demo_docs_fs
           (snd (create_index_main demo_lib demo_docs_fs)) "Acme");
    [set_solver | reflexivity].
Defined.
