(* ===== verification/Json.v ===== *)
(** * Json: [json.dumps] as main.py calls it

    main.py serialises every outbound wire message with [json.dumps(x)]
    under the default settings: [ensure_ascii=True], separators [", "] and
    [": "], keys in insertion order.  [json_dumps] prints a [value] the way
    CPython's encoder does: [null], [true], [false], strings in double
    quotes with the double quote, the backslash, newline, carriage return,
    tab, backspace and form feed escaped by a backslash, every other
    character outside the printable ASCII range 0x20-0x7e as a [\u00xx]
    escape, and lists and objects with the default separators.  Theorem
    C37: what it prints is printable ASCII. *)

From S2P Require Import Prelude PyStr PyValue.
From Stdlib Require Import DecimalString.

Open Scope sc_scope.

Definition hex4 (n : nat) : string :=
  String "0" (String "0" (String (hex_digit (n / 16))
                              (String (hex_digit (n mod 16)) EmptyString))).

(** One character of a JSON string literal ([py_encode_basestring_ascii]). *)
Definition json_escape_char (c : ascii) : string :=
  let n := nat_of_ascii c in
  if ascii_dec c dquote then String "\" (String dquote EmptyString)
  else if ascii_dec c "\" then String "\" (String "\" EmptyString)
  else if n =? 10 then String "\" (String "n" EmptyString)
  else if n =? 13 then String "\" (String "r" EmptyString)
  else if n =? 9 then String "\" (String "t" EmptyString)
  else if n =? 8 then String "\" (String "b" EmptyString)
  else if n =? 12 then String "\" (String "f" EmptyString)
  else if (32 <=? n) && (n <=? 126) then String c EmptyString
  else String "\" (String "u" (hex4 n)).

Fixpoint json_escape (s : string) : string :=
  match s with
  | EmptyString => EmptyString
  | String c s' => json_escape_char c +s+ json_escape s'
  end.

Definition json_string (s : string) : string :=
  String dquote (json_escape s +s+ String dquote EmptyString).

Fixpoint json_dumps (v : value) : string :=
  match v with
  | VNone => "null"
  | VBool true => "true"
  | VBool false => "false"
  | VInt z => dec_of_Z z
  | VStr s => json_string s
  | VList l => "[" +s+ py_join ", " (map json_dumps l) +s+ "]"
  | VDict d =>
      "{" +s+ py_join ", "
        (map (fun kv => json_string (fst kv) +s+ ": " +s+ json_dumps (snd kv)) d)
      +s+ "}"
  end.

(** Every character of a string is printable ASCII, 0x20-0x7e: what a
    line of [ensure_ascii] JSON consists of. *)
Fixpoint all_printable (s : string) : bool :=
  match s with
  | EmptyString => true
  | String c s' => (32 <=? nat_of_ascii c) && (nat_of_ascii c <=? 126) && all_printable s'
  end.

(** ** The encoder's alphabet *)

Lemma all_printable_app a b :
  all_printable (a +s+ b) = all_printable a && all_printable b.
Proof.
  induction a as [|x a IH]; [done|]. rewrite string_app_cons. cbn [all_printable].
  by rewrite IH, andb_assoc.
Qed.

Lemma all_printable_json_escape_char c : all_printable (json_escape_char c) = true.
Proof. destruct c as [[] [] [] [] [] [] [] []]; vm_compute; reflexivity. Qed.

Lemma all_printable_json_escape s : all_printable (json_escape s) = true.
Proof.
  induction s as [|x s IH]; [done|].
  cbn [json_escape]. by rewrite all_printable_app, all_printable_json_escape_char, IH.
Qed.

Lemma all_printable_json_string s : all_printable (json_string s) = true.
Proof.
  unfold json_string. cbn [all_printable].
  rewrite all_printable_app, all_printable_json_escape. reflexivity.
Qed.

Lemma all_printable_py_join sep xs :
  all_printable sep = true -> Forall (fun x => all_printable x = true) xs ->
  all_printable (py_join sep xs) = true.
Proof.
  intros Hsep Hxs. induction Hxs as [|x xs Hx Hxs IH]; [done|].
  destruct xs as [|y xs]; [done|].
  rewrite py_join_cons_cons. by rewrite !all_printable_app, Hx, Hsep, IH.
Qed.

Lemma all_printable_uint u : all_printable (NilEmpty.string_of_uint u) = true.
Proof. induction u; exact IHu || done. Qed.

Lemma all_printable_dec_of_Z z : all_printable (dec_of_Z z) = true.
Proof.
  assert (forall n, all_printable (dec_of_N n) = true) as Hn.
  { intros n. unfold dec_of_N, NilZero.string_of_uint.
    destruct (N.to_uint n); [done | apply (all_printable_uint (_ _))..]. }
  unfold dec_of_Z. destruct (z <? 0)%Z; [|apply Hn].
  by rewrite all_printable_app, Hn.
Qed.

(** C37: The wire format is printable ASCII.  Every message main.py
    serialises with [json.dumps] is a string of characters between 0x20
    and 0x7e: [ensure_ascii] escapes every non-ASCII character, and every
    control character, newlines included, is escaped too, so a text frame
    carries neither raw line breaks nor bytes above 0x7e. *)
Theorem json_dumps_printable v : all_printable (json_dumps v) = true.
Proof.
  revert v. fix IH 1. intros [|[]|z|s|l|d]; cbn [json_dumps];
    rewrite ?all_printable_app; try done.
  - apply all_printable_dec_of_Z.
  - apply all_printable_json_string.
  - rewrite all_printable_py_join; [done..|].
    induction l as [|x l IHl]; constructor; [apply IH | exact IHl].
  - rewrite all_printable_py_join; [done..|].
    induction d as [|[k x] d IHd]; constructor; [|exact IHd].
    cbn. by rewrite !all_printable_app, all_printable_json_string, IH.
Qed.
