(* ===== verification/JsonDecode.v ===== *)
(** * JsonDecode: [json.loads] as main.py calls it

    [client_to_agent_messaging] parses every client frame with
    [json.loads(message_json)].  This file models CPython's default decoder
    (the C scanner of [_json.c], with [strict=True]) on the values of
    [PyValue]:

    - [skip_ws] is the [WHITESPACE] match (space, tab, newline, return);
    - [scanstring] is [scanstring_unicode]: the characters up to the
      closing quote, with the escapes of a backslash followed by a double
      quote, a backslash, a slash, [b], [f], [n], [r], [t] or [uXXXX], and
      control characters below 0x20 rejected;
    - [match_number] is [_match_number_unicode] on integers;
    - [scan_once], [object_members] and [array_elements] are
      [scan_once_unicode], [_parse_object_unicode] and
      [_parse_array_unicode], one mutual definition decreasing a fuel
      argument at every call;
    - [json_loads] is [JSONDecoder.decode]: leading and trailing
      whitespace, [Extra data] after the value, and the error message
      [msg: line L column C (char P)] of [JSONDecodeError] (a [ValueError]).

    A scan returns the value and the text after it, or an error together
    with the text at which it was detected (its position is the length of
    the input minus the length of that text).  Objects are built as
    [dict] does: a repeated key keeps its first position and takes its last
    value ([pydict_set]).

    Outside the value model, reported as [ExternalError]: floats (a
    fraction or an exponent, [NaN], [Infinity], [-Infinity]) and [\u]
    escapes above 0xff (strings are Latin-1 code units).  Python's
    recursion limit on nesting and the 4300-digit limit on integers are
    not modelled.  The fuel given by [json_loads] ([loads_fuel]) is twice
    the length of the input plus one, which is enough: a scanner called
    with fuel above twice the length of its text never runs out
    ([scan_consumes], [consumes_not_out_of_fuel]), and the answer then
    does not depend on the fuel ([scan_once_fuel_irrelevant]).

    The library lemma [loads_dumps] reads back every value [json_dumps]
    prints whose dicts have distinct keys; [Relay] uses it for the frames
    the page sends. *)

From S2P Require Import Prelude PyStr PyValue Json.
From Stdlib Require Import DecimalString DecimalPos DecimalN.

Open Scope sc_scope.

(** ** Scans *)

Inductive scan (A : Type) :=
| Scanned (a : A) (rest : string)          (** the result and the text after it *)
| ScanError (msg : string) (at_ : string)  (** [JSONDecodeError(msg, s, pos)] *)
| Unsupported (what : string)              (** outside the value model *)
| OutOfFuel.
Arguments Scanned {A} a rest.
Arguments ScanError {A} msg at_.
Arguments Unsupported {A} what.
Arguments OutOfFuel {A}.

Definition scan_map {A B} (f : A -> B) (r : scan A) : scan B :=
  match r with
  | Scanned a rest => Scanned (f a) rest
  | ScanError m at_ => ScanError m at_
  | Unsupported w => Unsupported w
  | OutOfFuel => OutOfFuel
  end.

(** ** Characters *)

Definition is_ws (c : ascii) : bool :=
  let n := nat_of_ascii c in (n =? 32) || (n =? 9) || (n =? 10) || (n =? 13).

Fixpoint skip_ws (s : string) : string :=
  match s with
  | String c s' => if is_ws c then skip_ws s' else s
  | EmptyString => s
  end.

Definition is_digit (c : ascii) : bool :=
  let n := nat_of_ascii c in (48 <=? n) && (n <=? 57).

Definition hex_val (c : ascii) : option nat :=
  let n := nat_of_ascii c in
  if (48 <=? n) && (n <=? 57) then Some (n - 48)
  else if (97 <=? n) && (n <=? 102) then Some (n - 87)
  else if (65 <=? n) && (n <=? 70) then Some (n - 55)
  else None.

Definition hex4_val (a b c d : ascii) : option nat :=
  match hex_val a, hex_val b, hex_val c, hex_val d with
  | Some x, Some y, Some z, Some w => Some (((x * 16 + y) * 16 + z) * 16 + w)
  | _, _, _, _ => None
  end.

(** The one-character escapes and the characters they stand for. *)
Definition simple_escape (e : ascii) : option ascii :=
  let n := nat_of_ascii e in
  if n =? 34 then Some e             (* double quote *)
  else if n =? 92 then Some e        (* backslash *)
  else if n =? 47 then Some e        (* slash *)
  else if n =? 98 then Some (ascii_of_nat 8)
  else if n =? 102 then Some (ascii_of_nat 12)
  else if n =? 110 then Some (ascii_of_nat 10)
  else if n =? 114 then Some (ascii_of_nat 13)
  else if n =? 116 then Some (ascii_of_nat 9)
  else None.

Definition cons_scan (c : ascii) (r : scan string) : scan string :=
  scan_map (String c) r.

(** [scanstring_unicode]: [begin] is the text from the opening quote, [s]
    the text after it. *)
Fixpoint scanstring (begin s : string) : scan string :=
  match s with
  | EmptyString => ScanError "Unterminated string starting at" begin
  | String c s' =>
      if nat_of_ascii c =? 34 then Scanned EmptyString s'
      else if nat_of_ascii c =? 92 then
        match s' with
        | EmptyString => ScanError "Unterminated string starting at" begin
        | String e s'' =>
            if nat_of_ascii e =? 117 then
              match s'' with
              | String h1 (String h2 (String h3 (String h4 (String _ _ as rest)))) =>
                  match hex4_val h1 h2 h3 h4 with
                  | Some n =>
                      if n <? 256 then cons_scan (ascii_of_nat n) (scanstring begin rest)
                      else Unsupported "non-Latin-1 \u escape"
                  | None => ScanError "Invalid \uXXXX escape" s'
                  end
              | _ => ScanError "Invalid \uXXXX escape" s'
              end
            else
              match simple_escape e with
              | Some c' => cons_scan c' (scanstring begin s'')
              | None => ScanError "Invalid \escape" s
              end
        end
      else if nat_of_ascii c <? 32 then ScanError "Invalid control character at" s
      else cons_scan c (scanstring begin s')
  end.

Definition scan_bind {A B} (r : scan A) (k : A -> string -> scan B) : scan B :=
  match r with
  | Scanned a rest => k a rest
  | ScanError m at_ => ScanError m at_
  | Unsupported w => Unsupported w
  | OutOfFuel => OutOfFuel
  end.

(** ** Numbers *)

Fixpoint take_digits (s : string) : string * string :=
  match s with
  | String c s' =>
      if is_digit c then let '(ds, r) := take_digits s' in (String c ds, r) else (EmptyString, s)
  | EmptyString => (EmptyString, EmptyString)
  end.

Fixpoint digits_Z (acc : Z) (ds : string) : Z :=
  match ds with
  | String c ds' => digits_Z (acc * 10 + (Z.of_nat (nat_of_ascii c) - 48)) ds'
  | EmptyString => acc
  end.

(** After the integer digits: a [.] followed by a digit, or an [e]/[E]
    followed by a digit or by a sign and a digit, makes the number a
    float. *)
Definition is_float_tail (r : string) : bool :=
  match r with
  | String c r' =>
      if nat_of_ascii c =? 46 then
        match r' with String d _ => is_digit d | EmptyString => false end
      else if (nat_of_ascii c =? 101) || (nat_of_ascii c =? 69) then
        match r' with
        | String x r'' =>
            if (nat_of_ascii x =? 43) || (nat_of_ascii x =? 45) then
              match r'' with String d _ => is_digit d | EmptyString => false end
            else is_digit x
        | EmptyString => false
        end
      else false
  | EmptyString => false
  end.

Definition int_result (neg : bool) (ds r : string) : scan value :=
  if is_float_tail r then Unsupported "float"
  else Scanned (VInt (if neg then (- digits_Z 0 ds)%Z else digits_Z 0 ds)) r.

(** [_match_number_unicode]: an optional minus sign, then [0] or a
    non-zero digit and more digits. *)
Definition number_sign (s : string) : bool * string :=
  match s with
  | String c r => if nat_of_ascii c =? 45 then (true, r) else (false, s)
  | EmptyString => (false, s)
  end.

Definition match_number (s : string) : scan value :=
  let '(neg, s1) := number_sign s in
  match s1 with
  | String c r =>
      if nat_of_ascii c =? 48 then int_result neg "0" r
      else if is_digit c then let '(ds, r') := take_digits r in int_result neg (String c ds) r'
      else ScanError "Expecting value" s
  | EmptyString => ScanError "Expecting value" s
  end.

(** ** Objects as [dict] builds them *)

Fixpoint strip_prefix (p s : string) : option string :=
  match p, s with
  | EmptyString, _ => Some s
  | String a p', String b s' => if ascii_dec a b then strip_prefix p' s' else None
  | String _ _, EmptyString => None
  end.

(** ** Values *)

Fixpoint scan_once (fuel : nat) (s : string) {struct fuel} : scan value :=
  match fuel with
  | O => OutOfFuel
  | S f =>
      match s with
      | EmptyString => ScanError "Expecting value" s
      | String c s' =>
          let n := nat_of_ascii c in
          if n =? 34 then scan_map VStr (scanstring s s')
          else if n =? 123 then
            let s1 := skip_ws s' in
            match s1 with
            | String d r => if nat_of_ascii d =? 125 then Scanned (VDict []) r
                            else object_members f s1 []
            | EmptyString => object_members f s1 []
            end
          else if n =? 91 then
            let s1 := skip_ws s' in
            match s1 with
            | String d r => if nat_of_ascii d =? 93 then Scanned (VList []) r
                            else array_elements f s1 []
            | EmptyString => array_elements f s1 []
            end
          else match strip_prefix "null" s with Some r => Scanned VNone r | None =>
               match strip_prefix "true" s with Some r => Scanned (VBool true) r | None =>
               match strip_prefix "false" s with Some r => Scanned (VBool false) r | None =>
               match strip_prefix "NaN" s with Some _ => Unsupported "float" | None =>
               match strip_prefix "Infinity" s with Some _ => Unsupported "float" | None =>
               match strip_prefix "-Infinity" s with Some _ => Unsupported "float" | None =>
                 match_number s
               end end end end end end
      end
  end

(** The members of an object, from the first key on; [acc] holds the
    members read so far. *)
with object_members (fuel : nat) (s : string) (acc : pydict) {struct fuel} : scan value :=
  match fuel with
  | O => OutOfFuel
  | S f =>
      match s with
      | String c s' =>
          if nat_of_ascii c =? 34 then
            scan_bind (scanstring s s') (fun k r =>
              let r1 := skip_ws r in
              match r1 with
              | String d r2 =>
                  if nat_of_ascii d =? 58 then
                    scan_bind (scan_once f (skip_ws r2)) (fun v r3 =>
                      let acc' := pydict_set k v acc in
                      let r4 := skip_ws r3 in
                      match r4 with
                      | String e r5 =>
                          if nat_of_ascii e =? 125 then Scanned (VDict acc') r5
                          else if nat_of_ascii e =? 44 then object_members f (skip_ws r5) acc'
                          else ScanError "Expecting ',' delimiter" r4
                      | EmptyString => ScanError "Expecting ',' delimiter" r4
                      end)
                  else ScanError "Expecting ':' delimiter" r1
              | EmptyString => ScanError "Expecting ':' delimiter" r1
              end)
          else ScanError "Expecting property name enclosed in double quotes" s
      | EmptyString => ScanError "Expecting property name enclosed in double quotes" s
      end
  end

(** The elements of a list, from the first on. *)
with array_elements (fuel : nat) (s : string) (acc : list value) {struct fuel} : scan value :=
  match fuel with
  | O => OutOfFuel
  | S f =>
      scan_bind (scan_once f s) (fun v r =>
        let acc' := (acc ++ [v])%list in
        let r1 := skip_ws r in
        match r1 with
        | String e r2 =>
            if nat_of_ascii e =? 93 then Scanned (VList acc') r2
            else if nat_of_ascii e =? 44 then array_elements f (skip_ws r2) acc'
            else ScanError "Expecting ',' delimiter" r1
        | EmptyString => ScanError "Expecting ',' delimiter" r1
        end)
  end.

(** ** [json.loads] *)

(** Line and column of the end of [pre], counted from 1. *)
Fixpoint line_col_from (l c : nat) (pre : string) : nat * nat :=
  match pre with
  | EmptyString => (l, c)
  | String x pre' => if ascii_dec x nl_char then line_col_from (S l) 1 pre'
                     else line_col_from l (S c) pre'
  end.

Definition dec_of_nat (n : nat) : string := dec_of_N (N.of_nat n).

(** [JSONDecodeError(msg, doc, pos)], [pos] being where [at_] starts. *)
Definition decode_error (doc msg at_ : string) : exn :=
  let pos := String.length doc - String.length at_ in
  let '(l, c) := line_col_from 1 1 (substring 0 pos doc) in
  ValueError (msg +s+ ": line " +s+ dec_of_nat l +s+ " column " +s+ dec_of_nat c
              +s+ " (char " +s+ dec_of_nat pos +s+ ")").

(** The fuel of a call on [s]: enough by [scan_consumes]. *)
Definition loads_fuel (s : string) : nat := 2 * String.length s + 1.

Definition json_loads (s : string) : outcome value :=
  match scan_once (loads_fuel s) (skip_ws s) with
  | Scanned v r =>
      let r' := skip_ws r in
      match r' with
      | EmptyString => Ok v
      | String _ _ => Raise (decode_error s "Extra data" r')
      end
  | ScanError m at_ => Raise (decode_error s m at_)
  | Unsupported w => Raise (ExternalError ("json.loads: " +s+ w))
  | OutOfFuel => Raise (ExternalError "json.loads: out of fuel")
  end.

(** ** The values [json_dumps] prints and [json_loads] reads back *)

(** The texts that may follow a value inside [json_dumps]: the end, or a
    separator or closing bracket. *)
Definition after_value (r : string) : bool :=
  match r with
  | EmptyString => true
  | String c _ => let n := nat_of_ascii c in (n =? 44) || (n =? 93) || (n =? 125)
  end.

(** Keys of a dict, pairwise distinct. *)
Fixpoint keys_distinct (ks : list string) : bool :=
  match ks with
  | [] => true
  | k :: ks' => negb (existsb (String.eqb k) ks') && keys_distinct ks'
  end.

(** A value whose dicts, at every depth, have distinct keys: [json.loads]
    keeps one member per key, so only these values survive a round trip. *)
Fixpoint json_wf (v : value) : bool :=
  match v with
  | VList l => forallb json_wf l
  | VDict d => keys_distinct (map fst d) && forallb (fun kv => json_wf (snd kv)) d
  | _ => true
  end.

(** The fuel that reading a printed value needs. *)
Fixpoint vsize (v : value) : nat :=
  match v with
  | VList l => S (list_sum (map (fun x => S (vsize x)) l))
  | VDict d => S (list_sum (map (fun kv => S (vsize (snd kv))) d))
  | _ => 1
  end.

(** ** Every scan consumes its input *)

(** What a scan of [s] may answer once it has enough fuel: a result
    strictly shorter than [s], or an error. *)
Definition consumes {A} (s : string) (r : scan A) : Prop :=
  match r with
  | Scanned _ rest => String.length rest < String.length s
  | OutOfFuel => False
  | _ => True
  end.

(** ** Witnesses *)


Lemma skip_ws_length s : String.length (skip_ws s) <= String.length s.
Proof. induction s as [|c s IH]; simpl; [lia|]. destruct (is_ws c); simpl; lia. Qed.

Lemma consumes_cons_scan b c s r :
  consumes s r -> consumes (String b s) (cons_scan c r).
Proof. destruct r; simpl; lia || done. Qed.

Lemma consumes_weaken {A} s s' (r : scan A) :
  String.length s <= String.length s' -> consumes s r -> consumes s' r.
Proof. destruct r; simpl; lia || done. Qed.

Lemma scanstring_consumes s b : consumes s (scanstring b s).
Proof.
  induction s as [s IH] using (induction_ltof1 _ String.length); unfold ltof in IH.
  destruct s as [|c s']; [done|]. simpl.
  destruct (nat_of_ascii c =? 34); [simpl; lia|].
  destruct (nat_of_ascii c =? 92).
  - destruct s' as [|e s'']; [done|].
    destruct (nat_of_ascii e =? 117).
    + destruct s'' as [|h1 [|h2 [|h3 [|h4 [|x t]]]]]; try done.
      destruct (hex4_val h1 h2 h3 h4) as [n|]; [|done].
      destruct (n <? 256); [|done].
      apply consumes_cons_scan. eapply consumes_weaken, IH; simpl; lia.
    + destruct (simple_escape e); [|done].
      apply consumes_cons_scan. eapply consumes_weaken, IH; simpl; lia.
  - destruct (nat_of_ascii c <? 32); [done|].
    apply consumes_cons_scan, IH. simpl. lia.
Qed.

Lemma take_digits_length s :
  String.length (snd (take_digits s)) <= String.length s.
Proof.
  induction s as [|c s IH]; simpl; [lia|].
  destruct (is_digit c); [destruct (take_digits s); simpl in *; lia | simpl; lia].
Qed.

Lemma int_result_consumes neg ds r s :
  String.length r < String.length s -> consumes s (int_result neg ds r).
Proof. unfold int_result. by destruct (is_float_tail r). Qed.

Lemma match_number_consumes s : consumes s (match_number s).
Proof.
  unfold match_number.
  assert (Hs1 : String.length (snd (number_sign s)) <= String.length s).
  { unfold number_sign. destruct s as [|c r]; [done|].
    destruct (nat_of_ascii c =? 45); simpl; lia. }
  destruct (number_sign s) as [neg s1]. simpl in Hs1.
  destruct s1 as [|c r]; [done|].
  destruct (nat_of_ascii c =? 48); [apply int_result_consumes; simpl in *; lia|].
  destruct (is_digit c); [|done].
  pose proof (take_digits_length r) as Ht.
  destruct (take_digits r) as [ds r']. apply int_result_consumes. simpl in *. lia.
Qed.

Lemma strip_prefix_length p s r :
  strip_prefix p s = Some r -> String.length r + String.length p = String.length s.
Proof.
  revert s. induction p as [|a p IH]; intros s H.
  - injection H as <-. simpl. lia.
  - destruct s as [|b s]; simpl in H; [done|].
    destruct (ascii_dec a b); [|done]. apply IH in H. simpl. lia.
Qed.

Lemma consumes_scan_map {A B} (f : A -> B) s r : consumes s r -> consumes s (scan_map f r).
Proof. by destruct r. Qed.

Lemma consumes_bind {A B} t s (r : scan A) (k : A -> string -> scan B) :
  consumes t r -> String.length t <= String.length s ->
  (forall a rest, String.length rest < String.length t -> consumes s (k a rest)) ->
  consumes s (scan_bind r k).
Proof. destruct r; simpl; auto. Qed.

Lemma strip_prefix_consumes {A} p s r (a : A) :
  strip_prefix p s = Some r -> p <> EmptyString -> consumes s (Scanned a r).
Proof.
  intros H Hp. apply strip_prefix_length in H. simpl.
  destruct p; [done|]. simpl in H. lia.
Qed.

Ltac skip_ws_lengths :=
  repeat match goal with
  | _ : context [skip_ws ?x] |- _ =>
      lazymatch goal with
      | _ : String.length (skip_ws x) <= String.length x |- _ => fail
      | _ => pose proof (skip_ws_length x)
      end
  | |- context [skip_ws ?x] =>
      lazymatch goal with
      | _ : String.length (skip_ws x) <= String.length x |- _ => fail
      | _ => pose proof (skip_ws_length x)
      end
  end.

(** With fuel above twice the length of the text, the three scanners never
    run out of fuel, and a result leaves a strictly shorter text. *)
Lemma scan_consumes F :
  (forall s, 2 * String.length s < F -> consumes s (scan_once F s)) /\
  (forall s acc, 2 * String.length s < F -> consumes s (object_members F s acc)) /\
  (forall s acc, 2 * String.length s + 1 < F -> consumes s (array_elements F s acc)).
Proof.
  induction F as [|f [IHs [IHo IHa]]]; [repeat split; intros; lia|].
  split; [|split].
  - intros [|c s'] Hs; [done|]. cbn [scan_once].
    destruct (nat_of_ascii c =? 34).
    { apply consumes_scan_map. eapply consumes_weaken, scanstring_consumes. simpl. lia. }
    destruct (nat_of_ascii c =? 123).
    { pose proof (skip_ws_length s') as Hw. destruct (skip_ws s') as [|d r] eqn:E.
      - eapply consumes_weaken, IHo; simpl in *; lia.
      - destruct (nat_of_ascii d =? 125); [simpl in *; lia|].
        rewrite <- E. eapply consumes_weaken, IHo; rewrite ?E; simpl in *; lia. }
    destruct (nat_of_ascii c =? 91).
    { pose proof (skip_ws_length s') as Hw. destruct (skip_ws s') as [|d r] eqn:E.
      - eapply consumes_weaken, IHa; simpl in *; lia.
      - destruct (nat_of_ascii d =? 93); [simpl in *; lia|].
        rewrite <- E. eapply consumes_weaken, IHa; rewrite ?E; simpl in *; lia. }
    repeat (case_match; [first [by eapply strip_prefix_consumes | done]|]).
    apply match_number_consumes.
  - intros [|c s'] acc Hs; [done|]. cbn [object_members].
    destruct (nat_of_ascii c =? 34); [|done].
    eapply consumes_bind; [apply scanstring_consumes | simpl; lia |].
    intros k r Hr. cbv zeta. pose proof (skip_ws_length r).
    destruct (skip_ws r) as [|d r2] eqn:E1; [done|].
    destruct (nat_of_ascii d =? 58); [|done].
    eapply consumes_bind; [apply IHs | |]; skip_ws_lengths; simpl in *; [lia|lia|].
    intros v r3 Hr3. pose proof (skip_ws_length r3).
    destruct (skip_ws r3) as [|e r5] eqn:E2; [done|].
    destruct (nat_of_ascii e =? 125); [simpl in *; lia|].
    destruct (nat_of_ascii e =? 44); [|done].
    eapply consumes_weaken, IHo; skip_ws_lengths; simpl in *; lia.
  - intros s acc Hs. cbn [array_elements].
    eapply consumes_bind; [apply IHs; lia | lia |].
    intros v r Hr. cbv zeta. pose proof (skip_ws_length r).
    destruct (skip_ws r) as [|e r2] eqn:E1; [done|].
    destruct (nat_of_ascii e =? 93); [simpl in *; lia|].
    destruct (nat_of_ascii e =? 44); [|done].
    eapply consumes_weaken, IHa; skip_ws_lengths; simpl in *; lia.
Qed.

(** ** More fuel gives the same answer *)

Lemma scan_bind_mono {A B} (r r' : scan A) (k k' : A -> string -> scan B) :
  (r <> OutOfFuel -> r' = r) ->
  (forall a rest, k a rest <> OutOfFuel -> k' a rest = k a rest) ->
  scan_bind r k <> OutOfFuel -> scan_bind r' k' = scan_bind r k.
Proof. intros Hr Hk H. destruct r; simpl in *; rewrite Hr; simpl; auto; done. Qed.

Lemma scan_fuel_mono F :
  (forall s F', F <= F' -> scan_once F s <> OutOfFuel -> scan_once F' s = scan_once F s) /\
  (forall s acc F', F <= F' -> object_members F s acc <> OutOfFuel ->
     object_members F' s acc = object_members F s acc) /\
  (forall s acc F', F <= F' -> array_elements F s acc <> OutOfFuel ->
     array_elements F' s acc = array_elements F s acc).
Proof.
  induction F as [|f [IHs [IHo IHa]]]; [repeat split; intros; done|].
  split; [|split]; intros s; [|intros acc..]; intros [|f'] HF H; try lia;
    apply le_S_n in HF.
  - destruct s as [|c s']; [done|]. cbn [scan_once] in *.
    repeat (case_match; try done); first [by apply IHo | by apply IHa].
  - destruct s as [|c s']; [done|]. cbn [object_members] in *.
    case_match; [|done].
    apply scan_bind_mono; [done| |done]. intros k r Hk. cbv zeta in *.
    repeat (case_match; try done).
    apply scan_bind_mono; [by apply IHs| |done]. intros v r3 Hv.
    repeat (case_match; try done). by apply IHo.
  - cbn [array_elements] in *.
    apply scan_bind_mono; [by apply IHs| |done]. intros v r Hv. cbv zeta in *.
    repeat (case_match; try done). by apply IHa.
Qed.

(** ** Reading back what [json.dumps] prints *)

#[local] Arguments String.append : simpl nomatch.

Lemma after_value_cases r :
  after_value r = true ->
  r = EmptyString \/ exists c r', r = String c r' /\
    (nat_of_ascii c = 44 \/ nat_of_ascii c = 93 \/ nat_of_ascii c = 125).
Proof.
  destruct r as [|c r']; [by left|]. simpl. intros H. right. exists c, r'. split; [done|].
  apply orb_true_iff in H as [H|H]; [apply orb_true_iff in H as [H|H]|];
    apply Nat.eqb_eq in H; lia.
Qed.

Lemma after_value_not_digit r :
  after_value r = true -> match r with String c _ => is_digit c = false | _ => True end.
Proof.
  intros [->|(c & r' & -> & Hc)]%after_value_cases; [done|].
  unfold is_digit. destruct Hc as [H|[H|H]]; rewrite H; reflexivity.
Qed.

Lemma after_value_not_float r : after_value r = true -> is_float_tail r = false.
Proof.
  intros [->|(c & r' & -> & Hc)]%after_value_cases; [done|].
  unfold is_float_tail. by destruct Hc as [H|[H|H]]; rewrite H.
Qed.

(** [ascii_codes]: compute the codes of the character literals in the
    goal. *)
Ltac ascii_codes :=
  repeat match goal with
  | |- context [nat_of_ascii (Ascii ?b0 ?b1 ?b2 ?b3 ?b4 ?b5 ?b6 ?b7)] =>
      let c := constr:(Ascii b0 b1 b2 b3 b4 b5 b6 b7) in
      let v := eval vm_compute in (nat_of_ascii c) in
      change (nat_of_ascii c) with v
  end.

(** Decimal digits read back. *)
Lemma digits_Z_acc l acc :
  digits_Z (Z.pos acc) (NilEmpty.string_of_uint l) = Z.pos (Pos.of_uint_acc l acc).
Proof.
  revert acc. induction l; intros acc; simpl; try done; rewrite <- IHl; f_equal;
    ascii_codes; lia.
Qed.

Lemma digits_Z_uint d : digits_Z 0 (NilEmpty.string_of_uint d) = Z.of_N (Pos.of_uint d).
Proof.
  induction d; simpl; ascii_codes; try exact IHd; rewrite <- ?digits_Z_acc; reflexivity.
Qed.

Lemma dec_of_N_uint n : dec_of_N n = NilEmpty.string_of_uint (N.to_uint n).
Proof.
  unfold dec_of_N, NilZero.string_of_uint. destruct n as [|p]; [done|].
  pose proof (DecimalPos.Unsigned.to_uint_nonnil p). simpl. by destruct (Pos.to_uint p).
Qed.

Lemma digits_Z_dec_of_N n : digits_Z 0 (dec_of_N n) = Z.of_N n.
Proof.
  rewrite dec_of_N_uint, digits_Z_uint.
  change (Pos.of_uint (N.to_uint n)) with (N.of_uint (N.to_uint n)).
  by rewrite DecimalN.Unsigned.of_to.
Qed.

Lemma take_digits_uint d r :
  match r with String c _ => is_digit c = false | EmptyString => True end ->
  take_digits (NilEmpty.string_of_uint d +s+ r) = (NilEmpty.string_of_uint d, r).
Proof.
  intros Hr. induction d; simpl; try (rewrite IHd; reflexivity).
  destruct r as [|c r]; simpl; [done|]. by rewrite Hr.
Qed.

Lemma nzhead_head d : match Decimal.nzhead d with Decimal.D0 _ => False | _ => True end.
Proof. induction d; simpl; auto. Qed.

(** The decimal digits of a positive number start with a non-zero digit. *)
Lemma dec_of_pos_head p :
  exists c l, dec_of_N (Npos p) = String c (NilEmpty.string_of_uint l) /\
    is_digit c = true /\ nat_of_ascii c <> 48.
Proof.
  rewrite dec_of_N_uint. simpl.
  pose proof (DecimalPos.Unsigned.to_of (Pos.to_uint p)) as H.
  rewrite DecimalPos.Unsigned.of_to in H. simpl in H.
  pose proof (DecimalPos.Unsigned.to_uint_nonzero p) as Hz.
  remember (Pos.to_uint p) as d eqn:Ed. clear Ed.
  unfold Decimal.unorm in H. pose proof (nzhead_head d) as Hh.
  destruct (Decimal.nzhead d) eqn:E; rewrite H in *; try done;
    eexists _, _; (split; [reflexivity | done]).
Qed.

Lemma match_number_digits (neg : bool) c l r :
  is_digit c = true -> nat_of_ascii c <> 48 -> after_value r = true ->
  match_number ((if neg then "-" else EmptyString) +s+ String c (NilEmpty.string_of_uint l +s+ r)) =
    Scanned (VInt (if neg then (- digits_Z 0 (String c (NilEmpty.string_of_uint l)))%Z
                   else digits_Z 0 (String c (NilEmpty.string_of_uint l)))) r.
Proof.
  intros Hc H0 Hr. unfold match_number, number_sign.
  assert (Hm : (nat_of_ascii c =? 45) = false).
  { apply Nat.eqb_neq. unfold is_digit in Hc. apply andb_true_iff in Hc as [H1 H2].
    apply Nat.leb_le in H1. lia. }
  destruct neg; simpl; rewrite ?Hm; simpl;
    rewrite (proj2 (Nat.eqb_neq _ _) H0), Hc, take_digits_uint
      by apply (after_value_not_digit _ Hr);
    unfold int_result; by rewrite after_value_not_float.
Qed.

Lemma match_number_dec_of_Z z r :
  after_value r = true -> match_number (dec_of_Z z +s+ r) = Scanned (VInt z) r.
Proof.
  intros Hr. unfold dec_of_Z. destruct (Z.ltb_spec z 0).
  - destruct (Z.to_N (- z)) as [|p] eqn:E; [lia|].
    destruct (dec_of_pos_head p) as (c & l & Hd & Hc & H0). rewrite Hd, string_app_assoc, (string_app_cons c).
    rewrite (match_number_digits true) by done. rewrite <- Hd, digits_Z_dec_of_N, <- E.
    do 2 f_equal. lia.
  - destruct (Z.to_N z) as [|p] eqn:E.
    + assert (z = 0)%Z as -> by lia. unfold match_number. simpl.
      unfold int_result. by rewrite after_value_not_float.
    + destruct (dec_of_pos_head p) as (c & l & Hd & Hc & H0). rewrite Hd, (string_app_cons c).
      rewrite <- (string_app_nil_l (String c _)).
      rewrite (match_number_digits false) by done. rewrite <- Hd, digits_Z_dec_of_N, <- E.
      do 2 f_equal. lia.
Qed.

(** One escaped character is read back as itself: checked on the 256
    characters. *)
Lemma scanstring_escape_char b c x t :
  scanstring b (json_escape_char c +s+ String x t) = cons_scan c (scanstring b (String x t)).
Proof. destruct c as [[] [] [] [] [] [] [] []]; reflexivity. Qed.

Lemma string_app_nonempty a x t : exists y u, a +s+ String x t = String y u.
Proof. destruct a as [|y a]; [by exists x, t | by exists y, (a +s+ String x t)]. Qed.

Lemma scanstring_json_escape b s rest :
  scanstring b (json_escape s +s+ String dquote rest) = Scanned s rest.
Proof.
  induction s as [|c s IH]; [reflexivity|]. cbn [json_escape].
  rewrite string_app_assoc.
  destruct (string_app_nonempty (json_escape s) dquote rest) as (y & u & E).
  rewrite E, scanstring_escape_char, <- E, IH. reflexivity.
Qed.

Lemma json_string_app s rest :
  json_string s +s+ rest = String dquote (json_escape s +s+ String dquote rest).
Proof. unfold json_string. by rewrite string_app_cons, string_app_assoc. Qed.

Lemma strip_prefix_neq a p c s :
  nat_of_ascii a <> nat_of_ascii c -> strip_prefix (String a p) (String c s) = None.
Proof. intros H. simpl. destruct (ascii_dec a c) as [->|]; [done | reflexivity]. Qed.

Lemma is_digit_range c : is_digit c = true -> 48 <= nat_of_ascii c <= 57.
Proof. unfold is_digit. intros [H1 H2]%andb_true_iff. apply Nat.leb_le in H1, H2. lia. Qed.

Lemma strip_prefix_cons_eq a p s : strip_prefix (String a p) (String a s) = strip_prefix p s.
Proof. simpl. by destruct (ascii_dec a a). Qed.

(** A number is dispatched to [match_number]. *)
Lemma scan_once_digit f c s :
  is_digit c = true -> scan_once (S f) (String c s) = match_number (String c s).
Proof.
  intros Hc%is_digit_range. cbn [scan_once].
  rewrite (proj2 (Nat.eqb_neq _ 34)), (proj2 (Nat.eqb_neq _ 123)), (proj2 (Nat.eqb_neq _ 91))
    by lia.
  rewrite !strip_prefix_neq by (ascii_codes; lia). reflexivity.
Qed.

Lemma scan_once_minus f c s :
  is_digit c = true ->
  scan_once (S f) (String "-" (String c s)) = match_number (String "-" (String c s)).
Proof.
  intros Hc%is_digit_range. cbn [scan_once].
  rewrite (strip_prefix_cons_eq "-"), !strip_prefix_neq by (ascii_codes; lia). reflexivity.
Qed.

Lemma scan_once_int f z r :
  after_value r = true -> scan_once (S f) (dec_of_Z z +s+ r) = Scanned (VInt z) r.
Proof.
  intros Hr. rewrite <- (match_number_dec_of_Z z r Hr). unfold dec_of_Z.
  destruct (z <? 0)%Z.
  - destruct (Z.to_N (- z)) as [|p]; [reflexivity|].
    destruct (dec_of_pos_head p) as (c & l & Hd & Hc & _).
    rewrite Hd, string_app_assoc, !string_app_cons, string_app_nil_l.
    by apply scan_once_minus.
  - destruct (Z.to_N z) as [|p]; [reflexivity|].
    destruct (dec_of_pos_head p) as (c & l & Hd & Hc & _).
    rewrite Hd, string_app_cons. by apply scan_once_digit.
Qed.

(** The first character of a printed value opens it: not blank, and not
    a closing bracket. *)
Lemma dumps_head v r :
  exists c u, json_dumps v +s+ r = String c u /\
    is_ws c = false /\ nat_of_ascii c <> 93 /\ nat_of_ascii c <> 125.
Proof.
  destruct v as [| [] | z | s | l | d]; cbn [json_dumps];
    try (eexists _, _; split; [reflexivity | done]).
  unfold dec_of_Z. destruct (z <? 0)%Z.
  - eexists _, _. split; [by rewrite string_app_assoc | done].
  - destruct (Z.to_N z) as [|p]; [eexists _, _; split; [reflexivity | done]|].
    destruct (dec_of_pos_head p) as (c & l & Hd & Hc%is_digit_range & _).
    rewrite Hd, string_app_cons. eexists c, _. split; [reflexivity|].
    unfold is_ws. repeat split; [|lia..].
    repeat (apply orb_false_iff; split); apply Nat.eqb_neq; lia.
Qed.

Lemma skip_ws_dumps v r : skip_ws (json_dumps v +s+ r) = json_dumps v +s+ r.
Proof.
  destruct (dumps_head v r) as (c & u & E & Hc & _). rewrite E. simpl. by rewrite Hc.
Qed.

Lemma skip_ws_join_dumps x l r :
  skip_ws (py_join ", " (map json_dumps (x :: l)) +s+ r) =
    py_join ", " (map json_dumps (x :: l)) +s+ r.
Proof.
  destruct l as [|y l]; [apply skip_ws_dumps|].
  cbn [map]. rewrite py_join_cons_cons, string_app_assoc. apply skip_ws_dumps.
Qed.

Lemma pydict_set_fresh k v acc :
  existsb (String.eqb k) (map fst acc) = false -> pydict_set k v acc = (acc ++ [(k, v)])%list.
Proof.
  induction acc as [|[k' v'] acc IH]; [done|]. simpl.
  intros [Hk Hacc]%orb_false_iff. rewrite Hk. by rewrite IH.
Qed.

Lemma keys_distinct_app_fresh (acc : pydict) k v (d : pydict) :
  keys_distinct (map fst (acc ++ (k, v) :: d)) = true ->
  existsb (String.eqb k) (map fst acc) = false.
Proof.
  induction acc as [|[k' v'] acc IH]; [done|]. simpl.
  intros [Hn Hd]%andb_true_iff. apply orb_false_iff. split; [|by apply IH].
  apply negb_true_iff in Hn. rewrite map_app, existsb_app in Hn. simpl in Hn.
  apply orb_false_iff in Hn as [_ Hn]. apply orb_false_iff in Hn as [Hn _].
  by rewrite String.eqb_sym.
Qed.

(** One turn of the list and object loops after a successful scan. *)
Lemma array_elements_more f s acc v r :
  scan_once f s = Scanned v (", " +s+ r) ->
  array_elements (S f) s acc = array_elements f (skip_ws r) (acc ++ [v]).
Proof. intros H. cbn [array_elements]. by rewrite H. Qed.

Lemma array_elements_last f s acc v r :
  scan_once f s = Scanned v ("]" +s+ r) ->
  array_elements (S f) s acc = Scanned (VList (acc ++ [v])) r.
Proof. intros H. cbn [array_elements]. by rewrite H. Qed.

Lemma object_members_more f k s acc v r :
  scan_once f (skip_ws s) = Scanned v (", " +s+ r) ->
  object_members (S f) (json_string k +s+ ": " +s+ s) acc =
    object_members f (skip_ws r) (pydict_set k v acc).
Proof.
  intros H. rewrite json_string_app. cbn [object_members].
  rewrite scanstring_json_escape. cbn [scan_bind]. simpl. by rewrite H.
Qed.

Lemma object_members_last f k s acc v r :
  scan_once f (skip_ws s) = Scanned v ("}" +s+ r) ->
  object_members (S f) (json_string k +s+ ": " +s+ s) acc =
    Scanned (VDict (pydict_set k v acc)) r.
Proof.
  intros H. rewrite json_string_app. cbn [object_members].
  rewrite scanstring_json_escape. cbn [scan_bind]. simpl. by rewrite H.
Qed.

Abbreviation dict_members d :=
  (map (fun kv => json_string (fst kv) +s+ ": " +s+ json_dumps (snd kv)) d).

Lemma skip_ws_join_members kv d r :
  skip_ws (py_join ", " (dict_members (kv :: d)) +s+ r) = py_join ", " (dict_members (kv :: d)) +s+ r.
Proof.
  destruct d as [|kv' d]; cbn [map]; [|rewrite py_join_cons_cons];
    cbn [py_join]; rewrite !string_app_assoc, json_string_app; reflexivity.
Qed.

Lemma scan_once_open_list f X :
  skip_ws X = X -> match X with String c _ => nat_of_ascii c <> 93 | EmptyString => False end ->
  scan_once (S f) (String "[" X) = array_elements f X [].
Proof.
  intros Hs Hh. cbn [scan_once]. simpl. rewrite Hs.
  destruct X as [|c u]; [done|]. by rewrite (proj2 (Nat.eqb_neq _ _) Hh).
Qed.

Lemma scan_once_open_dict f X :
  skip_ws X = X -> match X with String c _ => nat_of_ascii c <> 125 | EmptyString => False end ->
  scan_once (S f) (String "{" X) = object_members f X [].
Proof.
  intros Hs Hh. cbn [scan_once]. simpl. rewrite Hs.
  destruct X as [|c u]; [done|]. by rewrite (proj2 (Nat.eqb_neq _ _) Hh).
Qed.

Lemma join_dumps_head x l t :
  exists c u, py_join ", " (map json_dumps (x :: l)) +s+ t = String c u /\ nat_of_ascii c <> 93.
Proof.
  destruct l as [|y l]; cbn [map]; [|rewrite py_join_cons_cons, string_app_assoc];
    cbn [py_join]; match goal with |- context [json_dumps x +s+ ?t'] =>
      destruct (dumps_head x t') as (c & u & E & _ & H & _) end; rewrite E; eauto.
Qed.

Lemma join_members_head kv d t :
  exists u, py_join ", " (dict_members (kv :: d)) +s+ t = String dquote u.
Proof.
  destruct d as [|kv' d]; cbn [map]; [|rewrite py_join_cons_cons];
    cbn [py_join]; rewrite !string_app_assoc, json_string_app; eauto.
Qed.

(** One level of reading back: what each scanner answers with fuel [S f]
    on printed text, given what the scanners answer with fuel [f]. *)
Section ReadBackStep.

Variable f : nat.

Hypothesis IHv : forall v r, vsize v <= f -> json_wf v = true -> after_value r = true ->
  scan_once f (json_dumps v +s+ r) = Scanned v r.

Hypothesis IHl : forall l acc r, l <> [] ->
  list_sum (map (fun x => S (vsize x)) l) <= f -> forallb json_wf l = true ->
  after_value r = true ->
  array_elements f (py_join ", " (map json_dumps l) +s+ "]" +s+ r) acc =
    Scanned (VList (acc ++ l)) r.

Hypothesis IHd : forall (d acc : pydict) r, d <> [] ->
  list_sum (map (fun kv => S (vsize (snd kv))) d) <= f ->
  forallb (fun kv => json_wf (snd kv)) d = true ->
  keys_distinct (map fst (acc ++ d)) = true -> after_value r = true ->
  object_members f (py_join ", " (dict_members d) +s+ "}" +s+ r) acc =
    Scanned (VDict (acc ++ d)) r.

Lemma array_elements_step l acc r : l <> [] ->
  list_sum (map (fun x => S (vsize x)) l) <= S f -> forallb json_wf l = true ->
  after_value r = true ->
  array_elements (S f) (py_join ", " (map json_dumps l) +s+ "]" +s+ r) acc =
    Scanned (VList (acc ++ l)) r.
Proof.
  intros Hne Hs Hwf Hr. destruct l as [|x l']; [done|].
  simpl in Hs, Hwf. apply andb_true_iff in Hwf as [Hx Hl'].
  destruct l' as [|y l''].
  - cbn [map py_join]. by erewrite array_elements_last by (apply IHv; done || lia).
  - cbn [map]. rewrite py_join_cons_cons, !string_app_assoc.
    erewrite array_elements_more by (apply IHv; done || lia).
    change (json_dumps y :: map json_dumps l'') with (map json_dumps (y :: l'')).
    rewrite skip_ws_join_dumps, IHl by (done || lia). by rewrite <- app_assoc.
Qed.

Lemma object_members_step (d acc : pydict) r : d <> [] ->
  list_sum (map (fun kv => S (vsize (snd kv))) d) <= S f ->
  forallb (fun kv => json_wf (snd kv)) d = true ->
  keys_distinct (map fst (acc ++ d)) = true -> after_value r = true ->
  object_members (S f) (py_join ", " (dict_members d) +s+ "}" +s+ r) acc =
    Scanned (VDict (acc ++ d)) r.
Proof.
  intros Hne Hs Hwf Hk Hr. destruct d as [|[k v] d']; [done|].
  simpl in Hs, Hwf. apply andb_true_iff in Hwf as [Hv Hd'].
  pose proof (keys_distinct_app_fresh _ _ _ _ Hk) as Hfresh.
  destruct d' as [|kv' d''].
  - cbn [map py_join]. rewrite !string_app_assoc.
    erewrite object_members_last; [by rewrite pydict_set_fresh|].
    rewrite skip_ws_dumps. apply IHv; done || lia.
  - cbn [map]. rewrite py_join_cons_cons, !string_app_assoc.
    erewrite object_members_more; [|rewrite skip_ws_dumps; apply IHv; cbn [fst snd]; done || lia].
    rewrite pydict_set_fresh by done.
    change (_ :: map _ d'') with (dict_members (kv' :: d'')).
    rewrite skip_ws_join_members, IHd; [by rewrite <- app_assoc | done | lia | done | |done].
    by rewrite <- app_assoc.
Qed.

Lemma scan_once_step v r : vsize v <= S f -> json_wf v = true -> after_value r = true ->
  scan_once (S f) (json_dumps v +s+ r) = Scanned v r.
Proof.
  intros Hs Hwf Hr. destruct v as [| [] | z | s | [|x l] | [|[k w] d]]; try reflexivity.
  - by apply scan_once_int.
  - cbn [json_dumps]. rewrite json_string_app. cbn [scan_once]. simpl.
    by rewrite scanstring_json_escape.
  - cbn [json_dumps]. rewrite !string_app_assoc, string_app_cons, string_app_nil_l.
    rewrite scan_once_open_list;
      [rewrite IHl; [done|done|simpl in *; lia|done|done] | apply skip_ws_join_dumps |].
    destruct (join_dumps_head x l ("]" +s+ r)) as (c & u & -> & H). exact H.
  - cbn [json_dumps]. rewrite !string_app_assoc, string_app_cons, string_app_nil_l.
    simpl in Hwf. apply andb_true_iff in Hwf as [Hk Hd].
    rewrite scan_once_open_dict; [rewrite IHd; [done|done|simpl in *; lia|done|done|done] |
      apply skip_ws_join_members |].
    destruct (join_members_head (k, w) d ("}" +s+ r)) as (u & ->). done.
Qed.

End ReadBackStep.

Lemma vsize_pos v : 1 <= vsize v.
Proof. destruct v; simpl; lia. Qed.

Lemma scan_dumps F :
  (forall v r, vsize v <= F -> json_wf v = true -> after_value r = true ->
     scan_once F (json_dumps v +s+ r) = Scanned v r) /\
  (forall l acc r, l <> [] -> list_sum (map (fun x => S (vsize x)) l) <= F ->
     forallb json_wf l = true -> after_value r = true ->
     array_elements F (py_join ", " (map json_dumps l) +s+ "]" +s+ r) acc =
       Scanned (VList (acc ++ l)) r) /\
  (forall (d acc : pydict) r, d <> [] ->
     list_sum (map (fun kv => S (vsize (snd kv))) d) <= F ->
     forallb (fun kv => json_wf (snd kv)) d = true ->
     keys_distinct (map fst (acc ++ d)) = true -> after_value r = true ->
     object_members F (py_join ", " (dict_members d) +s+ "}" +s+ r) acc =
       Scanned (VDict (acc ++ d)) r).
Proof.
  induction F as [|f [IHv [IHl IHd]]].
  - split; [|split].
    + intros v r Hs. pose proof (vsize_pos v). lia.
    + intros [|x l] acc r Hne Hs; [done|simpl in Hs; lia].
    + intros [|kv d] acc r Hne Hs; [done|simpl in Hs; lia].
  - split; [|split]; intros.
    + by apply scan_once_step.
    + by apply array_elements_step.
    + by apply object_members_step.
Qed.

Lemma consumes_not_out_of_fuel {A} s (r : scan A) : consumes s r -> r <> OutOfFuel.
Proof. by destruct r. Qed.

(** Above the bound of [scan_consumes], the answer does not depend on the
    fuel. *)
Lemma scan_once_fuel_irrelevant F F' s :
  scan_once F s <> OutOfFuel -> 2 * String.length s < F' -> scan_once F' s = scan_once F s.
Proof.
  intros H HF'.
  rewrite <- (proj1 (scan_fuel_mono F') s (Nat.max F F')); [|lia|].
  - apply (proj1 (scan_fuel_mono F)); [lia | done].
  - apply (consumes_not_out_of_fuel s), (proj1 (scan_consumes F')), HF'.
Qed.

(** [json.loads] reads back what [json.dumps] prints. *)
Lemma loads_dumps v : json_wf v = true -> json_loads (json_dumps v) = Ok v.
Proof.
  intros Hwf. unfold json_loads.
  rewrite <- (string_app_nil_r (json_dumps v)), skip_ws_dumps.
  pose proof (proj1 (scan_dumps (vsize v)) v EmptyString (le_n _) Hwf eq_refl) as H.
  rewrite (scan_once_fuel_irrelevant (vsize v)); [by rewrite H | by rewrite H |].
  unfold loads_fuel. lia.
Qed.
