(* ===== verification/Base64.v ===== *)
(** * Base64: the codec of the audio and image frames

    The outbound pump sends audio as [base64.b64encode(data).decode("ascii")]
    and the inbound pump decodes client audio and images with
    [base64.b64decode(data)].  Bytes are [list byte]; a 6-bit group is an
    [N] below 64.

    - [b64encode]: RFC 4648 section 4 with the standard alphabet and [=]
      padding, three bytes to four characters, as CPython's [b2a_base64]
      produces it.
    - [b64decode]: [base64.b64decode] with [validate=False]: a [str]
      argument must be ASCII ([ValueError] otherwise), [None] or another
      type is a [TypeError], and the characters go through CPython's
      [a2b_base64] in non-strict mode, a four-state machine ([quad_pos]) that
      skips characters outside the alphabet, stops at a complete padding
      sequence, and fails on a dangling character or missing padding.

    The round trip [b64decode (b64encode bs) = Ok bs] is proved here. *)

From S2P Require Import Prelude PyStr PyValue.
From Stdlib Require Import Strings.Byte NArith.

Open Scope sc_scope.

(** ** The alphabet *)

Definition b64_char (i : N) : ascii :=
  if (i <? 26)%N then ascii_of_N (65 + i)
  else if (i <? 52)%N then ascii_of_N (97 + (i - 26))
  else if (i <? 62)%N then ascii_of_N (48 + (i - 52))
  else if (i =? 62)%N then "+"%char
  else "/"%char.

(** [table_a2b_base64]: the 6-bit value of an alphabet character. *)
Definition b64_index (c : ascii) : option N :=
  let n := N_of_ascii c in
  if ((65 <=? n) && (n <=? 90))%N then Some (n - 65)%N
  else if ((97 <=? n) && (n <=? 122))%N then Some (n - 71)%N
  else if ((48 <=? n) && (n <=? 57))%N then Some (n + 4)%N
  else if (n =? 43)%N then Some 62%N
  else if (n =? 47)%N then Some 63%N
  else None.

Definition pad_char : ascii := "="%char.

(** ** Encoding

    Three bytes [A B C] are four 6-bit groups: the top six bits of [A]; the
    low two bits of [A] then the top four of [B]; the low four bits of [B]
    then the top two of [C]; the low six bits of [C]. *)

Definition sextet0 (A : N) : N := (A / 4)%N.
Definition sextet1 (A B : N) : N := (A mod 4 * 16 + B / 16)%N.
Definition sextet2 (B C : N) : N := (B mod 16 * 4 + C / 64)%N.
Definition sextet3 (C : N) : N := (C mod 64)%N.

Fixpoint b64encode (bs : list byte) : string :=
  match bs with
  | a :: b :: c :: rest =>
      let A := Byte.to_N a in let B := Byte.to_N b in let C := Byte.to_N c in
      String (b64_char (sextet0 A)) (String (b64_char (sextet1 A B))
        (String (b64_char (sextet2 B C)) (String (b64_char (sextet3 C)) (b64encode rest))))
  | [a; b] =>
      let A := Byte.to_N a in let B := Byte.to_N b in
      String (b64_char (sextet0 A)) (String (b64_char (sextet1 A B))
        (String (b64_char (sextet2 B 0)) (String pad_char EmptyString)))
  | [a] =>
      let A := Byte.to_N a in
      String (b64_char (sextet0 A)) (String (b64_char (sextet1 A 0))
        (String pad_char (String pad_char EmptyString)))
  | [] => EmptyString
  end.

(** ** Decoding: CPython's [a2b_base64], non-strict *)

Definition byte_of (n : N) : byte :=
  match Byte.of_N n with Some b => b | None => x00 end.

(** The loop over the characters, from the machine state: [quad_pos], the
    pending bits [leftchar], the count of [=] seen in a padding run, and the
    bytes written so far (newest first). *)
Fixpoint a2b_loop (s : string) (quad_pos : nat) (leftchar : N) (pads : nat)
    (acc : list byte) : outcome (list byte) :=
  match s with
  | EmptyString =>
      match quad_pos with
      | 0 => Ok (rev acc)
      | 1 => Raise (BinasciiError
               ("Invalid base64-encoded string: number of data characters ("
                +s+ dec_of_N (N.of_nat (List.length acc / 3 * 4 + 1))
                +s+ ") cannot be 1 more than a multiple of 4"))
      | _ => Raise (BinasciiError "Incorrect padding")
      end
  | String c s' =>
      if ascii_dec c pad_char then
        if 2 <=? quad_pos then
          if 4 <=? quad_pos + S pads then Ok (rev acc)
          else a2b_loop s' quad_pos leftchar (S pads) acc
        else a2b_loop s' quad_pos leftchar pads acc
      else
        match b64_index c with
        | None => a2b_loop s' quad_pos leftchar pads acc
        | Some v =>
            match quad_pos with
            | 0 => a2b_loop s' 1 v 0 acc
            | 1 => a2b_loop s' 2 (N.land v 15)%N 0
                     (byte_of (N.lor (N.shiftl leftchar 2) (N.shiftr v 4)) :: acc)
            | 2 => a2b_loop s' 3 (N.land v 3)%N 0
                     (byte_of (N.lor (N.shiftl leftchar 4) (N.shiftr v 2)) :: acc)
            | _ => a2b_loop s' 0 0%N 0
                     (byte_of (N.lor (N.shiftl leftchar 6) v) :: acc)
            end
        end
  end.

Definition a2b_base64 (s : string) : outcome (list byte) := a2b_loop s 0 0%N 0 [].

Fixpoint is_ascii_str (s : string) : bool :=
  match s with
  | EmptyString => true
  | String c s' => (N_of_ascii c <? 128)%N && is_ascii_str s'
  end.

(** [base64.b64decode(data)] on the value the JSON message carried. *)
Definition b64decode (data : value) : outcome (list byte) :=
  match data with
  | VStr s =>
      if is_ascii_str s then a2b_base64 s
      else Raise (ValueError "string argument should contain only ASCII characters")
  | VNone => Raise (TypeError "argument should be a bytes-like object or ASCII string, not 'NoneType'")
  | VBool _ => Raise (TypeError "argument should be a bytes-like object or ASCII string, not 'bool'")
  | VInt _ => Raise (TypeError "argument should be a bytes-like object or ASCII string, not 'int'")
  | VList _ => Raise (TypeError "argument should be a bytes-like object or ASCII string, not 'list'")
  | VDict _ => Raise (TypeError "argument should be a bytes-like object or ASCII string, not 'dict'")
  end.

(** ** The round trip *)

(** Every 6-bit value is the index of its alphabet character, which is an
    ASCII character other than [=]: checked on the 64 values. *)
Definition alphabet_ok (n : nat) : bool :=
  let i := N.of_nat n in
  match b64_index (b64_char i) with
  | Some j => (j =? i)%N && (N_of_ascii (b64_char i) <? 128)%N &&
              negb (Ascii.eqb (b64_char i) pad_char)
  | None => false
  end.

(** The byte-level facts the decoder relies on, checked on every pair of
    bytes: a table of 65536 cases turned into a lemma. *)
Definition bytes_N : list N := map N.of_nat (seq 0 256).

(** Decoding the first two groups gives back the first byte and leaves the
    top four bits of the second. *)
Definition first_pair_ok (A B : N) : bool :=
  (sextet0 A <? 64)%N && (sextet1 A B <? 64)%N &&
  (N.lor (N.shiftl (sextet0 A) 2) (N.shiftr (sextet1 A B) 4) =? A)%N &&
  (N.land (sextet1 A B) 15 =? B / 16)%N.

(** Decoding the third group gives back the low four bits of the second
    byte and leaves the top two of the third. *)
Definition second_pair_ok (B C : N) : bool :=
  (sextet2 B C <? 64)%N &&
  (N.shiftr (sextet2 B C) 2 =? B mod 16)%N &&
  (N.land (sextet2 B C) 3 =? C / 64)%N &&
  (N.lor (N.shiftl (B / 16) 4) (B mod 16) =? B)%N &&
  (sextet3 C <? 64)%N &&
  (N.lor (N.shiftl (C / 64) 6) (sextet3 C) =? C)%N.

Lemma alphabet_ok_all : forallb alphabet_ok (seq 0 64) = true.
Proof. vm_compute. reflexivity. Qed.

Lemma seq_member_N (i : N) (k : nat) : (i < N.of_nat k)%N -> In (N.to_nat i) (seq 0 k).
Proof. intros H. apply in_seq. lia. Qed.

Lemma alphabet_ok_spec i :
  (i < 64)%N ->
  b64_index (b64_char i) = Some i /\ (N_of_ascii (b64_char i) <? 128)%N = true /\
  b64_char i <> pad_char.
Proof.
  intros Hi. pose proof (proj1 (forallb_forall _ _) alphabet_ok_all (N.to_nat i)
                           (seq_member_N i 64 Hi)) as H.
  unfold alphabet_ok in H. rewrite N2Nat.id in H.
  destruct (b64_index (b64_char i)) as [j|]; [|done].
  apply andb_true_iff in H as [H H3]. apply andb_true_iff in H as [H1 H2].
  apply N.eqb_eq in H1. subst j. repeat split; [done|].
  intros E. rewrite E in H3. done.
Qed.

Lemma byte_in_bytes_N (a : byte) : In (Byte.to_N a) bytes_N.
Proof.
  pose proof (Byte.to_N_bounded a). unfold bytes_N.
  rewrite <- (N2Nat.id (Byte.to_N a)). apply in_map, in_seq. lia.
Qed.

Lemma byte_table2 (f : N -> N -> bool) :
  forallb (fun x => forallb (f x) bytes_N) bytes_N = true ->
  forall a b : byte, f (Byte.to_N a) (Byte.to_N b) = true.
Proof.
  intros H a b.
  pose proof (proj1 (forallb_forall _ _) H _ (byte_in_bytes_N a)) as Ha.
  exact (proj1 (forallb_forall _ _) Ha _ (byte_in_bytes_N b)).
Qed.

Lemma first_pair_all : forall a b, first_pair_ok (Byte.to_N a) (Byte.to_N b) = true.
Proof. apply byte_table2. by vm_compute. Qed.

Lemma second_pair_all : forall b c, second_pair_ok (Byte.to_N b) (Byte.to_N c) = true.
Proof. apply byte_table2. by vm_compute. Qed.

Lemma first_pair_facts a b :
  let A := Byte.to_N a in let B := Byte.to_N b in
  (sextet0 A < 64)%N /\ (sextet1 A B < 64)%N /\
  N.lor (N.shiftl (sextet0 A) 2) (N.shiftr (sextet1 A B) 4) = A /\
  N.land (sextet1 A B) 15 = (B / 16)%N.
Proof.
  cbv zeta. pose proof (first_pair_all a b) as H. unfold first_pair_ok in H.
  repeat rewrite andb_true_iff in H. rewrite !N.ltb_lt, !N.eqb_eq in H. tauto.
Qed.

Lemma second_pair_facts b c :
  let B := Byte.to_N b in let C := Byte.to_N c in
  (sextet2 B C < 64)%N /\ N.shiftr (sextet2 B C) 2 = (B mod 16)%N /\
  N.land (sextet2 B C) 3 = (C / 64)%N /\ N.lor (N.shiftl (B / 16) 4) (B mod 16) = B /\
  (sextet3 C < 64)%N /\ N.lor (N.shiftl (C / 64) 6) (sextet3 C) = C.
Proof.
  cbv zeta. pose proof (second_pair_all b c) as H. unfold second_pair_ok in H.
  repeat rewrite andb_true_iff in H. rewrite !N.ltb_lt, !N.eqb_eq in H. tauto.
Qed.

Lemma byte_of_to_N a : byte_of (Byte.to_N a) = a.
Proof. unfold byte_of. by rewrite Byte.of_to_N. Qed.

(** One alphabet character moves the machine one step. *)
Lemma a2b_loop_char i s q l p acc :
  (i < 64)%N ->
  a2b_loop (String (b64_char i) s) q l p acc =
    match q with
    | 0 => a2b_loop s 1 i 0 acc
    | 1 => a2b_loop s 2 (N.land i 15) 0 (byte_of (N.lor (N.shiftl l 2) (N.shiftr i 4)) :: acc)
    | 2 => a2b_loop s 3 (N.land i 3) 0 (byte_of (N.lor (N.shiftl l 4) (N.shiftr i 2)) :: acc)
    | _ => a2b_loop s 0 0 0 (byte_of (N.lor (N.shiftl l 6) i) :: acc)
    end.
Proof.
  intros Hi. destruct (alphabet_ok_spec i Hi) as (H1 & _ & H3). simpl.
  destruct (ascii_dec (b64_char i) pad_char); [contradiction|]. by rewrite H1.
Qed.

Lemma a2b_loop_pad s q l p acc :
  a2b_loop (String pad_char s) q l p acc =
    if 2 <=? q then (if 4 <=? q + S p then Ok (rev acc) else a2b_loop s q l (S p) acc)
    else a2b_loop s q l p acc.
Proof. reflexivity. Qed.

(** Decoding the encoding of [bs] appends [bs] to what was decoded. *)
Lemma a2b_loop_encode :
  forall bs l acc, a2b_loop (b64encode bs) 0 l 0 acc = Ok (rev acc ++ bs).
Proof.
  fix IH 1. intros bs l acc. destruct bs as [|a [|b [|c rest]]].
  - by rewrite app_nil_r.
  - destruct (first_pair_facts a x00) as (H0 & H1 & Ha & _). cbn [b64encode].
    change (Byte.to_N x00) with 0%N in *.
    rewrite a2b_loop_char, a2b_loop_char by done. cbn -[N.lor N.shiftl N.shiftr].
    rewrite Ha, byte_of_to_N. simpl. by rewrite <- ?app_assoc.
  - destruct (first_pair_facts a b) as (H0 & H1 & Ha & Hb1).
    destruct (second_pair_facts b x00) as (H2 & Hb2 & _ & Hb & _).
    change (Byte.to_N x00) with 0%N in *. cbn [b64encode]. rewrite !a2b_loop_char by done. cbn -[N.lor N.shiftl N.shiftr N.land].
    rewrite Ha, Hb1, Hb2, Hb, !byte_of_to_N. simpl. by rewrite <- ?app_assoc.
  - destruct (first_pair_facts a b) as (H0 & H1 & Ha & Hb1).
    destruct (second_pair_facts b c) as (H2 & Hb2 & Hc1 & Hb & H3 & Hc).
    cbn [b64encode]. rewrite !a2b_loop_char by done. cbn -[N.lor N.shiftl N.shiftr N.land].
    rewrite Ha, Hb1, Hb2, Hb, Hc1, Hc, !byte_of_to_N, (IH rest).
    simpl. by rewrite <- ?app_assoc.
Qed.

Lemma b64_char_ascii i : (i < 64)%N -> (N_of_ascii (b64_char i) <? 128)%N = true.
Proof. intros Hi. apply (alphabet_ok_spec i Hi). Qed.

Lemma is_ascii_b64encode : forall bs, is_ascii_str (b64encode bs) = true.
Proof.
  fix IH 1. intros [|a [|b [|c rest]]]; [done| | |].
  - destruct (first_pair_facts a x00) as (H0 & H1 & _). change (Byte.to_N x00) with 0%N in *.
    simpl. by rewrite !b64_char_ascii.
  - destruct (first_pair_facts a b) as (H0 & H1 & _).
    destruct (second_pair_facts b x00) as (H2 & _). change (Byte.to_N x00) with 0%N in *.
    simpl. by rewrite !b64_char_ascii.
  - destruct (first_pair_facts a b) as (H0 & H1 & _).
    destruct (second_pair_facts b c) as (H2 & _ & _ & _ & H3 & _).
    simpl. rewrite !b64_char_ascii by done. exact (IH rest).
Qed.

(** Decoding what the encoder produced gives the bytes back. *)
Lemma b64decode_b64encode bs : b64decode (VStr (b64encode bs)) = Ok bs.
Proof.
  unfold b64decode. rewrite is_ascii_b64encode. unfold a2b_base64.
  by rewrite a2b_loop_encode.
Qed.
