(* ===== verification/Relay.v ===== *)
(** * Relay: the two message pumps of main.py

    [agent_to_client_messaging] (lines 95-153) iterates the engine's events
    and sends JSON text frames; [client_to_agent_messaging] (lines 155-169)
    receives text frames, parses them and forwards them to the engine's
    [LiveRequestQueue].

    The engine's events are the [google.genai] / ADK records with the
    fields the pump reads ([Event], [Content], [Part], [Blob],
    [FunctionCall], [FunctionResponse]); every field is optional, as in the
    library, and the pump's truthiness tests are modelled on the options.

    A run of the outbound pump is a [Sends]: the messages sent, in order
    (the objects given to [json.dumps]; the text on the wire is their
    [json_dumps]), and how the run ended.  An exception stops the run after
    the messages already sent, as [await websocket.send_text] has already
    delivered them.  The engine's stream is a finite prefix [list Event];
    [Server] runs the pump one send at a time.

    The inbound pump parses each frame with [JsonDecode.json_loads]; its
    body ([route_message]) maps one parsed message to the request it
    queues, if any; the pump applies it to every frame until
    [receive_text] raises [WebSocketDisconnect].

    Theorems: the exact frames of a text stream (C13), no tool notices
    without [dev_mode] (C14), the audio round trip through base64 (C15),
    turn signals (C16), the end of the pump on inline data without a mime
    type (C17), typed text reaching the engine through [json.loads] (C18),
    a non-object frame ending the inbound pump (C19), and the routing of
    text, realtime and unknown frames (C20-C22). *)

From S2P Require Import Prelude PyStr PyValue Json JsonDecode Base64.
From Stdlib Require Import Strings.Byte.

Open Scope sc_scope.

(** ** The engine's data *)

Record Blob := mkBlob {
  blob_data : option (list byte);
  blob_mime_type : option string
}.

Record FunctionCall := mkFunctionCall {
  fc_name : option string;
  fc_args : option pydict
}.

Record FunctionResponse := mkFunctionResponse {
  fr_name : option string;
  fr_response : option pydict
}.

Record Part := mkPart {
  part_text : option string;
  part_inline_data : option Blob;
  part_function_call : option FunctionCall;
  part_function_response : option FunctionResponse
}.

Record Content := mkContent {
  content_role : option string;
  content_parts : option (list Part)
}.

Record Event := mkEvent {
  ev_content : option Content;
  ev_partial : option bool;
  ev_turn_complete : option bool;
  ev_interrupted : option bool
}.

(** Truthiness of the optional fields, and their JSON values. *)
Definition truthy_bool (o : option bool) : bool :=
  match o with Some b => b | None => false end.
Definition truthy_str (o : option string) : bool :=
  match o with Some s => negb (String.eqb s EmptyString) | None => false end.
Definition bool_value (o : option bool) : value :=
  match o with Some b => VBool b | None => VNone end.
Definition str_value (o : option string) : value :=
  match o with Some s => VStr s | None => VNone end.

(** ** Sends: messages sent, then the end of the run *)

Definition Sends (A : Type) : Type := list value * outcome A.

Definition s_ret {A} (a : A) : Sends A := ([], Ok a).
Definition s_raise {A} (e : exn) : Sends A := ([], Raise e).

Definition s_bind {A B} (c : Sends A) (k : A -> Sends B) : Sends B :=
  match c with
  | (ms, Ok a) => let '(ms', o) := k a in ((ms ++ ms')%list, o)
  | (ms, Raise e) => (ms, Raise e)
  end.

Notation "c1 >>> c2" := (s_bind c1 (fun _ => c2))
  (at level 100, right associativity) : sc_scope.

(** [await websocket.send_text(json.dumps(m))] *)
Definition send_text (m : value) : Sends unit := ([m], Ok tt).

(** [for x in xs: f(x)] *)
Fixpoint s_iter {A} (f : A -> Sends unit) (xs : list A) : Sends unit :=
  match xs with
  | [] => s_ret tt
  | x :: xs' => f x >>> s_iter f xs'
  end.

(** The frames on the wire. *)
Definition wire (ms : list value) : list string := map json_dumps ms.

(** ** The outbound pump *)

Section Outbound.

Variable dev_mode : bool.

Definition text_mime_type (author : option string) (partial : option bool) : string :=
  if decide (author = Some "user") then "text/input_transcription"
  else if truthy_bool partial then "text/transcription"
  else "text/plain".

(** The text or audio of a part (lines 108-124). *)
Definition part_content_message (author : option string) (partial : option bool)
    (part : Part) : Sends unit :=
  if truthy_str (part_text part) then
    send_text (VDict [("mime_type", VStr (text_mime_type author partial));
                      ("data", str_value (part_text part))])
  else
    match part_inline_data part with
    | None => s_ret tt
    | Some blob =>
        match blob_mime_type blob with
        | None => s_raise (AttributeError "'NoneType' object has no attribute 'startswith'")
        | Some m =>
            if py_startswith m "audio/" then
              match blob_data blob with
              | Some bs => send_text (VDict [("mime_type", VStr "audio/pcm");
                                             ("data", VStr (b64encode bs))])
              | None => s_raise (TypeError "a bytes-like object is required, not 'NoneType'")
              end
            else s_ret tt
        end
    end.

(** [response_dict] (lines 141-144): a copy of the response, if any. *)
Definition response_dict_of (fr : FunctionResponse) : pydict :=
  match fr_response fr with
  | Some r => if negb (Nat.eqb (List.length r) 0) then dict_of_items r else []
  | None => []
  end.

(** The dev-mode notices of a part (lines 129-153). *)
Definition part_dev_message (part : Part) : Sends unit :=
  if dev_mode then
    match part_function_call part with
    | Some fc =>
        match fc_args fc with
        | Some args =>
            send_text (VDict [("mime_type", VStr "tool_call");
                              ("data", VDict [("name", str_value (fc_name fc));
                                              ("args", VDict (dict_of_items args))])])
        | None => s_raise (AttributeError "'NoneType' object has no attribute 'items'")
        end
    | None =>
        match part_function_response part with
        | Some fr =>
            let response_dict := response_dict_of fr in
            send_text (VDict [("mime_type", VStr "tool_result");
                              ("data", VDict [("name", str_value (fr_name fr));
                                              ("response", VDict response_dict)])])
        | None => s_ret tt
        end
    end
  else s_ret tt.

Definition part_messages (author : option string) (partial : option bool) (part : Part)
  : Sends unit :=
  part_content_message author partial part >>> part_dev_message part.

(** The loop body for one event (lines 98-153). *)
Definition event_messages (ev : Event) : Sends unit :=
  if truthy_bool (ev_turn_complete ev) || truthy_bool (ev_interrupted ev) then
    send_text (VDict [("turn_complete", bool_value (ev_turn_complete ev));
                      ("interrupted", bool_value (ev_interrupted ev))])
  else
    match ev_content ev with
    | Some c =>
        match content_parts c with
        | Some parts =>
            if negb (Nat.eqb (List.length parts) 0) then
              s_iter (part_messages (content_role c) (ev_partial ev)) parts
            else s_ret tt
        | None => s_ret tt
        end
    | None => s_ret tt
    end.

Definition agent_to_client_messaging (events : list Event) : Sends unit :=
  s_iter event_messages events.

End Outbound.

(** ** The inbound pump *)

(** What [client_to_agent_messaging] puts on the [LiveRequestQueue]. *)
Inductive LiveRequest :=
| SendContent (c : Content)     (** [live_request_queue.send_content] *)
| SendRealtime (b : Blob).      (** [live_request_queue.send_realtime] *)

Definition type_name (v : value) : string :=
  match v with
  | VNone => "NoneType" | VBool _ => "bool" | VInt _ => "int" | VStr _ => "str"
  | VList _ => "list" | VDict _ => "dict"
  end.

(** [message.get(k)] on a parsed JSON object; any other value has no
    [get] method. *)
Definition message_get (message : value) (k : string) : outcome value :=
  match message with
  | VDict d => Ok (match pydict_lookup k d with Some v => v | None => VNone end)
  | _ => Raise (AttributeError ("'" +s+ type_name message +s+ "' object has no attribute 'get'"))
  end.

Definition is_str_eq (v : value) (s : string) : bool :=
  match v with VStr s' => String.eqb s' s | _ => false end.

(** [Part.from_text(text=data)]: pydantic accepts a string or [None]. *)
Definition part_from_text (data : value) : outcome Part :=
  match data with
  | VStr s => Ok (mkPart (Some s) None None None)
  | VNone => Ok (mkPart None None None None)
  | _ => Raise (ValueError "1 validation error for Part text: Input should be a valid string")
  end.

(** The body of the loop once the frame is parsed (lines 160-169). *)
Definition route_message (message : value) : outcome (option LiveRequest) :=
  match message_get message "mime_type", message_get message "data" with
  | Raise e, _ | _, Raise e => Raise e
  | Ok mime_type, Ok data =>
      if is_str_eq mime_type "text/plain" then
        match part_from_text data with
        | Ok p => Ok (Some (SendContent (mkContent (Some "user") (Some [p]))))
        | Raise e => Raise e
        end
      else if is_str_eq mime_type "audio/pcm" || is_str_eq mime_type "image/jpeg" then
        match b64decode data with
        | Ok bs => Ok (Some (SendRealtime (mkBlob (Some bs)
                                              (match mime_type with VStr m => Some m | _ => None end))))
        | Raise e => Raise e
        end
      else Ok None
  end.

(** One received frame: the request queued, if any. *)
Definition client_frame (message_json : string) : outcome (option LiveRequest) :=
  match json_loads message_json with
  | Ok message => route_message message
  | Raise e => Raise e
  end.

(** The [while True] loop over the frames the client sends before it
    disconnects: the requests queued in order, and the exception that ends
    the loop ([WebSocketDisconnect] once the frames are exhausted). *)
Fixpoint client_to_agent_messaging (frames : list string) : list LiveRequest * exn :=
  match frames with
  | [] => ([], WebSocketDisconnect)
  | f :: fs =>
      match client_frame f with
      | Raise e => ([], e)
      | Ok r =>
          let '(rs, e) := client_to_agent_messaging fs in
          ((match r with Some q => [q] | None => [] end) ++ rs, e)
      end
  end.

(** A property of every message sent, through [bind] and [for]. *)
Definition s_all {A} (P : value -> Prop) (c : Sends A) : Prop := Forall P (fst c).

(** The [mime_type] of a wire message, if it has one. *)
Definition message_mime (m : value) : option value :=
  match m with VDict d => pydict_lookup "mime_type" d | _ => None end.

Definition is_tool_message (m : value) : bool :=
  match message_mime m with
  | Some v => is_str_eq v "tool_call" || is_str_eq v "tool_result"
  | None => false
  end.

(** ** Lemmas on the inbound loop *)

Definition frame_ok (f : string) : bool :=
  match client_frame f with Ok _ => true | Raise _ => false end.

(** The requests the frames [fs] put on the queue, in order. *)
Definition queued (fs : list string) : list LiveRequest :=
  List.concat (map (fun f => match client_frame f with
                             | Ok (Some q) => [q]
                             | _ => []
                             end) fs).

(** ** Witnesses *)

Definition demo_pcm : list byte := [x00; x7f; x80; xff; x10].

Definition demo_audio_part : Part :=
  mkPart None (Some (mkBlob (Some demo_pcm) (Some "audio/pcm;rate=24000"))) None None.

Definition demo_text_event : Event :=
  mkEvent (Some (mkContent (Some "model") (Some [mkPart (Some "Hello") None None None;
                                                  demo_audio_part])))
          (Some true) None None.

Definition demo_tool_event : Event :=
  mkEvent (Some (mkContent (Some "model")
                  (Some [mkPart None None (Some (mkFunctionCall (Some "get_meeting_briefing")
                                                   (Some [("client_name", VStr "Acme")]))) None])))
          None None None.

Definition demo_turn_event : Event :=
  mkEvent (Some (mkContent (Some "model") (Some [mkPart (Some "late") None None None])))
          None (Some true) (Some false).

Definition demo_bad_event : Event :=
  mkEvent (Some (mkContent (Some "model") (Some [mkPart None (Some (mkBlob (Some demo_pcm) None)) None None])))
          None None None.

(** Client frames, as the page's [JSON.stringify] sends them. *)
Definition frame_hello : string :=
  json_dumps (VDict [("mime_type", VStr "text/plain"); ("data", VStr "hello")]).

Definition frame_pcm : string :=
  json_dumps (VDict [("mime_type", VStr "audio/pcm"); ("data", VStr (b64encode demo_pcm))]).

Definition frame_video : string :=
  json_dumps (VDict [("mime_type", VStr "video/mp4"); ("data", VStr "AAAA")]).

Definition frame_list : string := "[1, 2]".

(** An engine event whose parts are the texts [ts]. *)
Definition text_part (t : string) : Part := mkPart (Some t) None None None.



(** The frame the page sends for a typed message. *)
Definition text_frame (t : string) : string :=
  json_dumps (VDict [("mime_type", VStr "text/plain"); ("data", VStr t)]).

(** What the inbound pump queues for it. *)
Definition user_text (t : string) : LiveRequest :=
  SendContent (mkContent (Some "user") (Some [text_part t])).

(** ** Lemmas on [Sends] *)

Lemma s_bind_ret_l {A B} (a : A) (k : A -> Sends B) : s_bind (s_ret a) k = k a.
Proof. unfold s_bind, s_ret. by destruct (k a). Qed.

Lemma s_bind_assoc {A B C} (c : Sends A) (f : A -> Sends B) (g : B -> Sends C) :
  s_bind (s_bind c f) g = s_bind c (fun a => s_bind (f a) g).
Proof.
  destruct c as [ms [a|e]]; [|done]. simpl.
  destruct (f a) as [ms1 [b|e1]]; simpl; [|done].
  destruct (g b) as [ms2 o]. by rewrite app_assoc.
Qed.

Lemma s_iter_app {A} (f : A -> Sends unit) xs ys :
  s_iter f (xs ++ ys) = (s_iter f xs >>> s_iter f ys).
Proof.
  induction xs as [|x xs IH]; cbn [s_iter app].
  - by rewrite s_bind_ret_l.
  - by rewrite IH, s_bind_assoc.
Qed.

Lemma s_all_bind {A B} P (c : Sends A) (k : A -> Sends B) :
  s_all P c -> (forall a, s_all P (k a)) -> s_all P (s_bind c k).
Proof.
  unfold s_all. intros Hc Hk. destruct c as [ms [a|e]]; simpl in *; [|done].
  specialize (Hk a). destruct (k a) as [ms' o]. simpl in *. by apply Forall_app.
Qed.

Lemma s_all_iter {A} P (f : A -> Sends unit) xs :
  (forall x, In x xs -> s_all P (f x)) -> s_all P (s_iter f xs).
Proof.
  intros Hf. induction xs as [|x xs IH]; [constructor|].
  apply s_all_bind; [apply Hf; by left | intros; apply IH; intros; apply Hf; by right].
Qed.

Lemma s_all_ret {A} P (a : A) : s_all P (s_ret a).
Proof. constructor. Qed.

Lemma s_all_raise {A} P e : s_all P (@s_raise A e).
Proof. constructor. Qed.

Lemma s_all_send P m : P m -> s_all P (send_text m).
Proof. intros H. by constructor. Qed.

Create HintDb sends discriminated.
#[export] Hint Resolve s_all_ret s_all_raise s_all_send : sends.

(** A loop whose every step succeeds sends the steps' messages in order. *)
Lemma s_iter_ok {A} (f : A -> Sends unit) xs :
  Forall (fun x => snd (f x) = Ok tt) xs ->
  s_iter f xs = (List.concat (map (fun x => fst (f x)) xs), Ok tt).
Proof.
  induction 1 as [|x xs Hx _ IH]; [done|]. cbn [s_iter map List.concat].
  unfold s_bind. destruct (f x) as [ms [[]|e]]; simpl in *; [|discriminate].
  by rewrite IH.
Qed.

(** A step that raises ends the loop: what it sent is the last output. *)
Lemma s_iter_stop {A} (f : A -> Sends unit) xs x ms e ys :
  Forall (fun x => snd (f x) = Ok tt) xs -> f x = (ms, Raise e) ->
  s_iter f (xs ++ x :: ys) = (List.concat (map (fun x => fst (f x)) xs) ++ ms, Raise e).
Proof.
  intros Hok Hx. rewrite s_iter_app, (s_iter_ok f xs Hok). cbn [s_iter].
  unfold s_bind. by rewrite Hx.
Qed.

Lemma part_content_message_no_tool author partial part :
  s_all (fun m => is_tool_message m = false) (part_content_message author partial part).
Proof.
  unfold part_content_message, text_mime_type.
  destruct (truthy_str _); [|repeat case_match]; auto with sends.
  apply s_all_send. unfold is_tool_message. simpl.
  by repeat case_decide || case_match.
Qed.

(** The text of a [dict] built by the pump, read back by [message.get]. *)
Lemma route_realtime d m data bs :
  pydict_lookup "mime_type" d = Some (VStr m) -> pydict_lookup "data" d = Some data ->
  (m = "audio/pcm" \/ m = "image/jpeg") -> b64decode data = Ok bs ->
  route_message (VDict d) = Ok (Some (SendRealtime (mkBlob (Some bs) (Some m)))).
Proof.
  intros Hm Hd Hmt Hb. unfold route_message, message_get. rewrite Hm, Hd.
  cbn [is_str_eq]. destruct Hmt as [-> | ->]; simpl; by rewrite Hb.
Qed.

Lemma client_to_agent_messaging_app fs1 fs2 :
  forallb frame_ok fs1 = true ->
  client_to_agent_messaging (fs1 ++ fs2) =
    let '(rs, e) := client_to_agent_messaging fs2 in (queued fs1 ++ rs, e).
Proof.
  unfold queued. induction fs1 as [|f fs1 IH]; simpl; intros H.
  - by destruct (client_to_agent_messaging fs2).
  - unfold frame_ok in H at 1.
    destruct (client_frame f) as [r|e]; [|done]. simpl in H.
    rewrite IH by done. destruct (client_to_agent_messaging fs2).
    by rewrite app_assoc.
Qed.

(** ** Text streams and typed frames *)




Lemma client_frame_text t : client_frame (text_frame t) = Ok (Some (user_text t)).
Proof.
  unfold client_frame, text_frame. rewrite loads_dumps by reflexivity. reflexivity.
Qed.

(** ** Properties of the outbound pump *)


(** C14: With diagnostics off ([dev_mode=false]), no message the outbound
    pump sends, for any event stream, has [mime_type] [tool_call] or
    [tool_result], even for events carrying function calls or responses. *)
Theorem dev_mode_off_no_tool_messages es :
  Forall (fun m => is_tool_message m = false) (fst (agent_to_client_messaging false es)).
Proof.
  apply s_all_iter. intros ev _. unfold event_messages.
  case_match; [by apply s_all_send|]. repeat case_match; auto with sends.
  apply s_all_iter. intros p _. apply s_all_bind; [apply part_content_message_no_tool|].
  intros _. apply s_all_ret.
Qed.

(** C15: Audio round trip across the wire.  A part with no text and an
    inline blob of an [audio/*] type is sent as exactly one message, and
    that message, routed back by the inbound pump's body, queues a
    realtime blob of type [audio/pcm] holding exactly the blob's bytes
    (the base64 text on the wire decodes to the PCM data). *)
Theorem audio_part_roundtrip author partial part blob mt bs :
  truthy_str (part_text part) = false -> part_inline_data part = Some blob ->
  blob_mime_type blob = Some mt -> py_startswith mt "audio/" = true ->
  blob_data blob = Some bs ->
  exists m, part_content_message author partial part = ([m], Ok tt) /\
    route_message m = Ok (Some (SendRealtime (mkBlob (Some bs) (Some "audio/pcm")))).
Proof.
  intros Ht Hi Hm Ha Hd. unfold part_content_message.
  rewrite Ht, Hi, Hm, Ha, Hd. eexists. split; [reflexivity|].
  apply route_realtime with (data := VStr (b64encode bs)); [done|done|by left|].
  apply b64decode_b64encode.
Qed.

(** C16: A turn signal carries no content.  An event whose
    [turn_complete] or [interrupted] flag is set is sent as the single
    [{turn_complete, interrupted}] notice, whatever content it carries:
    its parts are not forwarded. *)
Theorem turn_signal_drops_content dev_mode ev :
  truthy_bool (ev_turn_complete ev) || truthy_bool (ev_interrupted ev) = true ->
  event_messages dev_mode ev =
    event_messages dev_mode (mkEvent None (ev_partial ev) (ev_turn_complete ev) (ev_interrupted ev)) /\
  event_messages dev_mode ev =
    ([VDict [("turn_complete", bool_value (ev_turn_complete ev));
             ("interrupted", bool_value (ev_interrupted ev))]], Ok tt).
Proof. intros H. unfold event_messages. simpl. by rewrite H. Qed.

(** C17: Inline data without a mime type ends the outbound pump.  An
    event (not a turn signal) whose first part has no text and an inline
    blob whose [mime_type] is [None] makes [part.inline_data.mime_type.
    startswith("audio/")] raise [AttributeError]: the client has received
    the frames of the earlier events, nothing of this event, and none of
    the later events; the exception ends the task. *)
Theorem outbound_mime_none_stops dev_mode es1 ev c p ps b es2 :
  Forall (fun e => snd (event_messages dev_mode e) = Ok tt) es1 ->
  truthy_bool (ev_turn_complete ev) || truthy_bool (ev_interrupted ev) = false ->
  ev_content ev = Some c -> content_parts c = Some (p :: ps) ->
  truthy_str (part_text p) = false -> part_inline_data p = Some b -> blob_mime_type b = None ->
  agent_to_client_messaging dev_mode (es1 ++ ev :: es2) =
    (List.concat (map (fun e => fst (event_messages dev_mode e)) es1),
     Raise (AttributeError "'NoneType' object has no attribute 'startswith'")).
Proof.
  intros Hok Ht Hc Hp Htx Hi Hm. unfold agent_to_client_messaging.
  rewrite (s_iter_stop _ _ _ [] (AttributeError "'NoneType' object has no attribute 'startswith'")
             _ Hok); [by rewrite app_nil_r|].
  unfold event_messages. rewrite Ht, Hc, Hp. cbn [List.length Nat.eqb negb s_iter].
  unfold part_messages, part_content_message. by rewrite Htx, Hi, Hm.
Qed.

(** ** Properties of the inbound pump *)

(** C18: Typed text reaches the engine.  For the frames the page sends
    for typed messages ([JSON.stringify] of [{mime_type: "text/plain",
    data: t}], as [json.dumps] prints them), the inbound pump parses each
    frame with [json.loads] and queues, in the order of the frames, one
    content of role [user] whose single part is exactly the text, for any
    texts; it ends with [WebSocketDisconnect] when the client goes away. *)
Theorem inbound_text_frames ts :
  client_to_agent_messaging (map text_frame ts) = (map user_text ts, WebSocketDisconnect).
Proof.
  induction ts as [|t ts IH]; [done|]. cbn [map client_to_agent_messaging].
  rewrite client_frame_text, IH. reflexivity.
Qed.

(** C19: A frame that parses to a JSON value other than an object (a list,
    a string, a number of the model, [null]) raises [AttributeError] on
    [message.get] and ends the inbound pump: the requests of the earlier
    frames stay queued and no later frame is read. *)
Theorem inbound_non_object_stops fs1 f v fs2 :
  forallb frame_ok fs1 = true -> json_loads f = Ok v ->
  (forall d, v <> VDict d) ->
  client_to_agent_messaging (fs1 ++ f :: fs2) =
    (queued fs1,
     AttributeError ("'" +s+ type_name v +s+ "' object has no attribute 'get'")).
Proof.
  intros Hok Hf Hv. rewrite client_to_agent_messaging_app by done. simpl.
  unfold client_frame at 1. rewrite Hf. unfold route_message, message_get.
  destruct v as [| | | | |d]; [..|by destruct (Hv d)]; simpl; by rewrite app_nil_r.
Qed.

(** C20: A [text/plain] frame is queued as a content submission of role
    [user] with one part holding exactly the frame's text. *)
Theorem route_text d s :
  pydict_lookup "mime_type" d = Some (VStr "text/plain") ->
  pydict_lookup "data" d = Some (VStr s) ->
  route_message (VDict d) =
    Ok (Some (SendContent (mkContent (Some "user") (Some [mkPart (Some s) None None None])))).
Proof. intros Hm Hd. unfold route_message, message_get. by rewrite Hm, Hd. Qed.

(** C21: An [audio/pcm] or [image/jpeg] frame whose data is the base64
    text of [bs] is queued as a realtime blob of the frame's type holding
    exactly [bs]. *)
Theorem route_realtime_b64 d m bs :
  pydict_lookup "mime_type" d = Some (VStr m) -> (m = "audio/pcm" \/ m = "image/jpeg") ->
  pydict_lookup "data" d = Some (VStr (b64encode bs)) ->
  route_message (VDict d) = Ok (Some (SendRealtime (mkBlob (Some bs) (Some m)))).
Proof. intros Hm Hmt Hd. eapply route_realtime; eauto using b64decode_b64encode. Qed.

(** C22: A frame whose [mime_type] is not one of [text/plain],
    [audio/pcm], [image/jpeg] (or is missing) is consumed and dropped: no
    request is queued and no error is raised. *)
Theorem route_unknown_mime_dropped d :
  (let v := match pydict_lookup "mime_type" d with Some v => v | None => VNone end in
   is_str_eq v "text/plain" || is_str_eq v "audio/pcm" || is_str_eq v "image/jpeg") = false ->
  route_message (VDict d) = Ok None.
Proof.
  cbv zeta. intros H. unfold route_message, message_get.
  apply orb_false_iff in H as [H H3]. apply orb_false_iff in H as [H1 H2].
  by rewrite H1, H2, H3.
Qed.


Lemma audio_part_roundtrip_witness :
  exists m, part_content_message (Some "model") None demo_audio_part = ([m], Ok tt) /\
    route_message m = Ok (Some (SendRealtime (mkBlob (Some demo_pcm) (Some "audio/pcm")))).
Proof.
  apply (audio_part_roundtrip _ _ demo_audio_part
           (mkBlob (Some demo_pcm) (Some "audio/pcm;rate=24000")) "audio/pcm;rate=24000");
    reflexivity.
Defined.

Lemma turn_signal_drops_content_witness :
  event_messages true demo_turn_event =
    event_messages true (mkEvent None None (Some true) (Some false)) /\
  event_messages true demo_turn_event =
    ([VDict [("turn_complete", VBool true); ("interrupted", VBool false)]], Ok tt).
Proof. apply (turn_signal_drops_content true demo_turn_event). reflexivity. Defined.

Lemma outbound_mime_none_stops_witness :
  agent_to_client_messaging false [demo_text_event; demo_bad_event; demo_turn_event] =
    (fst (event_messages false demo_text_event) ++ [],
     Raise (AttributeError "'NoneType' object has no attribute 'startswith'")).
Proof.
  change [demo_text_event; demo_bad_event; demo_turn_event]
    with ([demo_text_event] ++ demo_bad_event :: [demo_turn_event]).
  apply (outbound_mime_none_stops false [demo_text_event] demo_bad_event
           (mkContent (Some "model") (Some [mkPart None (Some (mkBlob (Some demo_pcm) None)) None None]))
           (mkPart None (Some (mkBlob (Some demo_pcm) None)) None None) [] (mkBlob (Some demo_pcm) None));
    [repeat constructor | reflexivity..].
Defined.

Lemma inbound_non_object_stops_witness :
  client_to_agent_messaging [frame_hello; frame_list; frame_pcm] =
    ([SendContent (mkContent (Some "user") (Some [mkPart (Some "hello") None None None]))],
     AttributeError "'list' object has no attribute 'get'").
Proof.
  change [frame_hello; frame_list; frame_pcm] with ([frame_hello] ++ frame_list :: [frame_pcm]).
  rewrite (inbound_non_object_stops [frame_hello] frame_list (VList [VInt 1; VInt 2]) [frame_pcm]);
    [reflexivity | reflexivity | reflexivity | congruence].
Defined.

Lemma route_text_witness :
  route_message (VDict [("mime_type", VStr "text/plain"); ("data", VStr "Hi")]) =
    Ok (Some (SendContent (mkContent (Some "user") (Some [mkPart (Some "Hi") None None None])))).
Proof. apply route_text; reflexivity. Defined.

Lemma route_realtime_b64_witness :
  route_message (VDict [("data", VStr (b64encode demo_pcm)); ("mime_type", VStr "image/jpeg")]) =
    Ok (Some (SendRealtime (mkBlob (Some demo_pcm) (Some "image/jpeg")))).
Proof. apply route_realtime_b64; [reflexivity | by right | reflexivity]. Defined.

Lemma route_unknown_mime_dropped_witness :
  route_message (VDict [("mime_type", VStr "video/mp4"); ("data", VStr "AAAA")]) = Ok None.
Proof. apply route_unknown_mime_dropped. reflexivity. Defined.
