(* ===== verification/Server.v ===== *)
(** * Server: connections, sessions and the two pumps of [websocket_endpoint]

    main.py serves every client on [/ws/{session_id}] with
    [websocket_endpoint], which

    - accepts the socket and prints the connect line;
    - calls [start_agent_session]: [session_service.create_session] stores
      a new ADK session under the id and returns a deep copy of it, and the
      run configuration is chosen by [is_audio];
    - sets [session_context] to that session object, in the endpoint's
      task;
    - creates the two pump tasks, which copy the endpoint's context, and
      awaits [asyncio.wait(tasks, return_when=FIRST_COMPLETED)];
    - cancels the pending task and returns; the [try] prints a line for
      [WebSocketDisconnect] and for any other [Exception] raised by
      [run_tasks_with_context], and [finally] the closing line.

    The model is a step function on the whole server ([server_step]): one
    [action] runs one task of one connection from a suspension point to
    the next, so a sequence of actions is an interleaving of the
    connections' tasks.  The outbound task awaits once per
    [websocket.send_text] ([OutStep] sends one message of the current
    event, [c_pending]) and once per event it takes from [live_events];
    the inbound task once per [receive_text] ([InStep]).  [ClientClose] is
    the client closing its socket: from then on a send raises
    [WebSocketDisconnect] and ends the outbound task, and a receive on an
    exhausted socket raises it and ends the inbound task.  [Finish] is
    [asyncio.wait] returning: the endpoint cancels the task still running
    ([cancel]), prints and returns.

    The engine is the one party the sources do not contain (the Gemini
    Live connection behind [runner.run_live]): what it yields is the
    connection's [c_events] and how its stream ends, [c_stream_end], fixed
    when the client connects.  A tool it calls runs in the outbound pump's
    task ([ToolCall]), with that task's context, while the task waits for
    the next event; a tool that raises ends the stream with its exception
    ([tool_stream]).  The heap of session objects and the clock and stdout
    of the tools are the [world] of [Runtime]; the endpoint's own prints
    are kept in [sv_log].

    [InMemorySessionService.create_session] on an id already stored either
    replaces the stored session or raises [AlreadyExistsError], depending on
    the ADK release; [dup_policy] selects the behaviour.

    Theorems C23, C26-C36 and C38: the invariant [Inv] of reachable
    servers and what follows from it (each pump holds its own session,
    tool calls are isolated, both pumps refine [Relay], closed connections
    are frozen, a closed client receives nothing more, sessions stay
    stored and empty in the service, no clean-disconnect line), liveness
    with a bound, the two duplicate-id behaviours, and the commutation of
    a connection's local steps with the actions of the others. *)

From S2P Require Import Prelude PyStr PyValue Runtime Session Retrieval SalesTools Json JsonDecode Base64 Relay.

Open Scope sc_scope.

(** ** [start_agent_session] *)

Definition APP_NAME : string := "Sales Catalyst".

Inductive Modality := AUDIO | TEXT.

(** The fields of the [RunConfig] main.py sets. *)
Record RunConfig := mkRunConfig {
  rc_response_modalities : list Modality;
  rc_streaming_mode_bidi : bool;
  rc_language_code : option string;
  rc_voice_name : option string;
  rc_activity_detection_disabled : option bool;
  rc_silence_duration_ms : option Z;
  rc_output_audio_transcription : bool;
  rc_input_audio_transcription : bool
}.

Definition run_config (is_audio : bool) : RunConfig :=
  if is_audio then
    mkRunConfig [AUDIO] true (Some "en-GB") (Some "Aoede") (Some false) (Some 1000%Z) true true
  else mkRunConfig [TEXT] true None None None None false false.

Definition mode_line (is_audio : bool) : string :=
  if is_audio then "Starting agent in AUDIO mode." else "Starting agent in TEXT mode.".

Inductive DupPolicy := Overwrite | RaiseAlreadyExists.

(** The session [create_session] stores and returns (a copy of). *)
Definition new_session (session_id : string) : Session :=
  mkSession session_id APP_NAME session_id ∅.

(** ** The prints of the endpoint *)

Definition py_bool (b : bool) : string := if b then "True" else "False".

Definition connect_line (sid : string) (is_audio dev_mode : bool) : string :=
  "Client #" +s+ sid +s+ " connected. Audio mode: " +s+ py_bool is_audio
  +s+ ", Dev mode: " +s+ py_bool dev_mode.

Definition clean_line (sid : string) : string :=
  "Client #" +s+ sid +s+ " disconnected cleanly.".

Definition closed_line (sid : string) : string :=
  "Connection for client #" +s+ sid +s+ " closed.".

(** The [except] clauses and the [finally] of the endpoint, on the outcome
    of [run_tasks_with_context()]. *)
Definition endpoint_exit (sid : string) (o : outcome unit) : list string :=
  match o with
  | Ok _ => []
  | Raise WebSocketDisconnect => [clean_line sid]
  | Raise e => ["An error occurred in the websocket endpoint for client #" +s+ sid
                +s+ ": " +s+ exn_message e]
  end ++ [closed_line sid].

(** ** Connections *)

Inductive task_state :=
| NotCreated                (** [asyncio.create_task] not reached *)
| Running
| Done (o : outcome unit)   (** the coroutine returned or raised *)
| Cancelled.                (** [task.cancel()] before it finished *)

(** Where the endpoint's coroutine is. *)
Inductive ep_phase :=
| EpAccepted                 (** after [accept] and the connect print *)
| EpSessionStarted (r : ref) (** [start_agent_session] returned *)
| EpContextSet (r : ref)     (** after [session_context.set] *)
| EpRunning (r : ref)        (** awaiting [asyncio.wait] *)
| EpClosed (r : option ref). (** returned; the prints of [finally] done;
                                  [r] is the session object, if one was made *)

Record Conn := mkConn {
  c_sid : string;
  c_audio : bool;
  c_dev : bool;
  c_phase : ep_phase;
  c_ctx_ep : option ref;      (** [session_context] in the endpoint's task *)
  c_ctx_out : option ref;     (** ... in the outbound pump's task *)
  c_ctx_in : option ref;      (** ... in the inbound pump's task *)
  c_events : list Event;      (** the engine's events not yet produced *)
  c_stream_end : outcome unit;(** how [live_events] ends after them *)
  c_events_done : list Event; (** the events the outbound pump took, in order *)
  c_pending : list value;     (** the messages of the current event not yet sent *)
  c_event_end : outcome unit; (** how the current event's handling ends after them *)
  c_sent : list value;        (** the messages delivered to the client, in order *)
  c_out : task_state;
  c_frames : list string;     (** the client's frames not yet received *)
  c_frames_done : list string;
  c_queued : list LiveRequest;
  c_in : task_state;
  c_client_open : bool        (** the client has not closed its socket *)
}.

Definition conn_lifecycle (c : Conn) (p : ep_phase) (ep out in_ : option ref)
    (so si : task_state) : Conn :=
  mkConn (c_sid c) (c_audio c) (c_dev c) p ep out in_
    (c_events c) (c_stream_end c) (c_events_done c) (c_pending c) (c_event_end c) (c_sent c) so
    (c_frames c) (c_frames_done c) (c_queued c) si (c_client_open c).

Definition conn_out (c : Conn) (evs : list Event) (send : outcome unit) (done_ : list Event)
    (pending : list value) (eend : outcome unit) (sent : list value) (so : task_state) : Conn :=
  mkConn (c_sid c) (c_audio c) (c_dev c) (c_phase c) (c_ctx_ep c) (c_ctx_out c) (c_ctx_in c)
    evs send done_ pending eend sent so (c_frames c) (c_frames_done c) (c_queued c) (c_in c)
    (c_client_open c).

Definition conn_in (c : Conn) (fs done_ : list string) (q : list LiveRequest) (si : task_state)
  : Conn :=
  mkConn (c_sid c) (c_audio c) (c_dev c) (c_phase c) (c_ctx_ep c) (c_ctx_out c) (c_ctx_in c)
    (c_events c) (c_stream_end c) (c_events_done c) (c_pending c) (c_event_end c) (c_sent c)
    (c_out c) fs done_ q si (c_client_open c).

Definition conn_client_closed (c : Conn) : Conn :=
  mkConn (c_sid c) (c_audio c) (c_dev c) (c_phase c) (c_ctx_ep c) (c_ctx_out c) (c_ctx_in c)
    (c_events c) (c_stream_end c) (c_events_done c) (c_pending c) (c_event_end c) (c_sent c)
    (c_out c) (c_frames c) (c_frames_done c) (c_queued c) (c_in c) false.

(** A connection just accepted: the endpoint's task starts with a copy of
    the server's context, where [session_context] has its default [None].
    [events] and [stream_end] are what the engine's [live_events] will
    yield, [frames] what the client will send before it closes. *)
Definition accepted (sid : string) (is_audio dev_mode : bool) (events : list Event)
    (stream_end : outcome unit) (frames : list string) : Conn :=
  mkConn sid is_audio dev_mode EpAccepted None None None events stream_end [] [] (Ok tt) []
    NotCreated frames [] [] NotCreated true.

(** ** The server *)

Record server := mkServer {
  sv_world : world;                 (** session objects, tools' clock and stdout *)
  sv_service : gmap string Session; (** [session_service]'s sessions of [APP_NAME] *)
  sv_conns : list Conn;             (** by connection number *)
  sv_log : list string;             (** the endpoint's prints *)
  sv_next : ref                     (** the next free object reference *)
}.

(** The server at start-up: no session objects, no connection; [clock] is
    the tape of [time.perf_counter] readings. *)
Definition init_server (clock : list Z) : server :=
  mkServer (mkWorld ∅ None [] clock) ∅ [] [] 0.

Inductive action :=
| Connect (sid : string) (is_audio dev_mode : bool) (events : list Event)
    (stream_end : outcome unit) (frames : list string)
| StartSession (i : nat)
| SetContext (i : nat)
| CreateTasks (i : nat)
| OutStep (i : nat)
| InStep (i : nat)
| ToolCall (i : nat) (tc : tool_call)
| Finish (i : nat)
| ClientClose (i : nat).

Definition set_conn (s : server) (i : nat) (c : Conn) : server :=
  mkServer (sv_world s) (sv_service s) (<[i := c]> (sv_conns s)) (sv_log s) (sv_next s).

Definition task_done (t : task_state) : bool :=
  match t with Done _ => true | _ => false end.

Definition cancel (t : task_state) : task_state :=
  match t with Running => Cancelled | t => t end.

Definition is_running (t : task_state) : bool :=
  match t with Running => true | _ => false end.

Definition is_ok (o : outcome unit) : bool :=
  match o with Ok _ => true | Raise _ => false end.

(** [agent_to_client_messaging] on an engine stream that yields [evs]
    and then ends as [stream_end]: the [async for] raises what the stream
    raises. *)
Definition live_messages (dev_mode : bool) (evs : list Event) (stream_end : outcome unit)
  : Sends unit :=
  agent_to_client_messaging dev_mode evs >>>
  match stream_end with Ok _ => s_ret tt | Raise e => s_raise e end.

Section Step.

Variable retriever : option Retriever.
Variable dup_policy : DupPolicy.

(** [start_agent_session(session_id, is_audio)] for connection [i]. *)
Definition start_session (s : server) (i : nat) (c : Conn) : server :=
  let sid := c_sid c in
  match dup_policy, sv_service s !! sid with
  | RaiseAlreadyExists, Some _ =>
      let e := ExternalError ("Session with id " +s+ sid +s+ " already exists.") in
      mkServer (sv_world s) (sv_service s)
        (<[i := conn_lifecycle c (EpClosed None) (c_ctx_ep c) None None NotCreated NotCreated]>
           (sv_conns s))
        (sv_log s ++ endpoint_exit sid (Raise e)) (sv_next s)
  | _, _ =>
      let r := sv_next s in
      mkServer (set_heap (<[r := new_session sid]> (w_heap (sv_world s))) (sv_world s))
        (<[sid := new_session sid]> (sv_service s))
        (<[i := conn_lifecycle c (EpSessionStarted r) (c_ctx_ep c) None None (c_out c) (c_in c)]>
           (sv_conns s))
        (sv_log s ++ [mode_line (c_audio c)]) (S r)
  end.

(** The outbound task from one suspension point to the next: one
    [await websocket.send_text] of the current event (which raises
    [WebSocketDisconnect] once the client has closed), or the end of the
    event's handling, or [async for] taking the next event or ending with
    the stream. *)
Definition out_step (c : Conn) : Conn :=
  match c_pending c with
  | m :: ms =>
      if c_client_open c then
        conn_out c (c_events c) (c_stream_end c) (c_events_done c) ms (c_event_end c)
          (c_sent c ++ [m]) Running
      else
        conn_out c (c_events c) (c_stream_end c) (c_events_done c) (m :: ms) (c_event_end c)
          (c_sent c) (Done (Raise WebSocketDisconnect))
  | [] =>
      match c_event_end c with
      | Raise e =>
          conn_out c (c_events c) (c_stream_end c) (c_events_done c) [] (c_event_end c)
            (c_sent c) (Done (Raise e))
      | Ok _ =>
          match c_events c with
          | [] =>
              conn_out c [] (c_stream_end c) (c_events_done c) [] (Ok tt) (c_sent c)
                (Done (c_stream_end c))
          | ev :: evs =>
              let '(ms, o) := event_messages (c_dev c) ev in
              conn_out c evs (c_stream_end c) (c_events_done c ++ [ev]) ms o (c_sent c) Running
          end
      end
  end.

(** One pass of the [while True] loop in the inbound task; [receive_text]
    blocks while the client has sent nothing more and is still open, and
    raises [WebSocketDisconnect] once it has closed. *)
Definition in_step (c : Conn) : option Conn :=
  match c_frames c with
  | [] =>
      if c_client_open c then None
      else Some (conn_in c [] (c_frames_done c) (c_queued c) (Done (Raise WebSocketDisconnect)))
  | f :: fs =>
      match client_frame f with
      | Ok r => Some (conn_in c fs (c_frames_done c ++ [f])
                        (c_queued c ++ match r with Some q => [q] | None => [] end) Running)
      | Raise e => Some (conn_in c fs (c_frames_done c ++ [f]) (c_queued c) (Done (Raise e)))
      end
  end.

(** A tool the engine calls while the outbound task waits for the next
    event; a tool that raises makes [live_events] raise, so the stream
    ends there. *)
Definition tool_stream (c : Conn) (o : outcome tool_result) : Conn :=
  match o with
  | Ok _ => c
  | Raise e => conn_out c [] (Raise e) (c_events_done c) (c_pending c) (c_event_end c)
                 (c_sent c) (c_out c)
  end.

Definition server_step (a : action) (s : server) : option server :=
  match a with
  | Connect sid is_audio dev_mode events stream_end frames =>
      Some (mkServer (sv_world s) (sv_service s)
              (sv_conns s ++ [accepted sid is_audio dev_mode events stream_end frames])
              (sv_log s ++ [connect_line sid is_audio dev_mode]) (sv_next s))
  | StartSession i =>
      match sv_conns s !! i with
      | Some c => match c_phase c with
                  | EpAccepted => Some (start_session s i c)
                  | _ => None
                  end
      | None => None
      end
  | SetContext i =>
      match sv_conns s !! i with
      | Some c => match c_phase c with
                  | EpSessionStarted r =>
                      Some (set_conn s i (conn_lifecycle c (EpContextSet r) (Some r)
                                            (c_ctx_out c) (c_ctx_in c) (c_out c) (c_in c)))
                  | _ => None
                  end
      | None => None
      end
  | CreateTasks i =>
      match sv_conns s !! i with
      | Some c => match c_phase c with
                  | EpContextSet r =>
                      Some (set_conn s i (conn_lifecycle c (EpRunning r) (c_ctx_ep c)
                                            (c_ctx_ep c) (c_ctx_ep c) Running Running))
                  | _ => None
                  end
      | None => None
      end
  | OutStep i =>
      match sv_conns s !! i with
      | Some c => if is_running (c_out c) then Some (set_conn s i (out_step c)) else None
      | None => None
      end
  | InStep i =>
      match sv_conns s !! i with
      | Some c => if is_running (c_in c) then set_conn s i <$> in_step c else None
      | None => None
      end
  | ToolCall i tc =>
      match sv_conns s !! i with
      | Some c =>
          if is_running (c_out c) && bool_decide (c_pending c = []) && is_ok (c_event_end c) then
            let w := sv_world s in
            let '(o, w') := run_tool retriever tc (set_ctx (c_ctx_out c) w) in
            Some (mkServer (set_ctx (w_ctx w) w') (sv_service s)
                    (<[i := tool_stream c o]> (sv_conns s)) (sv_log s) (sv_next s))
          else None
      | None => None
      end
  | Finish i =>
      match sv_conns s !! i with
      | Some c => match c_phase c with
                  | EpRunning r =>
                      if task_done (c_out c) || task_done (c_in c) then
                        Some (mkServer (sv_world s) (sv_service s)
                                (<[i := conn_lifecycle c (EpClosed (Some r)) (c_ctx_ep c) (c_ctx_out c)
                                          (c_ctx_in c) (cancel (c_out c)) (cancel (c_in c))]>
                                   (sv_conns s))
                                (sv_log s ++ endpoint_exit (c_sid c) (Ok tt)) (sv_next s))
                      else None
                  | _ => None
                  end
      | None => None
      end
  | ClientClose i =>
      match sv_conns s !! i with
      | Some c => match c_phase c with
                  | EpClosed _ => None
                  | _ => if c_client_open c then Some (set_conn s i (conn_client_closed c))
                         else None
                  end
      | None => None
      end
  end.

(** A run: the actions in order; [None] as soon as one is not enabled. *)
Fixpoint run (acts : list action) (s : server) : option server :=
  match acts with
  | [] => Some s
  | a :: acts' => match server_step a s with Some s' => run acts' s' | None => None end
  end.

Inductive reachable (clock : list Z) : server -> Prop :=
| reach_init : reachable clock (init_server clock)
| reach_step a s s' : reachable clock s -> server_step a s = Some s' -> reachable clock s'.

End Step.

(** ** Demo runs *)

(** Two clients, [alice] in audio mode and [bob] in text mode with
    diagnostics; the engine calls the recap tool for [alice] and the
    invite tool for [bob]; [alice]'s pump takes her event and sends its
    text, then [alice] closes her socket before its audio is sent. *)
Definition demo_clock : list Z := [0; 120; 500; 730; 1000; 1010; 2000; 2400]%Z.

Definition demo_tasks_acts : list action :=
  [Connect "alice" true false [demo_text_event] (Ok tt) [frame_hello];
   Connect "bob" false true [demo_tool_event; demo_turn_event] (Ok tt) [frame_pcm];
   StartSession 0; StartSession 1; SetContext 0; SetContext 1; CreateTasks 0; CreateTasks 1].

Definition demo_mid_acts : list action :=
  demo_tasks_acts ++
  [ToolCall 0 (CallRecap ["Pricing"; "Pilot scope"] ["Send quote"] "2026-12-01");
   ToolCall 1 CallInvite;
   OutStep 0; OutStep 0; OutStep 1; InStep 0; ClientClose 0; InStep 0].

Definition demo_state (acts : list action) : server :=
  match run None Overwrite acts (init_server demo_clock) with
  | Some s => s
  | None => init_server demo_clock
  end.

Definition demo_tasks : server := demo_state demo_tasks_acts.
Definition demo_mid : server := demo_state demo_mid_acts.
Definition demo_end : server := demo_state (demo_mid_acts ++ [Finish 0]).

(** After [alice]'s endpoint returned, [bob]'s pump sends the rest of
    its events, a tool runs for him, and his endpoint returns. *)
Definition demo_bob_acts : list action :=
  [OutStep 1; ToolCall 1 CallEmail; OutStep 1; OutStep 1; OutStep 1; Finish 1].

Definition demo_conn (s : server) (i : nat) : Conn :=
  match sv_conns s !! i with Some c => c | None => accepted EmptyString false false [] (Ok tt) [] end.

Definition demo_reconnect : server :=
  match server_step None RaiseAlreadyExists (Connect "alice" true false [] (Ok tt) []) demo_end with
  | Some s => s
  | None => demo_end
  end.

Definition demo_overwrite : server :=
  demo_state (demo_mid_acts ++ [Connect "alice" true false [] (Ok tt) []]).

(** ** The invariant of reachable servers *)

(** The session object of a connection, once [start_agent_session] made
    one. *)
Definition conn_ref (c : Conn) : option ref :=
  match c_phase c with
  | EpSessionStarted r | EpContextSet r | EpRunning r | EpClosed (Some r) => Some r
  | EpAccepted | EpClosed None => None
  end.

Definition conn_closed (c : Conn) : bool :=
  match c_phase c with EpClosed _ => true | _ => false end.

(** The context of each task, by the endpoint's progress. *)
Definition ctx_inv (c : Conn) : Prop :=
  match c_phase c with
  | EpAccepted | EpSessionStarted _ =>
      c_ctx_ep c = None /\ c_out c = NotCreated /\ c_in c = NotCreated
  | EpContextSet r => c_ctx_ep c = Some r /\ c_out c = NotCreated /\ c_in c = NotCreated
  | EpRunning r =>
      c_ctx_ep c = Some r /\ c_ctx_out c = Some r /\ c_ctx_in c = Some r /\
      (c_out c = Running \/ exists o, c_out c = Done o) /\
      (c_in c = Running \/ exists o, c_in c = Done o)
  | EpClosed _ => is_running (c_out c) = false /\ is_running (c_in c) = false
  end.

(** The outbound pump so far, against [agent_to_client_messaging] on the
    events it took: while it runs, what it sent and what it still has to
    send of the current event; once it ended, a prefix of it, and all of
    it with the stream's end unless a send failed. *)
Definition out_inv (c : Conn) : Prop :=
  match c_out c with
  | NotCreated => c_events_done c = [] /\ c_sent c = [] /\ c_pending c = [] /\ c_event_end c = Ok tt
  | Running =>
      c_sent c ++ c_pending c = fst (agent_to_client_messaging (c_dev c) (c_events_done c)) /\
      c_event_end c = snd (agent_to_client_messaging (c_dev c) (c_events_done c))
  | Done o =>
      c_sent c `prefix_of` fst (agent_to_client_messaging (c_dev c) (c_events_done c)) /\
      (o = Raise WebSocketDisconnect \/
       (c_sent c, o) = live_messages (c_dev c) (c_events_done c) (c_stream_end c))
  | Cancelled => c_sent c `prefix_of` fst (agent_to_client_messaging (c_dev c) (c_events_done c))
  end.

(** The inbound pump so far, as [client_to_agent_messaging] reports it. *)
Definition in_inv (c : Conn) : Prop :=
  match c_in c with
  | Done (Raise e) => client_to_agent_messaging (c_frames_done c) = (c_queued c, e)
  | Done (Ok _) => False
  | _ => forallb frame_ok (c_frames_done c) = true /\ c_queued c = queued (c_frames_done c)
  end.

Definition conn_inv (next : ref) (c : Conn) : Prop :=
  ctx_inv c /\
  (forall r, conn_ref c = Some r -> r < next) /\
  out_inv c /\
  in_inv c.

(** The last character of a line. *)
Fixpoint last_char (s : string) : option ascii :=
  match s with
  | EmptyString => None
  | String c EmptyString => Some c
  | String _ s' => last_char s'
  end.

(** The endpoint's prints that an action adds to the log. *)
Definition not_clean_line (l : string) : Prop := forall sid, l <> clean_line sid.

(** The actions of connection [i]'s tasks. *)
Definition acts_on (i : nat) (a : action) : bool :=
  match a with
  | Connect _ _ _ _ _ _ | ClientClose _ => false
  | StartSession j | SetContext j | CreateTasks j | OutStep j | InStep j | ToolCall j _
  | Finish j => Nat.eqb j i
  end.

(** The actions that touch nothing but connection [i]: the endpoint's
    [session_context.set] and [create_task] steps, a step of either pump,
    and the client closing its socket. *)
Definition local_on (i : nat) (a : action) : bool :=
  match a with
  | SetContext j | CreateTasks j | OutStep j | InStep j | ClientClose j => Nat.eqb j i
  | _ => false
  end.

(** The connection an action belongs to: every action but a new
    connection's. *)
Definition conn_of (a : action) : option nat :=
  match a with
  | Connect _ _ _ _ _ _ => None
  | StartSession j | SetContext j | CreateTasks j | OutStep j | InStep j | ToolCall j _
  | Finish j | ClientClose j => Some j
  end.

(** The ways one action can change a connection. *)
Inductive conn_moves (c : Conn) : Conn -> Prop :=
| cm_lifecycle p ep o i so si : conn_moves c (conn_lifecycle c p ep o i so si)
| cm_out : conn_moves c (out_step c)
| cm_in c' : in_step c = Some c' -> conn_moves c c'
| cm_tool o : conn_moves c (tool_stream c o)
| cm_close : conn_moves c (conn_client_closed c).

(** The steps the outbound task has left at most: one per message of
    the current event, and one per event to take plus one per message it
    sends. *)
Definition out_work (c : Conn) : nat :=
  List.length (c_pending c) +
  list_sum (map (fun ev => S (List.length (fst (event_messages (c_dev c) ev)))) (c_events c)).

(** Connection [i] of [s] can be brought to a close by at most [n] actions
    of its own tasks. *)
Definition can_close (rt : option Retriever) (pol : DupPolicy) (s : server) (i n : nat) : Prop :=
  exists acts s' c', forallb (acts_on i) acts = true /\ List.length acts <= n /\
    run rt pol acts s = Some s' /\ sv_conns s' !! i = Some c' /\ conn_closed c' = true.

Record Inv (s : server) : Prop := {
  inv_world_ctx : w_ctx (sv_world s) = None;
  inv_fresh : forall r, sv_next s <= r -> w_heap (sv_world s) !! r = None;
  inv_conns : forall i c, sv_conns s !! i = Some c -> conn_inv (sv_next s) c;
  inv_distinct : forall i j ci cj r, sv_conns s !! i = Some ci -> sv_conns s !! j = Some cj ->
    conn_ref ci = Some r -> conn_ref cj = Some r -> i = j
}.

(** ** The pumps' steps against their functional models *)

Lemma agent_to_client_messaging_snoc dev evs ev sent :
  agent_to_client_messaging dev evs = (sent, Ok tt) ->
  agent_to_client_messaging dev (evs ++ [ev]) =
    let '(ms, o) := event_messages dev ev in (sent ++ ms, o).
Proof.
  unfold agent_to_client_messaging. intros H. rewrite s_iter_app, H. cbn [s_iter].
  unfold s_bind, s_ret. destruct (event_messages dev ev) as [ms [[]|e]]; by rewrite ?app_nil_r.
Qed.

Lemma queued_snoc fs f :
  queued (fs ++ [f]) =
    queued fs ++ match client_frame f with Ok (Some q) => [q] | _ => [] end.
Proof. unfold queued. rewrite map_app, concat_app. simpl. by rewrite app_nil_r. Qed.

Lemma forallb_frame_ok_snoc fs f :
  forallb frame_ok (fs ++ [f]) = forallb frame_ok fs && frame_ok f.
Proof. by rewrite forallb_app; simpl; rewrite andb_true_r. Qed.

(** The stream of a run that did not raise, ended as [o]. *)
Lemma live_messages_ok dev evs ms o :
  agent_to_client_messaging dev evs = (ms, Ok tt) -> live_messages dev evs o = (ms, o).
Proof. intros H. unfold live_messages, s_bind. rewrite H. destruct o as [[]|e]; cbn; by rewrite app_nil_r. Qed.

Lemma live_messages_raise dev evs ms e o :
  agent_to_client_messaging dev evs = (ms, Raise e) -> live_messages dev evs o = (ms, Raise e).
Proof. intros H. unfold live_messages. by rewrite H. Qed.

Lemma is_running_true t : is_running t = true -> t = Running.
Proof. by destruct t. Qed.

(** ** The shape of each step of a connection *)

Ltac conn_cbn :=
  cbn [c_sid c_audio c_dev c_phase c_ctx_ep c_ctx_out c_ctx_in c_events c_stream_end
       c_events_done c_pending c_event_end c_sent c_out c_frames c_frames_done c_queued c_in
       c_client_open conn_out conn_in conn_lifecycle conn_client_closed] in *.

Ltac conn_simpl := unfold conn_inv, ctx_inv, conn_ref in *; conn_cbn.

Ltac inv_simpl := conn_simpl; unfold out_inv, in_inv in *; conn_cbn.

Lemma out_step_shape c :
  exists evs se dn p ee sn so, out_step c = conn_out c evs se dn p ee sn so /\
    (so = Running \/ exists o, so = Done o).
Proof. unfold out_step. repeat case_match; do 7 eexists; (split; [reflexivity | eauto]). Qed.

Lemma in_step_shape c c' :
  in_step c = Some c' -> exists fs dn q si, c' = conn_in c fs dn q si /\
    (si = Running \/ exists o, si = Done o).
Proof. unfold in_step. intros H. repeat case_match; try discriminate; injection H as <-; do 4 eexists; eauto. Qed.

Lemma out_step_phase c : c_phase (out_step c) = c_phase c.
Proof. by destruct (out_step_shape c) as (? & ? & ? & ? & ? & ? & ? & -> & _). Qed.

Lemma in_step_ref c c' : in_step c = Some c' -> conn_ref c' = conn_ref c.
Proof. intros (? & ? & ? & ? & -> & _)%in_step_shape. reflexivity. Qed.

(** A running task belongs to an endpoint that awaits it. *)
Lemma out_running_phase c :
  ctx_inv c -> c_out c = Running -> exists r, c_phase c = EpRunning r.
Proof. unfold ctx_inv. intros H Ho. rewrite Ho in H. destruct (c_phase c); eauto; exfalso; intuition discriminate. Qed.

Lemma in_running_phase c :
  ctx_inv c -> c_in c = Running -> exists r, c_phase c = EpRunning r.
Proof. unfold ctx_inv. intros H Hi. rewrite Hi in H. destruct (c_phase c); eauto; exfalso; intuition discriminate. Qed.

(** ** Each action keeps the invariant of the connection it acts on *)

Lemma conn_inv_mono next next' c : next <= next' -> conn_inv next c -> conn_inv next' c.
Proof. intros Hle (Hc & Hr & Ho & Hi). repeat split; try done. intros r Hr'. specialize (Hr r Hr'). lia. Qed.

Lemma accepted_conn_inv next sid a d evs se fs : conn_inv next (accepted sid a d evs se fs).
Proof. unfold accepted. inv_simpl. repeat split; done. Qed.

(** A step of the outbound task changes its own fields only. *)
Lemma conn_out_conn_inv next c evs se dn p ee sn so :
  c_out c = Running -> (so = Running \/ exists o, so = Done o) -> conn_inv next c ->
  out_inv (conn_out c evs se dn p ee sn so) -> conn_inv next (conn_out c evs se dn p ee sn so).
Proof.
  intros Ho Hso (Hctx & Hr & _ & Hin) Hout.
  destruct (out_running_phase c Hctx Ho) as [r Hp].
  unfold in_inv in *. split; [|split; [|split]]; try done; conn_simpl; rewrite Hp in *; tauto.
Qed.

Lemma conn_in_conn_inv next c fs dn q si :
  c_in c = Running -> (si = Running \/ exists o, si = Done o) -> conn_inv next c ->
  in_inv (conn_in c fs dn q si) -> conn_inv next (conn_in c fs dn q si).
Proof.
  intros Hi Hsi (Hctx & Hr & Hout & _) Hin.
  destruct (in_running_phase c Hctx Hi) as [r Hp].
  unfold out_inv in *. split; [|split; [|split]]; try done; conn_simpl; rewrite Hp in *; tauto.
Qed.

(** One await of the outbound task: a message sent, or the send failing
    on a closed client, or the end of an event or of the stream. *)
Lemma out_step_out_inv c : c_out c = Running -> out_inv c -> out_inv (out_step c).
Proof.
  intros Ho. unfold out_inv. rewrite Ho. intros [Hs He]. unfold out_step.
  destruct (c_pending c) as [|m ms] eqn:Hp.
  - rewrite app_nil_r in Hs.
    assert (Ha : agent_to_client_messaging (c_dev c) (c_events_done c) = (c_sent c, c_event_end c)).
    { rewrite Hs, He. by destruct (agent_to_client_messaging _ _). }
    destruct (c_event_end c) as [[]|e] eqn:Ee.
    + destruct (c_events c) as [|ev evs].
      * conn_cbn. rewrite Ha. split; [reflexivity|]. right. by rewrite (live_messages_ok _ _ _ _ Ha).
      * destruct (event_messages (c_dev c) ev) as [ms o] eqn:E. conn_cbn.
        rewrite (agent_to_client_messaging_snoc _ _ _ _ Ha), E. done.
    + conn_cbn. rewrite Ha. split; [reflexivity|]. right. by rewrite (live_messages_raise _ _ _ _ _ Ha).
  - destruct (c_client_open c); conn_cbn.
    + split; [rewrite <- app_assoc; exact Hs | exact He].
    + split; [rewrite <- Hs; by apply prefix_app_r | by left].
Qed.

Lemma out_step_conn_inv next c :
  c_out c = Running -> conn_inv next c -> conn_inv next (out_step c).
Proof.
  intros Ho Hc. pose proof (out_step_out_inv c Ho (proj1 (proj2 (proj2 Hc)))) as Hout.
  destruct (out_step_shape c) as (evs & se & dn & p & ee & sn & so & E & Hso). rewrite E in *.
  by apply conn_out_conn_inv.
Qed.

(** One pass of the inbound loop: a frame received and queued, or the
    exception that ends the task. *)
Lemma in_step_in_inv c c' : c_in c = Running -> in_inv c -> in_step c = Some c' -> in_inv c'.
Proof.
  intros Hi Hin Hs. unfold in_inv in *. rewrite Hi in Hin. destruct Hin as [Hok Hq].
  unfold in_step in Hs. destruct (c_frames c) as [|f fs].
  - destruct (c_client_open c); [done|]. injection Hs as <-. conn_cbn.
    rewrite <- (app_nil_r (c_frames_done c)), client_to_agent_messaging_app by done.
    simpl. by rewrite Hq, !app_nil_r.
  - destruct (client_frame f) as [q|e] eqn:E; injection Hs as <-; conn_cbn.
    + split; [by rewrite forallb_frame_ok_snoc, Hok; unfold frame_ok; rewrite E|].
      rewrite queued_snoc, E, Hq. by destruct q.
    + rewrite client_to_agent_messaging_app by done. simpl. rewrite E. by rewrite app_nil_r, Hq.
Qed.

Lemma in_step_conn_inv next c c' :
  c_in c = Running -> in_step c = Some c' -> conn_inv next c -> conn_inv next c'.
Proof.
  intros Hi Hs Hc. pose proof (in_step_in_inv c c' Hi (proj2 (proj2 (proj2 Hc))) Hs) as Hin.
  destruct (in_step_shape c c' Hs) as (fs & dn & q & si & -> & Hsi). by apply conn_in_conn_inv.
Qed.

(** A tool that raises ends the stream; it changes nothing the outbound
    task has done. *)
Lemma tool_stream_conn_inv next c o :
  c_out c = Running -> conn_inv next c -> conn_inv next (tool_stream c o).
Proof.
  intros Ho Hc. destruct o as [t|e]; [done|]. unfold tool_stream.
  apply conn_out_conn_inv; [done | by left | done |].
  destruct Hc as (_ & _ & Hout & _). unfold out_inv in *. conn_cbn. rewrite Ho in *. exact Hout.
Qed.

Lemma client_close_conn_inv next c : conn_inv next c -> conn_inv next (conn_client_closed c).
Proof. inv_simpl. tauto. Qed.

Lemma set_context_conn_inv next c r :
  c_phase c = EpSessionStarted r -> conn_inv next c ->
  conn_inv next (conn_lifecycle c (EpContextSet r) (Some r) (c_ctx_out c) (c_ctx_in c)
                   (c_out c) (c_in c)).
Proof. intros Hp Hc. inv_simpl. rewrite Hp in *. intuition eauto. Qed.

Lemma create_tasks_conn_inv next c r :
  c_phase c = EpContextSet r -> conn_inv next c ->
  conn_inv next (conn_lifecycle c (EpRunning r) (c_ctx_ep c) (c_ctx_ep c) (c_ctx_ep c)
                   Running Running).
Proof.
  intros Hp Hc. inv_simpl. rewrite Hp in *.
  destruct Hc as ((He & Ho & Hi) & Hr & Hout & Hin). rewrite Ho in Hout. rewrite Hi in Hin.
  destruct Hout as (-> & -> & -> & ->). repeat split; tauto.
Qed.

(** [task.cancel()] keeps what the task has done. *)
Lemma cancel_out_inv c p ep o i si :
  out_inv c -> out_inv (conn_lifecycle c p ep o i (cancel (c_out c)) si).
Proof.
  unfold out_inv. conn_cbn. destruct (c_out c); cbn; try done.
  intros [Hs _]. rewrite <- Hs. by apply prefix_app_r.
Qed.

Lemma cancel_in_inv c p ep o i so :
  in_inv c -> in_inv (conn_lifecycle c p ep o i so (cancel (c_in c))).
Proof. unfold in_inv. conn_cbn. by destruct (c_in c). Qed.

Lemma finish_conn_inv next c r :
  c_phase c = EpRunning r -> conn_inv next c ->
  conn_inv next (conn_lifecycle c (EpClosed (Some r)) (c_ctx_ep c) (c_ctx_out c) (c_ctx_in c)
                   (cancel (c_out c)) (cancel (c_in c))).
Proof.
  intros Hp (Hctx & Hr & Hout & Hin).
  split; [|split; [|split]]; [| |by apply cancel_out_inv | by apply cancel_in_inv];
    conn_simpl; rewrite Hp in *; [|exact Hr].
  destruct Hctx as (_ & _ & _ & [->|[? ->]] & [->|[? ->]]); done.
Qed.

Lemma start_closed_conn_inv next c :
  c_phase c = EpAccepted -> conn_inv next c ->
  conn_inv next (conn_lifecycle c (EpClosed None) (c_ctx_ep c) None None NotCreated NotCreated).
Proof.
  intros Hp Hc. inv_simpl. rewrite Hp in *.
  destruct Hc as ((_ & Ho & Hi) & _ & Hout & Hin). rewrite Ho in Hout. rewrite Hi in Hin.
  repeat split; try tauto. by intros r.
Qed.

(** ** Each action keeps the invariant of the server *)

Lemma lookup_insert_conn (l : list Conn) i c c' j cj :
  l !! i = Some c -> <[i := c']> l !! j = Some cj ->
  (j = i /\ cj = c') \/ (j <> i /\ l !! j = Some cj).
Proof.
  intros Hi. rewrite list_lookup_insert. case_decide as H.
  - intros [= <-]. left. split; [symmetry; apply H | done].
  - intros Hj. right. split; [|done]. intros ->. apply H. split; [done|].
    by apply lookup_lt_Some in Hi.
Qed.

Lemma inv_update s s' i c c' :
  Inv s -> sv_conns s !! i = Some c ->
  sv_world s' = sv_world s -> sv_next s' = sv_next s -> sv_conns s' = <[i := c']> (sv_conns s) ->
  conn_inv (sv_next s) c' -> conn_ref c' = conn_ref c -> Inv s'.
Proof.
  intros [Hw Hf Hc Hd] Hi Ew En El Hc' Hr. constructor; rewrite ?Ew, ?En, ?El; [done|done| |].
  - intros j cj Hj. destruct (lookup_insert_conn _ _ _ _ _ _ Hi Hj) as [[-> ->]|[_ Hj']]; eauto.
  - intros j k cj ck r Hj Hk Hrj Hrk.
    destruct (lookup_insert_conn _ _ _ _ _ _ Hi Hj) as [[-> ->]|[_ Hj']];
    destruct (lookup_insert_conn _ _ _ _ _ _ Hi Hk) as [[-> ->]|[_ Hk']]; try done;
    rewrite ?Hr in *; eauto.
Qed.

Lemma connect_inv s sid a d evs se fs :
  Inv s ->
  Inv (mkServer (sv_world s) (sv_service s) (sv_conns s ++ [accepted sid a d evs se fs])
         (sv_log s ++ [connect_line sid a d]) (sv_next s)).
Proof.
  intros [Hw Hf Hc Hd]. constructor; cbn [sv_world sv_next sv_conns]; [done|done| |].
  - intros j cj [[_ Hj]|[_ <-]]%lookup_snoc_Some; eauto using accepted_conn_inv.
  - intros j k cj ck r [[_ Hj]|[_ <-]]%lookup_snoc_Some [[_ Hk]|[_ <-]]%lookup_snoc_Some;
      eauto; done.
Qed.

Lemma start_fresh_inv s i c svc log ns :
  Inv s -> sv_conns s !! i = Some c -> c_phase c = EpAccepted ->
  Inv (mkServer (set_heap (<[sv_next s := ns]> (w_heap (sv_world s))) (sv_world s)) svc
         (<[i := conn_lifecycle c (EpSessionStarted (sv_next s)) (c_ctx_ep c) None None
                   (c_out c) (c_in c)]> (sv_conns s))
         log (S (sv_next s))).
Proof.
  intros [Hw Hf Hc Hd] Hi Hp. constructor; cbn [sv_world sv_next sv_conns set_heap w_heap w_ctx].
  - done.
  - intros r Hr. rewrite lookup_insert_ne by lia. apply Hf. lia.
  - intros j cj Hj. destruct (lookup_insert_conn _ _ _ _ _ _ Hi Hj) as [[-> ->]|[_ Hj']].
    + pose proof (Hc _ _ Hi) as Hci. inv_simpl. rewrite Hp in *.
      destruct Hci as ((He & Ho & Hin) & _ & Hout & Hinv).
      repeat split; auto. intros r [= <-]. lia.
    + eapply conn_inv_mono, Hc, Hj'. lia.
  - assert (Hlt : forall j cj r, sv_conns s !! j = Some cj -> conn_ref cj = Some r -> r < sv_next s).
    { intros j cj r Hj Hr. by apply (proj1 (proj2 (Hc _ _ Hj))). }
    intros j k cj ck r Hj Hk Hrj Hrk.
    destruct (lookup_insert_conn _ _ _ _ _ _ Hi Hj) as [[-> ->]|[_ Hj']];
    destruct (lookup_insert_conn _ _ _ _ _ _ Hi Hk) as [[-> ->]|[_ Hk']]; try done;
    unfold conn_ref at 1 in Hrj; unfold conn_ref at 1 in Hrk; cbn in Hrj, Hrk;
      try (injection Hrj as <-); try (injection Hrk as <-);
      try (specialize (Hlt _ _ _ Hk' Hrk); lia);
      try (specialize (Hlt _ _ _ Hj' Hrj); lia); eauto.
Qed.

(** A tool the engine calls in connection [i]'s outbound task changes no
    session object but that connection's. *)
Lemma tool_call_frame rt s c r tc o w' :
  c_ctx_out c = Some r ->
  run_tool rt tc (set_ctx (c_ctx_out c) (sv_world s)) = (o, w') ->
  forall r', r' <> r -> w_heap w' !! r' = w_heap (sv_world s) !! r'.
Proof.
  intros Hc Hrun r' Hr'. rewrite Hc in Hrun.
  destruct (frames_run_tool (Some r) rt tc _ _ _ Hrun eq_refl) as [_ Hh].
  apply Hh. congruence.
Qed.

(** The outbound task of a reachable server runs in the context of its
    own connection's session object. *)
Lemma running_ctx_out s i c :
  Inv s -> sv_conns s !! i = Some c -> c_out c = Running ->
  exists r, c_phase c = EpRunning r /\ c_ctx_out c = Some r /\ r < sv_next s.
Proof.
  intros HI Hi Ho. destruct (inv_conns _ HI _ _ Hi) as (Hctx & Hr & _).
  destruct (out_running_phase c Hctx Ho) as [r Hp]. exists r.
  unfold ctx_inv in Hctx. rewrite Hp in Hctx. split; [done|split; [tauto|]].
  apply Hr. unfold conn_ref. by rewrite Hp.
Qed.

Lemma tool_guard c :
  is_running (c_out c) && bool_decide (c_pending c = []) && is_ok (c_event_end c) = true ->
  c_out c = Running.
Proof. intros [[Ho _]%andb_prop _]%andb_prop. by apply is_running_true. Qed.

Lemma tool_world_inv rt s i c tc o w' :
  Inv s -> sv_conns s !! i = Some c -> c_out c = Running ->
  run_tool rt tc (set_ctx (c_ctx_out c) (sv_world s)) = (o, w') ->
  Inv (mkServer (set_ctx (w_ctx (sv_world s)) w') (sv_service s) (sv_conns s)
         (sv_log s) (sv_next s)).
Proof.
  intros HI Hi Ho Hrun. destruct (running_ctx_out _ _ _ HI Hi Ho) as (r & _ & Hc & Hlt).
  destruct HI as [Hw Hf Hcs Hd]. constructor; cbn [sv_world sv_next sv_conns set_ctx w_ctx w_heap];
    try done.
  intros r' Hr'. rewrite (tool_call_frame rt s c r tc o w' Hc Hrun) by lia. by apply Hf.
Qed.

Lemma tool_call_inv rt s i c tc o w' :
  Inv s -> sv_conns s !! i = Some c -> c_out c = Running ->
  run_tool rt tc (set_ctx (c_ctx_out c) (sv_world s)) = (o, w') ->
  Inv (mkServer (set_ctx (w_ctx (sv_world s)) w') (sv_service s)
         (<[i := tool_stream c o]> (sv_conns s)) (sv_log s) (sv_next s)).
Proof.
  intros HI Hi Ho Hrun. pose proof (tool_world_inv _ _ _ _ _ _ _ HI Hi Ho Hrun) as HI1.
  eapply (inv_update _ _ i c (tool_stream c o) HI1); [exact Hi | done | done | done | |].
  - by apply tool_stream_conn_inv, (inv_conns _ HI _ _ Hi).
  - by destruct o.
Qed.

Lemma step_inv rt pol a s s' : Inv s -> server_step rt pol a s = Some s' -> Inv s'.
Proof.
  intros HI Hs. destruct a as [sid au dv evs se fs|i|i|i|i|i|i tc|i|i]; cbn [server_step] in Hs.
  { injection Hs as <-. by apply connect_inv. }
  all: destruct (sv_conns s !! i) as [c|] eqn:Hi; [|done].
  all: pose proof (inv_conns _ HI _ _ Hi) as Hc.
  - destruct (c_phase c) eqn:Hp; try done. injection Hs as <-.
    unfold start_session. destruct pol, (sv_service s !! c_sid c);
      try (by apply start_fresh_inv).
    eapply inv_update; [exact HI | exact Hi | done | done | done | |].
    { by apply start_closed_conn_inv. }
    unfold conn_ref. by rewrite Hp.
  - destruct (c_phase c) eqn:Hp; try done. injection Hs as <-.
    eapply inv_update; [exact HI | exact Hi | done | done | done | |].
    + by apply set_context_conn_inv.
    + unfold conn_ref. by rewrite Hp.
  - destruct (c_phase c) eqn:Hp; try done. injection Hs as <-.
    eapply inv_update; [exact HI | exact Hi | done | done | done | |].
    + by apply create_tasks_conn_inv.
    + unfold conn_ref. by rewrite Hp.
  - destruct (is_running (c_out c)) eqn:Ho; [|done]. apply is_running_true in Ho.
    injection Hs as <-.
    eapply inv_update; [exact HI | exact Hi | done | done | done | |].
    + by apply out_step_conn_inv.
    + unfold conn_ref. by rewrite out_step_phase.
  - destruct (is_running (c_in c)) eqn:Ho; [|done]. apply is_running_true in Ho.
    destruct (in_step c) as [c'|] eqn:Hin; [|done]. injection Hs as <-.
    eapply inv_update; [exact HI | exact Hi | done | done | done | |].
    + by eapply in_step_conn_inv.
    + by apply in_step_ref.
  - destruct (_ && _ && _) eqn:Hg; [|done]. apply tool_guard in Hg.
    destruct (run_tool rt tc (set_ctx (c_ctx_out c) (sv_world s))) as [o w'] eqn:Hrun.
    injection Hs as <-. by eapply tool_call_inv.
  - destruct (c_phase c) eqn:Hp; try done.
    destruct (task_done (c_out c) || task_done (c_in c)); [|done]. injection Hs as <-.
    eapply inv_update; [exact HI | exact Hi | done | done | done | |].
    + by apply finish_conn_inv.
    + unfold conn_ref. by rewrite Hp.
  - destruct (c_phase c) eqn:Hp; try done.
    all: destruct (c_client_open c); [|done]; injection Hs as <-.
    all: eapply inv_update; [exact HI | exact Hi | done | done | done | by apply client_close_conn_inv | done].
Qed.

Lemma init_inv clock : Inv (init_server clock).
Proof. by constructor. Qed.

Lemma reachable_inv rt pol clock s : reachable rt pol clock s -> Inv s.
Proof. induction 1; [apply init_inv | by eapply step_inv]. Qed.

Lemma run_app rt pol a1 a2 s :
  run rt pol (a1 ++ a2) s =
    match run rt pol a1 s with Some s' => run rt pol a2 s' | None => None end.
Proof.
  revert s. induction a1 as [|a a1 IH]; intros s; [done|]. simpl.
  destruct (server_step rt pol a s); [apply IH | done].
Qed.

Lemma run_reachable rt pol clock acts s s' :
  reachable rt pol clock s -> run rt pol acts s = Some s' -> reachable rt pol clock s'.
Proof.
  revert s. induction acts as [|a acts IH]; intros s Hr; simpl; [by intros [= <-]|].
  destruct (server_step rt pol a s) eqn:E; [|done]. intros H. eapply IH, H. by econstructor.
Qed.

(** ** What one action does to the other connections *)

Ltac step_cases Hs :=
  repeat match type of Hs with
  | context [match ?x with _ => _ end] => let E := fresh "E" in destruct x eqn:E; try done
  | context [_ <$> ?x] =>
      let E := fresh "E" in destruct x eqn:E; cbn [fmap option_fmap option_map] in Hs; try done
  end.

(** An action of connection [j] replaces that connection, in one of the
    ways [conn_moves] lists, and no other. *)
Lemma step_conn rt pol b j s s' :
  conn_of b = Some j -> server_step rt pol b s = Some s' ->
  exists cj cj', sv_conns s !! j = Some cj /\ sv_conns s' = <[j := cj']> (sv_conns s) /\
    conn_moves cj cj'.
Proof.
  intros Hb Hs. destruct b; cbn in Hb; try discriminate; injection Hb as <-; cbn [server_step] in Hs; step_cases Hs;
    injection Hs as <-; try (unfold start_session; destruct pol, (sv_service s !! c_sid c));
    (do 2 eexists; split; [reflexivity | split; [reflexivity | by econstructor]]).
Qed.

Lemma acts_on_conn_of i a : acts_on i a = true -> conn_of a = Some i.
Proof. destruct a; cbn; try done; by intros ->%Nat.eqb_eq. Qed.

Lemma local_on_conn_of i a : local_on i a = true -> conn_of a = Some i.
Proof. destruct a; cbn; try done; by intros ->%Nat.eqb_eq. Qed.

Lemma other_step_lookup rt pol b j i s s' :
  conn_of b = Some j -> i <> j -> server_step rt pol b s = Some s' ->
  sv_conns s' !! i = sv_conns s !! i.
Proof.
  intros Hb Hij Hs. destruct (step_conn _ _ _ _ _ _ Hb Hs) as (cj & cj' & _ & -> & _).
  by rewrite list_lookup_insert_ne.
Qed.

(** ** What the tasks of one connection do to the others *)

(** A connection whose endpoint returned has no task left to run: every
    action of its own is disabled, the client's close included. *)
Lemma closed_disabled rt pol a s i c o :
  Inv s -> sv_conns s !! i = Some c -> c_phase c = EpClosed o -> conn_of a = Some i ->
  server_step rt pol a s = None.
Proof.
  intros HI Hi Hp Ha. destruct (inv_conns _ HI _ _ Hi) as (Hctx & _).
  unfold ctx_inv in Hctx. rewrite Hp in Hctx. destruct Hctx as [Ho Hin].
  destruct a; cbn in Ha; try discriminate; injection Ha as <-; cbn [server_step];
    rewrite Hi; try rewrite Hp; try rewrite Ho; try rewrite Hin; reflexivity.
Qed.

(** An action of connection [j] changes no session object of another
    connection [i]: a new session object is fresh, and a tool reaches only
    the object of its own task's context. *)
Lemma other_step_heap rt pol b j s s' i c r :
  Inv s -> conn_of b = Some j -> i <> j -> sv_conns s !! i = Some c -> conn_ref c = Some r ->
  server_step rt pol b s = Some s' -> w_heap (sv_world s') !! r = w_heap (sv_world s) !! r.
Proof.
  intros HI Hb Hij Hi Hr Hs.
  assert (Hlt : r < sv_next s) by exact (proj1 (proj2 (inv_conns _ HI _ _ Hi)) r Hr).
  destruct b; cbn in Hb; try discriminate; injection Hb as <-; cbn [server_step] in Hs;
    step_cases Hs; injection Hs as <-; try done.
  all: try (unfold start_session; repeat case_match; cbn; (done || by rewrite lookup_insert_ne by lia)).
  match goal with
  | Hj : sv_conns s !! _ = Some ?cj, Hg : _ && _ && _ = true, Hrun : run_tool _ _ _ = (_, _) |- _ =>
      apply tool_guard in Hg; destruct (running_ctx_out _ _ _ HI Hj Hg) as (rj & Hpj & Hcj & _);
      cbn; apply (tool_call_frame _ _ _ _ _ _ _ Hcj Hrun); intros ->; apply Hij;
      eapply (inv_distinct _ HI); [exact Hi | exact Hj | exact Hr | unfold conn_ref; by rewrite Hpj]
  end.
Qed.

Lemma closed_conn_step rt pol a s s' i c r :
  Inv s -> sv_conns s !! i = Some c -> c_phase c = EpClosed (Some r) ->
  server_step rt pol a s = Some s' ->
  sv_conns s' !! i = Some c /\ w_heap (sv_world s') !! r = w_heap (sv_world s) !! r.
Proof.
  intros HI Hi Hp Hs. destruct (conn_of a) as [j|] eqn:Ha.
  - destruct (decide (i = j)) as [<-|Hij].
    { by rewrite (closed_disabled _ _ _ _ _ _ _ HI Hi Hp Ha) in Hs. }
    rewrite (other_step_lookup _ _ _ _ _ _ _ Ha Hij Hs). split; [done|].
    eapply other_step_heap; [exact HI | exact Ha | exact Hij | exact Hi | | exact Hs].
    unfold conn_ref. by rewrite Hp.
  - destruct a; try discriminate. injection Hs as <-. split; [|done]. cbn.
    rewrite lookup_app_l; [done|]. by apply lookup_lt_Some in Hi.
Qed.



(** ** Properties of the server *)

(** C26: Context propagation.  In every reachable server, once a
    connection's endpoint awaits its two pumps, both pump tasks hold that
    connection's own session object in [session_context]: the endpoint set
    the variable before creating the tasks, and each task copied the
    endpoint's context. *)
Theorem pump_tasks_hold_session rt pol clock s i c r :
  reachable rt pol clock s -> sv_conns s !! i = Some c -> c_phase c = EpRunning r ->
  c_ctx_out c = Some r /\ c_ctx_in c = Some r.
Proof.
  intros Hr Hi Hp. destruct (inv_conns _ (reachable_inv _ _ _ _ Hr) _ _ Hi) as [Hctx _].
  unfold ctx_inv in Hctx. rewrite Hp in Hctx. tauto.
Qed.

(** C27: Isolation across connections.  A tool the engine runs for
    connection [i] leaves the session object of every other connection
    unchanged, whatever the interleaving of the connections that led to
    the current state. *)
Theorem tool_call_other_sessions_unchanged rt pol clock s s' i tc j cj rj :
  reachable rt pol clock s -> server_step rt pol (ToolCall i tc) s = Some s' ->
  sv_conns s !! j = Some cj -> j <> i -> conn_ref cj = Some rj ->
  w_heap (sv_world s') !! rj = w_heap (sv_world s) !! rj.
Proof.
  intros Hr Hs Hj Hne Hrj.
  exact (other_step_heap _ _ (ToolCall i tc) i _ _ _ _ _ (reachable_inv _ _ _ _ Hr) eq_refl Hne Hj Hrj Hs).
Qed.

Lemma out_inv_sent c :
  out_inv c ->
  c_sent c `prefix_of` fst (agent_to_client_messaging (c_dev c) (c_events_done c)) /\
  (c_out c = Running ->
     c_sent c ++ c_pending c = fst (agent_to_client_messaging (c_dev c) (c_events_done c))) /\
  (forall o, c_out c = Done o -> o <> Raise WebSocketDisconnect ->
     (c_sent c, o) = live_messages (c_dev c) (c_events_done c) (c_stream_end c)).
Proof.
  unfold out_inv. destruct (c_out c) as [| | o |]; intros H.
  - destruct H as (_ & -> & _). split; [apply prefix_nil | done].
  - destruct H as [Hs _]. rewrite <- Hs. split; [by apply prefix_app_r | done].
  - destruct H as [Hp Ho]. split; [done|]. split; [done|]. intros o' [= <-]. tauto.
  - done.
Qed.

(** C28: Refinement of the outbound pump.  In every reachable server the
    messages a connection has delivered are a prefix of what
    [agent_to_client_messaging] gives on the events its outbound task took;
    while the task runs they are exactly that output minus the messages of
    the current event still to send; and once the task ended other than by
    a send failing on a closed client, they are the whole output on those
    events, ending as the engine's stream ended.  Interleaving with the
    inbound pump, with tools and with other connections changes nothing in
    what one pump sends. *)
Theorem outbound_pump_refines rt pol clock s i c :
  reachable rt pol clock s -> sv_conns s !! i = Some c ->
  c_sent c `prefix_of` fst (agent_to_client_messaging (c_dev c) (c_events_done c)) /\
  (c_out c = Running ->
     c_sent c ++ c_pending c = fst (agent_to_client_messaging (c_dev c) (c_events_done c))) /\
  (forall o, c_out c = Done o -> o <> Raise WebSocketDisconnect ->
     (c_sent c, o) = live_messages (c_dev c) (c_events_done c) (c_stream_end c)).
Proof.
  intros Hr Hi. apply out_inv_sent.
  by destruct (inv_conns _ (reachable_inv _ _ _ _ Hr) _ _ Hi) as (_ & _ & Ho & _).
Qed.

(** C29: Refinement of the inbound pump.  In every reachable server a
    connection's queued requests are what [client_to_agent_messaging]
    gives on the frames its inbound task has received: the exception that
    ended the task if it ended, and otherwise the requests that the loop
    would have queued before the client's disconnect. *)
Theorem inbound_pump_refines rt pol clock s i c :
  reachable rt pol clock s -> sv_conns s !! i = Some c ->
  match c_in c with
  | Done (Raise e) => client_to_agent_messaging (c_frames_done c) = (c_queued c, e)
  | Done (Ok _) => False
  | _ => client_to_agent_messaging (c_frames_done c) = (c_queued c, WebSocketDisconnect)
  end.
Proof.
  intros Hr Hi. destruct (inv_conns _ (reachable_inv _ _ _ _ Hr) _ _ Hi) as (_ & _ & _ & Hin).
  unfold in_inv in Hin.
  assert (Hrun : forallb frame_ok (c_frames_done c) = true ->
                 client_to_agent_messaging (c_frames_done c) =
                   (queued (c_frames_done c), WebSocketDisconnect)).
  { intros Hok. rewrite <- (app_nil_r (c_frames_done c)) at 1.
    rewrite client_to_agent_messaging_app by done. simpl. by rewrite app_nil_r. }
  destruct (c_in c) as [| |[]|]; try done;
    destruct Hin as [Hok Hq]; rewrite Hq; by apply Hrun.
Qed.

(** C30: No writes after close.  Once a connection's endpoint has
    returned, no later action of any connection changes that connection
    (what it sent or queued, its tasks, its client) nor the state of its
    session object: the endpoint cancelled the pump still running, so no
    task of its own is left, and no other connection's tool can reach its
    session. *)
Theorem closed_connection_frozen rt pol clock s i c r acts s' :
  reachable rt pol clock s -> sv_conns s !! i = Some c -> c_phase c = EpClosed (Some r) ->
  run rt pol acts s = Some s' ->
  sv_conns s' !! i = Some c /\ w_heap (sv_world s') !! r = w_heap (sv_world s) !! r.
Proof.
  intros Hr. pose proof (reachable_inv _ _ _ _ Hr) as HI. clear Hr.
  revert s HI. induction acts as [|a acts IH]; intros s HI Hi Hp Hrun; simpl in Hrun.
  - by injection Hrun as <-.
  - destruct (server_step rt pol a s) as [s1|] eqn:Hs; [|done].
    destruct (closed_conn_step _ _ _ _ _ _ _ _ HI Hi Hp Hs) as [Hi1 Hh1].
    destruct (IH s1 (step_inv _ _ _ _ _ HI Hs) Hi1 Hp Hrun) as [Hi2 Hh2].
    split; [done|]. by rewrite Hh2.
Qed.


(** ** Every connection can close *)

Lemma run_cons rt pol a acts s s1 s' :
  server_step rt pol a s = Some s1 -> run rt pol acts s1 = Some s' ->
  run rt pol (a :: acts) s = Some s'.
Proof. intros H1 H2. simpl. by rewrite H1. Qed.

Lemma can_close_step rt pol a s s1 i n :
  acts_on i a = true -> server_step rt pol a s = Some s1 -> can_close rt pol s1 i n ->
  can_close rt pol s i (S n).
Proof.
  intros Ha Hs (acts & s' & c' & Hon & Hlen & Hr & Hi & Hc). exists (a :: acts), s', c'.
  simpl. rewrite Ha, Hon. repeat split; [lia | by eapply run_cons | done | done].
Qed.

Lemma can_close_weaken rt pol s i n m : n <= m -> can_close rt pol s i n -> can_close rt pol s i m.
Proof.
  intros Hle (acts & s' & c' & H1 & H2 & H3 & H4 & H5). exists acts, s', c'.
  repeat split; try done. lia.
Qed.

Lemma set_conn_lookup s i c c' :
  sv_conns s !! i = Some c -> sv_conns (set_conn s i c') !! i = Some c'.
Proof. intros H. apply list_lookup_insert_eq. by apply lookup_lt_Some in H. Qed.

(** Each await of the outbound task uses up one unit of [out_work], or
    ends the task. *)
Lemma out_step_progress c :
  (c_out (out_step c) = Running /\ out_work (out_step c) < out_work c) \/
  task_done (c_out (out_step c)) = true.
Proof.
  unfold out_step, out_work. destruct (c_pending c) as [|m ms].
  - destruct (c_event_end c); [|by right]. destruct (c_events c) as [|ev evs]; [by right|].
    destruct (event_messages (c_dev c) ev) as [ms o] eqn:E. left. conn_cbn. simpl. rewrite E. simpl. split; [done | lia].
  - destruct (c_client_open c); [left | by right]. conn_cbn. simpl. split; [done | lia].
Qed.

Lemma finish_closes rt pol s i c r :
  sv_conns s !! i = Some c -> c_phase c = EpRunning r -> task_done (c_out c) = true ->
  can_close rt pol s i 1.
Proof.
  intros Hi Hp Ho. eexists [Finish i], _, _. cbn [forallb acts_on List.length].
  rewrite Nat.eqb_refl. repeat split; [lia| | |].
  - cbn. rewrite Hi, Hp, Ho. reflexivity.
  - apply list_lookup_insert_eq. by apply lookup_lt_Some in Hi.
  - done.
Qed.

Lemma out_loop_closes rt pol n s i c r :
  sv_conns s !! i = Some c -> c_phase c = EpRunning r -> c_out c = Running ->
  out_work c < n -> can_close rt pol s i (S n).
Proof.
  revert s c. induction n as [|n IH]; intros s c Hi Hp Ho Hn; [lia|].
  apply (can_close_step rt pol (OutStep i) s (set_conn s i (out_step c))).
  { simpl. apply Nat.eqb_refl. }
  { cbn. by rewrite Hi, Ho. }
  pose proof (set_conn_lookup s i c (out_step c) Hi) as Hi1.
  destruct (out_step_progress c) as [[Ho1 Hlen]|Hd].
  - eapply IH; [exact Hi1 | by rewrite out_step_phase | exact Ho1 | lia].
  - eapply can_close_weaken, finish_closes; [lia | exact Hi1 | by rewrite out_step_phase | exact Hd].
Qed.

Lemma running_closes rt pol s i c r :
  Inv s -> sv_conns s !! i = Some c -> c_phase c = EpRunning r ->
  can_close rt pol s i (out_work c + 2).
Proof.
  intros HI Hi Hp. destruct (inv_conns _ HI _ _ Hi) as [Hctx _].
  unfold ctx_inv in Hctx. rewrite Hp in Hctx. destruct Hctx as (_ & _ & _ & [Ho|[o Ho]] & _).
  - eapply can_close_weaken, (out_loop_closes rt pol (S (out_work c)));
      [lia | exact Hi | exact Hp | exact Ho | lia].
  - eapply can_close_weaken, finish_closes; [lia | exact Hi | exact Hp | by rewrite Ho].
Qed.

Lemma context_set_closes rt pol s i c r :
  Inv s -> sv_conns s !! i = Some c -> c_phase c = EpContextSet r ->
  can_close rt pol s i (out_work c + 3).
Proof.
  intros HI Hi Hp. set (c1 := conn_lifecycle c (EpRunning r) (c_ctx_ep c) (c_ctx_ep c)
                                (c_ctx_ep c) Running Running).
  assert (Hs : server_step rt pol (CreateTasks i) s = Some (set_conn s i c1)).
  { cbn. by rewrite Hi, Hp. }
  rewrite Nat.add_succ_r. apply (can_close_step _ _ (CreateTasks i) _ _ _ _ (Nat.eqb_refl i) Hs).
  change (out_work c) with (out_work c1).
  eapply running_closes; [exact (step_inv _ _ _ _ _ HI Hs) | by apply (set_conn_lookup s i c) | done].
Qed.

Lemma session_started_closes rt pol s i c r :
  Inv s -> sv_conns s !! i = Some c -> c_phase c = EpSessionStarted r ->
  can_close rt pol s i (out_work c + 4).
Proof.
  intros HI Hi Hp. set (c1 := conn_lifecycle c (EpContextSet r) (Some r) (c_ctx_out c)
                                (c_ctx_in c) (c_out c) (c_in c)).
  assert (Hs : server_step rt pol (SetContext i) s = Some (set_conn s i c1)).
  { cbn. by rewrite Hi, Hp. }
  rewrite Nat.add_succ_r. apply (can_close_step _ _ (SetContext i) _ _ _ _ (Nat.eqb_refl i) Hs).
  change (out_work c) with (out_work c1).
  eapply context_set_closes; [exact (step_inv _ _ _ _ _ HI Hs) | by apply (set_conn_lookup s i c) | done].
Qed.

Lemma accepted_closes rt pol s i c :
  Inv s -> sv_conns s !! i = Some c -> c_phase c = EpAccepted ->
  can_close rt pol s i (out_work c + 5).
Proof.
  intros HI Hi Hp.
  assert (Hs : server_step rt pol (StartSession i) s = Some (start_session pol s i c)).
  { cbn. by rewrite Hi, Hp. }
  rewrite Nat.add_succ_r. apply (can_close_step _ _ (StartSession i) _ _ _ _ (Nat.eqb_refl i) Hs).
  pose proof (step_inv _ _ _ _ _ HI Hs) as HI1.
  assert (Hlt : i < List.length (sv_conns s)) by (by apply lookup_lt_Some in Hi).
  unfold start_session in *. destruct pol, (sv_service s !! c_sid c).
  all: try (change (out_work c) with (out_work
               (conn_lifecycle c (EpSessionStarted (sv_next s)) (c_ctx_ep c) None None
                  (c_out c) (c_in c)));
            eapply session_started_closes;
            [exact HI1 | apply list_lookup_insert_eq; exact Hlt | reflexivity]).
  eexists [], _, _. split; [done|]. split; [simpl; lia|]. split; [reflexivity|].
  split; [apply list_lookup_insert_eq; exact Hlt | done].
Qed.

(** C31: Liveness with a bound.  In every reachable server, each
    connection can be brought to a close by its own tasks alone, in at
    most five actions more than the awaits its outbound task has left
    ([out_work]: one per message of the current event still to send, one
    per engine event still to take and one per message of it): the session
    is started, the context set, the tasks created, the outbound pump runs
    to the end of the stream (or to an exception), and the endpoint
    returns.  Other connections and the client never have to move. *)
Theorem connection_can_close rt pol clock s i c :
  reachable rt pol clock s -> sv_conns s !! i = Some c ->
  can_close rt pol s i (out_work c + 5).
Proof.
  intros Hr Hi. pose proof (reachable_inv _ _ _ _ Hr) as HI.
  destruct (c_phase c) eqn:Hp.
  - by eapply accepted_closes.
  - eapply can_close_weaken; [|eapply session_started_closes; [exact HI | exact Hi | exact Hp]]; lia.
  - eapply can_close_weaken; [|eapply context_set_closes; [exact HI | exact Hi | exact Hp]]; lia.
  - eapply can_close_weaken; [|eapply running_closes; [exact HI | exact Hi | exact Hp]]; lia.
  - exists [], s, c. repeat split; try done; try (simpl; lia). unfold conn_closed. by rewrite Hp.
Qed.

(** ** The endpoint's prints *)

Lemma last_char_app a b : b <> EmptyString -> last_char (a +s+ b) = last_char b.
Proof.
  intros Hb. induction a as [|x a IH]; [by rewrite string_app_nil_l|].
  rewrite string_app_cons. simpl. rewrite <- IH.
  destruct (a +s+ b) eqn:E; [|done]. destruct a; [by rewrite string_app_nil_l in E | done].
Qed.

Lemma app_nonempty_r a b : b <> EmptyString -> a +s+ b <> EmptyString.
Proof. destruct a; [by rewrite string_app_nil_l | by rewrite string_app_cons]. Qed.

Ltac nonempty := repeat (apply app_nonempty_r); discriminate.

Lemma clean_line_last sid : last_char (clean_line sid) = Some "."%char.
Proof. unfold clean_line. rewrite !last_char_app by nonempty. reflexivity. Qed.

Lemma connect_line_not_clean sid a d : not_clean_line (connect_line sid a d).
Proof.
  intros sid' H. apply (f_equal last_char) in H. rewrite clean_line_last in H.
  unfold connect_line in H. destruct d; rewrite !last_char_app in H by nonempty; discriminate.
Qed.

Lemma clean_line_cons sid :
  clean_line sid = String "C" (String "l" ("ient #" +s+ sid +s+ " disconnected cleanly.")).
Proof. reflexivity. Qed.

Lemma endpoint_exit_not_clean sid o :
  o <> Raise WebSocketDisconnect -> Forall not_clean_line (endpoint_exit sid o).
Proof.
  intros Ho. unfold endpoint_exit. apply Forall_app. split.
  - destruct o as [|[]]; try done; repeat constructor; intros sid'; rewrite clean_line_cons;
      discriminate.
  - repeat constructor. intros sid'. rewrite clean_line_cons. unfold closed_line.
    rewrite string_app_cons. intros [=].
Qed.

Lemma step_log_not_clean rt pol a s s' :
  server_step rt pol a s = Some s' ->
  exists new, sv_log s' = sv_log s ++ new /\ Forall not_clean_line new.
Proof.
  intros Hs. destruct a; cbn [server_step] in Hs; step_cases Hs; injection Hs as <-;
    try (eexists []; split; [by rewrite app_nil_r | done]); cbn [sv_log set_conn].
  - eexists. split; [reflexivity|]. repeat constructor. apply connect_line_not_clean.
  - unfold start_session. destruct pol, (sv_service s !! c_sid c); cbn [sv_log];
      (eexists; split; [reflexivity|]);
      try (by apply endpoint_exit_not_clean);
      repeat constructor; intros sid'; rewrite clean_line_cons; by destruct (c_audio c).
  - eexists. split; [reflexivity|]. by apply endpoint_exit_not_clean.
Qed.

(** C32: The clean-disconnect branch is dead.  In every reachable server no
    line the endpoint printed is [Client #<id> disconnected cleanly.], even
    for connections whose client closed the socket: the inbound pump's
    [WebSocketDisconnect] ends its task, [asyncio.wait] returns it as done
    without raising it, and [run_tasks_with_context] returns normally. *)
Theorem no_clean_disconnect_line rt pol clock s :
  reachable rt pol clock s -> Forall not_clean_line (sv_log s).
Proof.
  induction 1 as [|a s s' Hr IH Hs]; [constructor|].
  destruct (step_log_not_clean _ _ _ _ _ Hs) as (new & -> & Hnew). by apply Forall_app.
Qed.

(** ** The session service *)

Lemma step_service_kept rt pol a s s' sid :
  server_step rt pol a s = Some s' -> is_Some (sv_service s !! sid) ->
  is_Some (sv_service s' !! sid).
Proof.
  intros Hs Hk. destruct a; cbn [server_step] in Hs; step_cases Hs; injection Hs as <-;
    try done.
  unfold start_session. destruct pol, (sv_service s !! c_sid c); cbn [sv_service]; try done;
    rewrite lookup_insert; case_decide; done.
Qed.

(** C33: Sessions are never deleted.  Along any run, a session id that
    [session_service] stores stays stored, after its connection has closed
    too: nothing in main.py calls [delete_session], so the service keeps
    one session per id ever connected. *)
Theorem sessions_never_deleted rt pol acts s s' sid :
  run rt pol acts s = Some s' -> is_Some (sv_service s !! sid) ->
  is_Some (sv_service s' !! sid).
Proof.
  revert s. induction acts as [|a acts IH]; intros s Hr Hk; simpl in Hr; [by injection Hr as <-|].
  destruct (server_step rt pol a s) as [s1|] eqn:Hs; [|done].
  eapply IH; [exact Hr | by eapply step_service_kept].
Qed.

(** C34: Reconnecting under an id already used.  With a session service
    that raises [AlreadyExistsError] on a stored id, a new connection under
    an id that an earlier connection used ends at [start_agent_session]:
    the endpoint prints the error and the closing line, creates no task
    and no session object, and leaves the world unchanged. *)
Theorem reconnect_same_id_refused rt s i c sess :
  sv_conns s !! i = Some c -> c_phase c = EpAccepted -> sv_service s !! c_sid c = Some sess ->
  exists s', server_step rt RaiseAlreadyExists (StartSession i) s = Some s' /\
    sv_conns s' !! i =
      Some (conn_lifecycle c (EpClosed None) (c_ctx_ep c) None None NotCreated NotCreated) /\
    sv_log s' = sv_log s ++
      ["An error occurred in the websocket endpoint for client #" +s+ c_sid c +s+ ": "
         +s+ "Session with id " +s+ c_sid c +s+ " already exists."; closed_line (c_sid c)] /\
    sv_world s' = sv_world s /\ sv_next s' = sv_next s.
Proof.
  intros Hi Hp Hsv. eexists. split; [cbn; rewrite Hi, Hp; reflexivity|].
  unfold start_session. rewrite Hsv. cbn [sv_conns sv_log sv_world sv_next].
  split; [apply list_lookup_insert_eq; by apply lookup_lt_Some in Hi|]. done.
Qed.

(** C36: Reconnecting under an id already used, with a session service
    that replaces the stored session.  Starting the session of a new
    connection makes a fresh session object: it is not the object of any
    other connection (in particular of an earlier connection under the same
    id, which keeps its object and the state in it), and the service now
    stores an empty session under the id. *)
Theorem reconnect_gets_fresh_session rt clock s i c j cj rj :
  reachable rt Overwrite clock s ->
  sv_conns s !! i = Some c -> c_phase c = EpAccepted ->
  sv_conns s !! j = Some cj -> conn_ref cj = Some rj ->
  exists s' r, server_step rt Overwrite (StartSession i) s = Some s' /\
    (c_phase <$> sv_conns s' !! i) = Some (EpSessionStarted r) /\ r <> rj /\
    w_heap (sv_world s') !! rj = w_heap (sv_world s) !! rj /\
    w_heap (sv_world s') !! r = Some (new_session (c_sid c)) /\
    sv_service s' !! c_sid c = Some (new_session (c_sid c)).
Proof.
  intros Hr Hi Hp Hj Hrj.
  destruct (inv_conns _ (reachable_inv _ _ _ _ Hr) _ _ Hj) as (_ & Hlt & _).
  specialize (Hlt _ Hrj).
  eexists _, (sv_next s). split; [cbn; rewrite Hi, Hp; reflexivity|].
  cbn [start_session sv_conns sv_world sv_service w_heap set_heap].
  rewrite list_lookup_insert_eq by (by apply lookup_lt_Some in Hi).
  rewrite lookup_insert_ne, lookup_insert_eq, lookup_insert_eq by lia.
  repeat split; done || lia.
Qed.

(** ** Independence of the connections *)

(** A local action of connection [i] reads only that connection and
    replaces it, whatever the rest of the server. *)
Lemma local_step_frame rt pol a i s s' :
  local_on i a = true -> sv_conns s' !! i = sv_conns s !! i ->
  exists oc, server_step rt pol a s = set_conn s i <$> oc /\
             server_step rt pol a s' = set_conn s' i <$> oc.
Proof.
  intros Ha Hl. destruct a as [| j | j | j | j | j | j | j | j]; try discriminate;
    apply Nat.eqb_eq in Ha as ->; cbn [server_step]; rewrite Hl;
    destruct (sv_conns s !! i) as [c|]; try (exists None; done);
    repeat (match goal with |- context [match ?x with _ => _ end] => destruct x end);
    try (exists None; done); try (eexists (Some _); done).
  exists (in_step c). done.
Qed.

(** An action of connection [j] commutes with replacing another
    connection [i]. *)
Lemma other_step_set_conn rt pol b j i s c :
  conn_of b = Some j -> i <> j ->
  server_step rt pol b (set_conn s i c) = (fun s' => set_conn s' i c) <$> server_step rt pol b s.
Proof.
  intros Hb Hij. destruct b; cbn in Hb; try discriminate; injection Hb as <-;
    cbn [server_step]; unfold set_conn, start_session;
    cbn [sv_world sv_service sv_conns sv_log sv_next];
    rewrite list_lookup_insert_ne by done; destruct (sv_conns s !! _) as [cj|]; try done;
    repeat case_match; try destruct (in_step _); cbn [fmap option_fmap option_map]; try done;
    by rewrite list_insert_insert_ne.
Qed.

(** C38: The connections are independent.  A local step of connection
    [i] (setting its context, creating its tasks, one await of either
    pump, its client closing the socket) commutes with any action of
    another connection [j]: in both orders the two actions are enabled
    together and lead to the same server, so the interleaving of one
    connection's relay with the others does not matter. *)
Theorem local_steps_commute rt pol a b i j s :
  local_on i a = true -> acts_on j b = true -> i <> j ->
  (server_step rt pol a s ≫= server_step rt pol b) =
  (server_step rt pol b s ≫= server_step rt pol a).
Proof.
  intros Ha Hb Hij. apply acts_on_conn_of in Hb.
  destruct (server_step rt pol b s) as [s'|] eqn:Hs; cbn.
  - destruct (local_step_frame rt pol a i s s' Ha (other_step_lookup _ _ _ _ _ _ _ Hb Hij Hs))
      as [[c|] [-> ->]]; cbn; [|done].
    by rewrite (other_step_set_conn _ _ _ _ _ _ _ Hb Hij), Hs.
  - destruct (local_step_frame rt pol a i s s Ha eq_refl) as [[c|] [-> _]]; cbn; [|done].
    by rewrite (other_step_set_conn _ _ _ _ _ _ _ Hb Hij), Hs.
Qed.

(** ** The session service stays empty *)

Lemma step_service_empty rt pol a s s' :
  server_step rt pol a s = Some s' ->
  (forall sid sess, sv_service s !! sid = Some sess -> sess_state sess = ∅) ->
  forall sid sess, sv_service s' !! sid = Some sess -> sess_state sess = ∅.
Proof.
  intros Hs Hall. destruct a; cbn [server_step] in Hs; step_cases Hs; injection Hs as <-;
    try exact Hall.
  unfold start_session. destruct pol, (sv_service s !! c_sid c); cbn [sv_service]; try exact Hall;
    (intros sid sess; rewrite lookup_insert; case_decide; [intros [= <-]; done | apply Hall]).
Qed.

(** C35: The stored sessions stay empty.  In every reachable server, every
    session [session_service] stores has an empty [state]: the endpoint
    binds the deep copy [create_session] returned, and the tools write the
    recap into that copy only.  A later connection that reads the service's
    session (a reconnect when the service overwrites) starts from an empty
    state. *)
Theorem service_sessions_stay_empty rt pol clock s sid sess :
  reachable rt pol clock s -> sv_service s !! sid = Some sess -> sess_state sess = ∅.
Proof.
  intros Hr. revert sid sess. induction Hr as [|a s s' Hr IH Hs]; [done|].
  by eapply step_service_empty.
Qed.

(** ** Witnesses *)

Lemma demo_reachable acts :
  run None Overwrite acts (init_server demo_clock) = Some (demo_state acts) ->
  reachable None Overwrite demo_clock (demo_state acts).
Proof. intros H. eapply run_reachable; [constructor | exact H]. Qed.

Lemma demo_tasks_reachable : reachable None Overwrite demo_clock demo_tasks.
Proof. apply demo_reachable. vm_compute. reflexivity. Qed.

Lemma demo_mid_reachable : reachable None Overwrite demo_clock demo_mid.
Proof. apply demo_reachable. vm_compute. reflexivity. Qed.

Lemma demo_end_reachable : reachable None Overwrite demo_clock demo_end.
Proof. apply demo_reachable. vm_compute. reflexivity. Qed.

Lemma pump_tasks_hold_session_witness :
  c_ctx_out (demo_conn demo_mid 1) = Some 1 /\ c_ctx_in (demo_conn demo_mid 1) = Some 1.
Proof.
  apply (pump_tasks_hold_session None Overwrite demo_clock demo_mid 1 (demo_conn demo_mid 1) 1);
    [exact demo_mid_reachable | vm_compute; reflexivity | vm_compute; reflexivity].
Defined.

Lemma tool_call_other_sessions_unchanged_witness :
  w_heap (sv_world (demo_state (demo_tasks_acts ++ [ToolCall 0 CallEmail]))) !! 1 =
    w_heap (sv_world demo_tasks) !! 1.
Proof.
  apply (tool_call_other_sessions_unchanged None Overwrite demo_clock demo_tasks _ 0 CallEmail
           1 (demo_conn demo_tasks 1) 1);
    [exact demo_tasks_reachable | vm_compute; reflexivity | vm_compute; reflexivity | lia
    | vm_compute; reflexivity].
Defined.

Lemma outbound_pump_refines_witness :
  c_sent (demo_conn demo_mid 1) `prefix_of`
    fst (agent_to_client_messaging (c_dev (demo_conn demo_mid 1))
           (c_events_done (demo_conn demo_mid 1))) /\
  (c_out (demo_conn demo_mid 1) = Running ->
     c_sent (demo_conn demo_mid 1) ++ c_pending (demo_conn demo_mid 1) =
       fst (agent_to_client_messaging (c_dev (demo_conn demo_mid 1))
              (c_events_done (demo_conn demo_mid 1)))) /\
  (forall o, c_out (demo_conn demo_mid 1) = Done o -> o <> Raise WebSocketDisconnect ->
     (c_sent (demo_conn demo_mid 1), o) =
       live_messages (c_dev (demo_conn demo_mid 1)) (c_events_done (demo_conn demo_mid 1))
         (c_stream_end (demo_conn demo_mid 1))).
Proof.
  apply (outbound_pump_refines None Overwrite demo_clock demo_mid 1);
    [exact demo_mid_reachable | vm_compute; reflexivity].
Defined.


Lemma inbound_pump_refines_witness :
  client_to_agent_messaging (c_frames_done (demo_conn demo_mid 0)) =
    (c_queued (demo_conn demo_mid 0), WebSocketDisconnect).
Proof.
  pose proof (inbound_pump_refines None Overwrite demo_clock demo_mid 0 (demo_conn demo_mid 0)
                demo_mid_reachable ltac:(vm_compute; reflexivity)) as H.
  vm_compute in H. vm_compute. exact H.
Defined.

Lemma closed_connection_frozen_witness :
  sv_conns (demo_state (demo_mid_acts ++ Finish 0 :: demo_bob_acts)) !! 0 =
    Some (demo_conn demo_end 0) /\
  w_heap (sv_world (demo_state (demo_mid_acts ++ Finish 0 :: demo_bob_acts))) !! 0 =
    w_heap (sv_world demo_end) !! 0.
Proof.
  apply (closed_connection_frozen None Overwrite demo_clock demo_end 0 (demo_conn demo_end 0) 0
           demo_bob_acts);
    [exact demo_end_reachable | vm_compute; reflexivity | vm_compute; reflexivity
    | vm_compute; reflexivity].
Defined.

Lemma connection_can_close_witness :
  can_close None Overwrite demo_mid 1 (out_work (demo_conn demo_mid 1) + 5).
Proof.
  apply (connection_can_close None Overwrite demo_clock demo_mid 1);
    [exact demo_mid_reachable | vm_compute; reflexivity].
Defined.

Lemma no_clean_disconnect_line_witness : Forall not_clean_line (sv_log demo_end).
Proof. apply (no_clean_disconnect_line None Overwrite demo_clock). exact demo_end_reachable. Defined.

Lemma sessions_never_deleted_witness : is_Some (sv_service demo_end !! "alice").
Proof.
  apply (sessions_never_deleted None Overwrite [Finish 0] demo_mid);
    [vm_compute; reflexivity | eexists; vm_compute; reflexivity].
Defined.

(** [alice] connects again after her first connection closed. *)

Lemma reconnect_same_id_refused_witness :
  exists s', server_step None RaiseAlreadyExists (StartSession 2) demo_reconnect = Some s' /\
    sv_conns s' !! 2 =
      Some (conn_lifecycle (demo_conn demo_reconnect 2) (EpClosed None) None None None
              NotCreated NotCreated) /\
    sv_log s' = sv_log demo_reconnect ++
      ["An error occurred in the websocket endpoint for client #alice: Session with id alice already exists.";
       closed_line "alice"] /\
    sv_world s' = sv_world demo_reconnect /\ sv_next s' = sv_next demo_reconnect.
Proof.
  apply (reconnect_same_id_refused None demo_reconnect 2 (demo_conn demo_reconnect 2)
           (new_session "alice"));
    vm_compute; reflexivity.
Defined.

Lemma service_sessions_stay_empty_witness :
  sess_state (new_session "alice") = ∅ /\ w_heap (sv_world demo_end) !! 0 <> Some (new_session "alice").
Proof.
  split.
  - apply (service_sessions_stay_empty None Overwrite demo_clock demo_end "alice");
      [exact demo_end_reachable | vm_compute; reflexivity].
  - vm_compute. discriminate.
Defined.

Lemma reconnect_gets_fresh_session_witness :
  exists s' r, server_step None Overwrite (StartSession 2) demo_overwrite = Some s' /\
    (c_phase <$> sv_conns s' !! 2) = Some (EpSessionStarted r) /\ r <> 0 /\
    w_heap (sv_world s') !! 0 = w_heap (sv_world demo_overwrite) !! 0 /\
    w_heap (sv_world s') !! r = Some (new_session "alice") /\
    sv_service s' !! "alice" = Some (new_session "alice").
Proof.
  apply (reconnect_gets_fresh_session None demo_clock demo_overwrite 2
           (demo_conn demo_overwrite 2) 0 (demo_conn demo_overwrite 0) 0);
    [apply demo_reachable | ..]; vm_compute; reflexivity.
Defined.

Lemma local_steps_commute_witness :
  is_Some (server_step None Overwrite (OutStep 0) demo_mid ≫= server_step None Overwrite (InStep 1)) /\
  (server_step None Overwrite (OutStep 0) demo_mid ≫= server_step None Overwrite (InStep 1)) =
  (server_step None Overwrite (InStep 1) demo_mid ≫= server_step None Overwrite (OutStep 0)).
Proof.
  split; [eexists; vm_compute; reflexivity|].
  apply (local_steps_commute None Overwrite (OutStep 0) (InStep 1) 0 1 demo_mid);
    [reflexivity | reflexivity | lia].
Defined.
