(* ===== verification/App.v ===== *)
(** * App: the FastAPI application of main.py

    main.py builds [app = FastAPI()], adds a CORS middleware that allows
    every origin, method and header with credentials, mounts the static
    files of [frontend/static] at [/static], serves [index.html] at [/]
    and declares the websocket route [/ws/{session_id}], whose endpoint
    takes the path parameter [session_id] and the query parameters
    [is_audio] and [dev_mode], booleans that default to [False].

    Starlette tries the routes in the order they were added; a mount
    matches the paths under its prefix, [@app.get] a GET of its exact path
    and a websocket route the websocket requests whose path matches its
    pattern, a [{name}] parameter standing for one non-empty path segment.
    FastAPI then validates the query parameters: a boolean accepts
    [1 on t true y yes] and [0 off f false n no] in any case, and the last
    occurrence of a repeated parameter counts; a websocket whose
    parameters do not validate is closed (code 1008) before the endpoint
    runs.  The request is the decoded path with its query; the answer is
    the file served, a refusal, or the call of [websocket_endpoint] with
    its arguments, which is the [Connect] action of [Server].  Theorems:
    the requests that reach the endpoint (C25), and the refusal of a flag
    that does not validate (C40). *)

From S2P Require Import Prelude PyStr PyValue Runtime Session Retrieval SalesTools Json JsonDecode Base64 Relay Server.

Open Scope sc_scope.

(** ** The application *)

Definition STATIC_DIR : string := "frontend/static".

Record CORSMiddleware := mkCORSMiddleware {
  allow_origins : list string;
  allow_credentials : bool;
  allow_methods : list string;
  allow_headers : list string
}.

Definition app_cors : CORSMiddleware := mkCORSMiddleware ["*"] true ["*"] ["*"].

Inductive Route :=
| Mount (prefix directory : string)  (** [app.mount(prefix, StaticFiles(directory=...))] *)
| Get (path file : string)           (** [@app.get(path)] answering [FileResponse(file)] *)
| WebSocketRoute (prefix : string).  (** [@app.websocket(prefix + "{session_id}")] *)

(** The routes in the order main.py adds them. *)
Definition app_routes : list Route :=
  [Mount "/static" STATIC_DIR;
   Get "/" (STATIC_DIR +s+ "/index.html");
   WebSocketRoute "/ws/"].

Inductive Request :=
| HttpGet (path : string)
| WsConnect (path : string) (query : list (string * string)).

Inductive Response :=
| ServeFile (file : string)
| NotFound                          (** 404, or the websocket closed before accept *)
| ValidationClose                   (** the websocket closed with 1008 *)
| Endpoint (session_id : string) (is_audio dev_mode : bool).

(** ** Parameters *)

Definition ascii_lower (c : ascii) : ascii :=
  let n := nat_of_ascii c in
  if (65 <=? n) && (n <=? 90) then ascii_of_nat (n + 32) else c.

Fixpoint str_lower (s : string) : string :=
  match s with
  | EmptyString => EmptyString
  | String c s' => String (ascii_lower c) (str_lower s')
  end.

(** A boolean query parameter as FastAPI validates it. *)
Definition parse_bool (s : string) : option bool :=
  let l := str_lower s in
  if bool_decide (l ∈ ["1"; "on"; "t"; "true"; "y"; "yes"]) then Some true
  else if bool_decide (l ∈ ["0"; "off"; "f"; "false"; "n"; "no"]) then Some false
  else None.

(** The last value of a query parameter. *)
Definition query_get (q : list (string * string)) (k : string) : option string :=
  fold_left (fun acc kv => if String.eqb kv.1 k then Some kv.2 else acc) q None.

(** [name: bool = False] *)
Definition bool_param (q : list (string * string)) (k : string) : option bool :=
  match query_get q k with
  | None => Some false
  | Some v => parse_bool v
  end.

(** One path segment: non-empty, without [/]. *)
Definition path_segment (s : string) : bool :=
  negb (String.eqb s EmptyString) && negb (string_has "/" s).

(** ** Dispatch *)

Definition route_match (r : Route) (req : Request) : option Response :=
  match r, req with
  | Mount p dir, HttpGet path =>
      option_map (fun rest => ServeFile (dir +s+ "/" +s+ rest)) (strip_prefix (p +s+ "/") path)
  | Mount p _, WsConnect path _ =>
      (** [StaticFiles] serves HTTP only. *)
      option_map (fun _ => NotFound) (strip_prefix (p +s+ "/") path)
  | Get p file, HttpGet path => if String.eqb p path then Some (ServeFile file) else None
  | WebSocketRoute p, WsConnect path q =>
      match strip_prefix p path with
      | Some sid =>
          if path_segment sid then
            Some (match bool_param q "is_audio", bool_param q "dev_mode" with
                  | Some a, Some d => Endpoint sid a d
                  | _, _ => ValidationClose
                  end)
          else None
      | None => None
      end
  | _, _ => None
  end.

Fixpoint dispatch (routes : list Route) (req : Request) : Response :=
  match routes with
  | [] => NotFound
  | r :: rs => match route_match r req with
               | Some resp => resp
               | None => dispatch rs req
               end
  end.

(** The server action a websocket request starts, with the engine's
    events and the end of its stream, and the client's frames of that
    connection. *)
Definition connect_action (req : Request) (events : list Event) (stream_end : outcome unit)
    (frames : list string) : option action :=
  match dispatch app_routes req with
  | Endpoint sid a d => Some (Connect sid a d events stream_end frames)
  | _ => None
  end.

(** ** Lemmas *)

Lemma strip_prefix_app p s : strip_prefix p (p +s+ s) = Some s.
Proof. induction p as [|a p IH]; [done|]. rewrite string_app_cons, strip_prefix_cons_eq. exact IH. Qed.

Lemma strip_prefix_app_inv p s r : strip_prefix p s = Some r -> s = p +s+ r.
Proof.
  revert s. induction p as [|a p IH]; intros s H; [by injection H as ->|].
  destruct s as [|b s]; [done|]. cbn in H.
  destruct (ascii_dec a b) as [->|]; [|done]. rewrite string_app_cons. f_equal. by apply IH.
Qed.

(** [/] is the page of the app. *)
Lemma root_serves_index : dispatch app_routes (HttpGet "/") = ServeFile "frontend/static/index.html".
Proof. reflexivity. Qed.

(** Every path under [/static/] is a file of [frontend/static]. *)
Lemma static_serves_file f :
  dispatch app_routes (HttpGet ("/static/" +s+ f)) = ServeFile ("frontend/static/" +s+ f).
Proof.
  cbn [dispatch app_routes route_match]. change ("/static" +s+ "/") with "/static/".
  by rewrite strip_prefix_app.
Qed.

(** C25: Routing of the websocket endpoint.  [websocket_endpoint] runs
    exactly for a websocket request on [/ws/] followed by one path
    segment, which is the session id, whose query parameters [is_audio]
    and [dev_mode] validate as booleans (or are absent); it receives their
    values. *)
Theorem dispatch_endpoint_iff req sid a d :
  dispatch app_routes req = Endpoint sid a d <->
  exists q, req = WsConnect ("/ws/" +s+ sid) q /\ path_segment sid = true /\
            bool_param q "is_audio" = Some a /\ bool_param q "dev_mode" = Some d.
Proof.
  split.
  - destruct req as [path | path q]; cbn [dispatch app_routes route_match].
    + intros H. destruct (strip_prefix ("/static" +s+ "/") path); cbn in H; [congruence|].
      repeat case_match; congruence.
    + destruct (strip_prefix ("/static" +s+ "/") path); [done|]. cbn [option_map].
      destruct (strip_prefix "/ws/" path) as [s|] eqn:Hs; [|done].
      destruct (path_segment s) eqn:Hseg; [|done].
      destruct (bool_param q "is_audio") eqn:Ha, (bool_param q "dev_mode") eqn:Hd;
        intros [= <- <- <-]; try done.
      exists q. by rewrite (strip_prefix_app_inv _ _ _ Hs).
  - intros (q & -> & Hseg & Ha & Hd). cbn [dispatch app_routes route_match].
    change ("/static" +s+ "/") with "/static/".
    replace (strip_prefix "/static/" ("/ws/" +s+ sid)) with (@None string) by reflexivity.
    cbn [option_map]. by rewrite strip_prefix_app, Hseg, Ha, Hd.
Qed.

(** C40: Invalid flags are refused before the endpoint.  A websocket
    request on [/ws/<id>] whose last [is_audio] value is not a boolean
    FastAPI accepts is closed by validation: [websocket_endpoint] does not
    run, so nothing is accepted nor printed and no session is made. *)
Theorem invalid_bool_closes sid q v :
  path_segment sid = true -> query_get q "is_audio" = Some v -> parse_bool v = None ->
  dispatch app_routes (WsConnect ("/ws/" +s+ sid) q) = ValidationClose.
Proof.
  intros Hseg Hq Hv. cbn [dispatch app_routes route_match].
  change ("/static" +s+ "/") with "/static/".
  replace (strip_prefix "/static/" ("/ws/" +s+ sid)) with (@None string) by reflexivity.
  cbn [option_map]. rewrite strip_prefix_app, Hseg. unfold bool_param at 1. by rewrite Hq, Hv.
Qed.

(** A websocket request that reaches the endpoint adds its connection to
    the server, printing the connect line with the session id of the
    path and the flags of the query. *)
Lemma connect_action_step rt pol req evs se fs s sid a d :
  dispatch app_routes req = Endpoint sid a d ->
  exists s', connect_action req evs se fs = Some (Connect sid a d evs se fs) /\
    server_step rt pol (Connect sid a d evs se fs) s = Some s' /\
    sv_conns s' = sv_conns s ++ [accepted sid a d evs se fs] /\
    sv_log s' = sv_log s ++ [connect_line sid a d].
Proof. intros H. unfold connect_action. rewrite H. by eexists. Qed.

(** ** Witnesses *)

Lemma invalid_bool_closes_witness :
  dispatch app_routes (WsConnect "/ws/alice" [("is_audio", "maybe")]) = ValidationClose.
Proof.
  apply (invalid_bool_closes "alice" [("is_audio", "maybe")] "maybe");
    vm_compute; reflexivity.
Defined.
